(** * ouiche_fs: directory operations and the eviction policy of inode.c

    A shallow embedding of [src/inode.c], of the two strategy modules
    ([src/ouichefs_strategy_changer.c], [src/strategy_changer.c]) and of
    the ioctl entry point of [src/fs.c].

    The C functions become Rocq functions over an explicit file-system
    state.  Pointers to [struct inode] are inode numbers into the inode
    store, buffer heads are block numbers into the block store (so two
    [sb_bread] of one block alias, as in the buffer cache), and every
    access through an invalid pointer or past the end of an array ends the
    run in [Oops]. *)

From Stdlib Require Import ZArith Lia List Bool.
From stdpp Require Import base option list gmap.

Local Open Scope Z_scope.

(** ** Constants *)

(** [ouichefs.h] is not among the sources: the geometry of a volume is a
    parameter of the development. *)
Class layout := {
  OUICHEFS_MAX_SUBFILES : Z;
  OUICHEFS_FILENAME_LEN : Z;
  OUICHEFS_BLOCK_SIZE : Z;
}.

(** errno values and mode bits of the Linux headers. *)
Definition EIO : Z := 5.
Definition EEXIST : Z := 17.
Definition EINVAL : Z := 22.
Definition ENOSPC : Z := 28.
Definition EMLINK : Z := 31.
Definition ENAMETOOLONG : Z := 36.
Definition ENOTEMPTY : Z := 39.

Definition S_IFMT : Z := 61440.   (* 0170000 *)
Definition S_IFDIR : Z := 16384.  (* 0040000 *)
Definition S_IFREG : Z := 32768.  (* 0100000 *)
Definition S_ISGID : Z := 1024.   (* 0002000 *)

Definition S_ISDIR (m : Z) : bool := Z.land m S_IFMT =? S_IFDIR.
Definition S_ISREG (m : Z) : bool := Z.land m S_IFMT =? S_IFREG.

Definition RENAME_EXCHANGE : Z := 2.
Definition RENAME_WHITEOUT : Z := 4.

(** Conversion of a 64-bit value to [int], as at the [return] of the
    comparators: the low 32 bits, read as a signed number. *)
Definition to_int (z : Z) : Z := (z + 2 ^ 31) mod 2 ^ 32 - 2 ^ 31.

(** Unsigned wrap-around: [unsigned int] ([i_nlink]) and 64-bit
    ([blkcnt_t]) arithmetic. *)
Definition to_u32 (z : Z) : Z := z mod 2 ^ 32.
Definition to_u64 (z : Z) : Z := z mod 2 ^ 64.

(** ** Outcomes *)

Inductive fault :=
| NullDeref      (* access through a NULL pointer *)
| ErrPtrDeref    (* access through an ERR_PTR value *)
| BadPointer     (* a struct inode pointer that designates no inode *)
| OutOfBounds    (* array index outside the array *)
| BadCast.       (* block read under a view it was not written with *)

Inductive outcome (A : Type) :=
| Ret (a : A)
| Oops (f : fault)
| NoFuel.        (* the recursion of the model ran out of fuel *)
Arguments Ret {A} a.
Arguments Oops {A} f.
Arguments NoFuel {A}.

Definition obind {A B} (m : outcome A) (k : A -> outcome B) : outcome B :=
  match m with
  | Ret a => k a
  | Oops f => Oops f
  | NoFuel => NoFuel
  end.

#[global] Instance outcome_mbind : MBind outcome := fun A B k m => obind m k.
#[global] Instance outcome_mret : MRet outcome := fun A a => Ret a.

(** ** C strings *)

(** A character is its code; 0 is NUL.  A string argument is the list of
    its characters, the end of the list standing for the terminator. *)
Definition cstring := list Z.

Fixpoint strlen (s : cstring) : Z :=
  match s with
  | [] => 0
  | c :: s' => if c =? 0 then 0 else 1 + strlen s'
  end.

(** [strncpy(dst, src, n)]: the [n] bytes written to [dst]. *)
Fixpoint strncpy (src : cstring) (n : nat) : list Z :=
  match n with
  | O => []
  | S n' =>
      match src with
      | [] => repeat 0 n
      | c :: src' => if c =? 0 then repeat 0 n else c :: strncpy src' n'
      end
  end.

(** [strncmp(a, b, n)]. *)
Fixpoint strncmp (a b : list Z) (n : nat) : Z :=
  match n with
  | O => 0
  | S n' =>
      let ca := hd 0 a in
      let cb := hd 0 b in
      if ca =? cb
      then (if ca =? 0 then 0 else strncmp (tl a) (tl b) n')
      else ca - cb
  end.

(** ** Data model *)

(** The struct declarations of [ouichefs.h] are not among the sources; the
    records below hold the fields that inode.c reads and writes, with the
    layout of sections 3 and 6 of the specification (a directory block is
    an array of [OUICHEFS_MAX_SUBFILES] entries, a file index block an
    array of 32-bit block numbers). *)

(** [struct ouichefs_file]: one directory entry. *)
Record ouichefs_file := {
  inode : Z;
  filename : list Z;
}.

Definition zero_file `{layout} : ouichefs_file :=
  {| inode := 0; filename := repeat 0 (Z.to_nat OUICHEFS_FILENAME_LEN) |}.

(** The content of a block under the view it was last written with.
    [Zeroed] is a block filled by [memset(.., 0, OUICHEFS_BLOCK_SIZE)]; it
    reads as zero under every view. *)
Inductive block :=
| Zeroed
| DirBlock (files : list ouichefs_file)      (* struct ouichefs_dir_block *)
| FileIndexBlock (blks : list Z)             (* struct ouichefs_file_index_block *)
| DataBlock (bytes : list Z).

Record timespec := {
  tv_sec : Z;
  tv_nsec : Z;
}.

(** The in-memory inode: the fields of [struct inode] that inode.c uses,
    and [index_block] of [struct ouichefs_inode_info].  [i_count] is the
    reference count kept by the VFS inode cache; the model reads it and
    leaves its maintenance ([iget_locked], [iput]) to the VFS. *)
Record vfs_inode := {
  i_mode : Z;
  i_uid : Z;
  i_gid : Z;
  i_size : Z;
  i_ctime : timespec;
  i_atime : timespec;
  i_mtime : timespec;
  i_blocks : Z;
  i_nlink : Z;
  i_count : Z;
  index_block : Z;
}.

(** [struct ouichefs_sb_info]; bit [i] of a bitmap is [true] when
    resource [i] is free. *)
Record ouichefs_sb_info := {
  nr_inodes : Z;
  nr_blocks : Z;
  nr_free_inodes : Z;
  nr_free_blocks : Z;
  ifree_bitmap : list bool;
  bfree_bitmap : list bool;
}.

Record dentry := {
  d_name : cstring;
  d_inode : option Z;
}.

(** [struct ouichefs_inode_kinship]: the running victim and its parent. *)
Record ouichefs_inode_kinship := {
  parent : option Z;
  victim_inode : option Z;
}.

(** The state of a mounted volume.  A block absent from [blocks] is one
    that [sb_bread] fails to read.  [aliases] is the dentry cache as
    [d_find_any_alias] sees it: the name of a dentry bound to the inode,
    for the inodes that have one.  [ouichefs_fblocks_strategy] is the global
    comparator pointer, [current_time] the clock, [fsuid]/[fsgid] the
    credentials of the caller. *)
Record state := {
  blocks : gmap Z block;
  inodes : gmap Z vfs_inode;
  sbi : ouichefs_sb_info;
  aliases : gmap Z cstring;
  ouichefs_fblocks_strategy : option (vfs_inode -> vfs_inode -> Z);
  current_time : timespec;
  fsuid : Z;
  fsgid : Z;
}.

Definition set_blocks (st : state) (b : gmap Z block) : state :=
  {| blocks := b; inodes := inodes st; sbi := sbi st; aliases := aliases st;
     ouichefs_fblocks_strategy := ouichefs_fblocks_strategy st;
     current_time := current_time st; fsuid := fsuid st; fsgid := fsgid st |}.

Definition set_inodes (st : state) (i : gmap Z vfs_inode) : state :=
  {| blocks := blocks st; inodes := i; sbi := sbi st; aliases := aliases st;
     ouichefs_fblocks_strategy := ouichefs_fblocks_strategy st;
     current_time := current_time st; fsuid := fsuid st; fsgid := fsgid st |}.

Definition set_sbi (st : state) (s : ouichefs_sb_info) : state :=
  {| blocks := blocks st; inodes := inodes st; sbi := s; aliases := aliases st;
     ouichefs_fblocks_strategy := ouichefs_fblocks_strategy st;
     current_time := current_time st; fsuid := fsuid st; fsgid := fsgid st |}.

Definition set_strategy (st : state) (f : option (vfs_inode -> vfs_inode -> Z)) : state :=
  {| blocks := blocks st; inodes := inodes st; sbi := sbi st; aliases := aliases st;
     ouichefs_fblocks_strategy := f;
     current_time := current_time st; fsuid := fsuid st; fsgid := fsgid st |}.

(** ** Blocks and inodes of a state *)

Section Model.
Context `{L : layout}.

(** [(struct ouichefs_dir_block * )bh->b_data]. *)
Definition dir_view (b : block) : outcome (list ouichefs_file) :=
  match b with
  | Zeroed => Ret (repeat zero_file (Z.to_nat OUICHEFS_MAX_SUBFILES))
  | DirBlock fs => Ret fs
  | _ => Oops BadCast
  end.

(** [(struct ouichefs_file_index_block * )bh->b_data]: an array of 32-bit
    block numbers filling the block. *)
Definition index_view (b : block) : outcome (list Z) :=
  match b with
  | Zeroed => Ret (repeat 0 (Z.to_nat (OUICHEFS_BLOCK_SIZE / 4)))
  | FileIndexBlock blks => Ret blks
  | _ => Oops BadCast
  end.

Definition sb_bread (st : state) (bno : Z) : option block := blocks st !! bno.

Definition write_block (st : state) (bno : Z) (b : block) : state :=
  set_blocks st (<[bno := b]> (blocks st)).

(** Dereference of a [struct inode *] handed over by the VFS. *)
Definition get_inode (st : state) (p : Z) : outcome vfs_inode :=
  match inodes st !! p with
  | Some i => Ret i
  | None => Oops BadPointer
  end.

Definition set_inode (st : state) (p : Z) (i : vfs_inode) : state :=
  set_inodes st (<[p := i]> (inodes st)).

(** [a[i]] for a C array held as a list. *)
Definition entry {A} (a : list A) (i : Z) : outcome A :=
  if i <? 0 then Oops OutOfBounds
  else match a !! Z.to_nat i with
       | Some x => Ret x
       | None => Oops OutOfBounds
       end.

(** [memmove(files + dst, files + src, n * sizeof(struct ouichefs_file))]. *)
Definition memmove_files (files : list ouichefs_file) (dst src n : Z)
  : outcome (list ouichefs_file) :=
  if n =? 0 then Ret files
  else if (0 <=? dst) && (0 <=? src) && (0 <? n)
          && (dst + n <=? Z.of_nat (length files))
          && (src + n <=? Z.of_nat (length files))
  then Ret (take (Z.to_nat dst) files
            ++ take (Z.to_nat n) (drop (Z.to_nat src) files)
            ++ drop (Z.to_nat (dst + n)) files)
  else Oops OutOfBounds.

(** [memset(&files[i], 0, sizeof(struct ouichefs_file))]. *)
Definition memset_file (files : list ouichefs_file) (i : Z)
  : outcome (list ouichefs_file) :=
  if (0 <=? i) && (i <? Z.of_nat (length files))
  then Ret (<[Z.to_nat i := zero_file]> files)
  else Oops OutOfBounds.

(** ** Bitmap allocator *)

(** [bitmap.h] ([get_free_inode], [get_free_block], [put_inode],
    [put_block]) is not among the sources; the allocator follows section
    4.1 of the specification.  Allocation scans the bitmap for the first
    free bit, marks it used and decrements the free count; inode.c tests
    its result against 0, the value for "none free".  Freeing sets the bit
    back to free and increments the free count. *)

(** Modelled from the spec: the scan for the first free bit, absent with
    [bitmap.h]. *)
Fixpoint find_first_bit (bm : list bool) (i : Z) : option Z :=
  match bm with
  | [] => None
  | b :: bm' => if b then Some i else find_first_bit bm' (i + 1)
  end.

(** Modelled from the spec: the first free bit is marked used; the helper
    is absent with [bitmap.h]. *)
Definition get_first_free_bit (bm : list bool) : Z * list bool :=
  match find_first_bit bm 0 with
  | None => (0, bm)
  | Some i => (i, <[Z.to_nat i := false]> bm)
  end.

(** Modelled from the spec: the bit is set back to free; the helper is
    absent with [bitmap.h]. *)
Definition put_free_bit (bm : list bool) (i : Z) : list bool :=
  if i <? 0 then bm else <[Z.to_nat i := true]> bm.

(** Modelled from the spec: [get_free_inode] of the absent [bitmap.h]. *)
Definition get_free_inode (s : ouichefs_sb_info) : Z * ouichefs_sb_info :=
  match find_first_bit (ifree_bitmap s) 0 with
  | None => (0, s)
  | Some i =>
      (i, {| nr_inodes := nr_inodes s; nr_blocks := nr_blocks s;
             nr_free_inodes := nr_free_inodes s - 1;
             nr_free_blocks := nr_free_blocks s;
             ifree_bitmap := snd (get_first_free_bit (ifree_bitmap s));
             bfree_bitmap := bfree_bitmap s |})
  end.

(** Modelled from the spec: [get_free_block] of the absent [bitmap.h]. *)
Definition get_free_block (s : ouichefs_sb_info) : Z * ouichefs_sb_info :=
  match find_first_bit (bfree_bitmap s) 0 with
  | None => (0, s)
  | Some i =>
      (i, {| nr_inodes := nr_inodes s; nr_blocks := nr_blocks s;
             nr_free_inodes := nr_free_inodes s;
             nr_free_blocks := nr_free_blocks s - 1;
             ifree_bitmap := ifree_bitmap s;
             bfree_bitmap := snd (get_first_free_bit (bfree_bitmap s)) |})
  end.

(** Modelled from the spec: [put_inode] of the absent [bitmap.h]. *)
Definition put_inode (s : ouichefs_sb_info) (ino : Z) : ouichefs_sb_info :=
  {| nr_inodes := nr_inodes s; nr_blocks := nr_blocks s;
     nr_free_inodes := nr_free_inodes s + 1;
     nr_free_blocks := nr_free_blocks s;
     ifree_bitmap := put_free_bit (ifree_bitmap s) ino;
     bfree_bitmap := bfree_bitmap s |}.

(** Modelled from the spec: [put_block] of the absent [bitmap.h]. *)
Definition put_block (s : ouichefs_sb_info) (bno : Z) : ouichefs_sb_info :=
  {| nr_inodes := nr_inodes s; nr_blocks := nr_blocks s;
     nr_free_inodes := nr_free_inodes s;
     nr_free_blocks := nr_free_blocks s + 1;
     ifree_bitmap := ifree_bitmap s;
     bfree_bitmap := put_free_bit (bfree_bitmap s) bno |}.

(** ** Removal (inode.c, [ouichefs_remove]) *)

(** The search loop of [ouichefs_remove]:
    [for (i = 0; i < OUICHEFS_MAX_SUBFILES; i++)], with [n] the number of
    iterations left.  It yields [(f_id, i)] at loop exit. *)
Fixpoint remove_scan (files : list ouichefs_file) (ino : Z)
    (n : nat) (i f_id : Z) : outcome (Z * Z) :=
  match n with
  | O => Ret (f_id, i)
  | S n' =>
      f ← entry files i;
      if inode f =? ino then remove_scan files ino n' (i + 1) i
      else if inode f =? 0 then Ret (f_id, i)
      else remove_scan files ino n' (i + 1) f_id
  end.

(** "Remove file from parent directory": the [memmove] guarded by
    [f_id != OUICHEFS_MAX_SUBFILES - 1], then the [memset] of the slot
    [nr_subs - 1]. *)
Definition remove_entry (files : list ouichefs_file) (f_id nr_subs : Z)
  : outcome (list ouichefs_file) :=
  files1 ← (if f_id =? OUICHEFS_MAX_SUBFILES - 1 then Ret files
            else memmove_files files f_id (f_id + 1) (nr_subs - f_id - 1));
  memset_file files1 (nr_subs - 1).

(** The two steps on the parent's entry array: search, then removal. *)
Definition remove_from_dir (files : list ouichefs_file) (ino : Z)
  : outcome (list ouichefs_file) :=
  '(f_id, nr_subs) ← remove_scan files ino
                        (Z.to_nat OUICHEFS_MAX_SUBFILES) 0 (-1);
  remove_entry files f_id nr_subs.

(** [dir->i_mtime = dir->i_atime = dir->i_ctime = current_time(dir)]. *)
Definition touch (i : vfs_inode) (t : timespec) : vfs_inode :=
  {| i_mode := i_mode i; i_uid := i_uid i; i_gid := i_gid i;
     i_size := i_size i; i_ctime := t; i_atime := t; i_mtime := t;
     i_blocks := i_blocks i; i_nlink := i_nlink i; i_count := i_count i;
     index_block := index_block i |}.

Definition set_nlink (i : vfs_inode) (n : Z) : vfs_inode :=
  {| i_mode := i_mode i; i_uid := i_uid i; i_gid := i_gid i;
     i_size := i_size i; i_ctime := i_ctime i; i_atime := i_atime i;
     i_mtime := i_mtime i; i_blocks := i_blocks i; i_nlink := n;
     i_count := i_count i; index_block := index_block i |}.

Definition inode_dec_link_count (i : vfs_inode) : vfs_inode :=
  set_nlink i (to_u32 (i_nlink i - 1)).

Definition inode_inc_link_count (i : vfs_inode) : vfs_inode :=
  set_nlink i (to_u32 (i_nlink i + 1)).

(** The data-block loop of [ouichefs_remove],
    [for (i = 0; i < inode->i_blocks - 1; i++)], over the entries
    [blks] of the index block from position [i] on.  [bno] is the index
    block itself: once it has been scrubbed through a data pointer
    ([scrubbed]), the entries still to be read are zero. *)
Fixpoint release_blocks (blks : list Z) (scrubbed : bool) (bno i count : Z)
    (st : state) : outcome state :=
  match blks with
  | [] => if i <? count then Oops OutOfBounds else Ret st
  | b0 :: rest =>
      if i <? count then
        let b := if scrubbed then 0 else b0 in
        if b =? 0 then release_blocks rest scrubbed bno (i + 1) count st
        else
          let st1 := set_sbi st (put_block (sbi st) b) in
          match sb_bread st1 b with
          | None => release_blocks rest scrubbed bno (i + 1) count st1
          | Some _ =>
              release_blocks rest (b =? bno) bno (i + 1) count
                (write_block st1 b Zeroed)
          end
      else Ret st
  end.

(** The part of [ouichefs_remove] between the second [sb_bread] and the
    label [clean_inode]. *)
Definition cleanup_blocks (st : state) (t : vfs_inode) (bno : Z)
  : outcome state :=
  match sb_bread st bno with
  | None => Ret st                                   (* goto clean_inode *)
  | Some bh =>
      st1 ← (if S_ISDIR (i_mode t) then Ret st       (* goto scrub *)
             else
               blks ← index_view bh;
               release_blocks blks false bno 0 (to_u64 (i_blocks t - 1)) st);
      Ret (write_block st1 bno Zeroed)
  end.

(** The assignments after [clean_inode:]. *)
Definition clean_inode (i : vfs_inode) : vfs_inode :=
  {| i_mode := 0; i_uid := 0; i_gid := 0; i_size := 0;
     i_ctime := {| tv_sec := 0; tv_nsec := tv_nsec (i_ctime i) |};
     i_atime := {| tv_sec := 0; tv_nsec := tv_nsec (i_atime i) |};
     i_mtime := {| tv_sec := 0; tv_nsec := tv_nsec (i_mtime i) |};
     i_blocks := 0; i_nlink := i_nlink i; i_count := i_count i;
     index_block := 0 |}.

Definition ouichefs_remove (st : state) (dir ino : Z) : outcome (state * Z) :=
  d ← get_inode st dir;
  t ← get_inode st ino;
  let bno := index_block t in
  match sb_bread st (index_block d) with
  | None => Ret (st, - EIO)
  | Some bh =>
      files ← dir_view bh;
      files' ← remove_from_dir files ino;
      let st1 := write_block st (index_block d) (DirBlock files') in
      (* Update inode stats *)
      let d1 := touch d (current_time st) in
      let d2 := if S_ISDIR (i_mode t) then inode_dec_link_count d1 else d1 in
      let st2 := set_inode st1 dir d2 in
      (* Cleanup pointed blocks *)
      st3 ← cleanup_blocks st2 t bno;
      (* clean_inode: *)
      t' ← get_inode st3 ino;
      let st4 := set_inode st3 ino (clean_inode t') in
      let st5 := set_sbi st4 (put_inode (put_block (sbi st4) bno) ino) in
      Ret (st5, 0)
  end.

(** [d_inode(dentry)]. *)
Definition d_inode_of (d : dentry) : outcome Z :=
  match d_inode d with
  | Some ino => Ret ino
  | None => Oops NullDeref
  end.

Definition ouichefs_unlink (st : state) (dir : Z) (d : dentry)
  : outcome (state * Z) :=
  ino ← d_inode_of d;
  ouichefs_remove st dir ino.

(** ** Inode lookup by number ([ouichefs_iget]) *)

(** The result of [ouichefs_iget]: [inl e] is [ERR_PTR(e)], [inr p] a
    pointer to the in-memory inode.  An inode absent from the store is one
    whose inode block cannot be read. *)
Definition ouichefs_iget (st : state) (ino : Z) : Z + Z :=
  if nr_inodes (sbi st) <=? ino then inl (- EINVAL)
  else match inodes st !! ino with
       | Some _ => inr ino
       | None => inl (- EIO)
       end.

(** ** Comparator strategies *)

(** inode.c: [a->i_mtime.tv_sec - b->i_mtime.tv_sec], returned as [int]. *)
Definition ouichefs_fblocks_strategy_mtime (a b : vfs_inode) : Z :=
  to_int (tv_sec (i_mtime a) - tv_sec (i_mtime b)).

(** ouichefs_strategy_changer.c: [b->i_size - a->i_size]. *)
Definition ouichefs_strategy_size (a b : vfs_inode) : Z :=
  to_int (i_size b - i_size a).

(** strategy_changer.c: [a->i_size - b->i_size]. *)
Definition strategy_by_size (a b : vfs_inode) : Z :=
  to_int (i_size a - i_size b).

(** The module initialisers install their comparator in the global
    pointer and yield the saved one. *)
Definition ouichefs_strategy_changer_init (st : state)
  : state * option (vfs_inode -> vfs_inode -> Z) :=
  (set_strategy st (Some ouichefs_strategy_size), ouichefs_fblocks_strategy st).

Definition uname_init (st : state)
  : state * option (vfs_inode -> vfs_inode -> Z) :=
  (set_strategy st (Some strategy_by_size), ouichefs_fblocks_strategy st).

(** ** Tree walk ([ouichefs_iterate]) *)

Section Iterate.
Context {A : Type}.
(** [action] may be [NULL]. *)
Context (action : option (Z -> Z -> A -> outcome A)).

(** The loop of [ouichefs_iterate] over the entries [fs] still to be
    read, [n] iterations before [i] reaches [OUICHEFS_MAX_SUBFILES];
    [rec] is the recursive call on a sub-directory. *)
Fixpoint iterate_loop (rec : Z -> A -> outcome A) (st : state) (dir : Z)
    (n : nat) (fs : list ouichefs_file) (data : A) : outcome A :=
  match n with
  | O => Ret data
  | S n' =>
      match fs with
      | [] => Oops OutOfBounds
      | f :: fs' =>
          if inode f =? 0 then Ret data
          else
            match ouichefs_iget st (inode f) with
            | inl _ => Oops ErrPtrDeref
            | inr p =>
                i ← get_inode st p;
                data' ← (if S_ISDIR (i_mode i) then rec p data
                         else if S_ISREG (i_mode i) then
                                match action with
                                | Some act => act dir p data
                                | None => Ret data
                                end
                         else Ret data);
                iterate_loop rec st dir n' fs' data'
            end
      end
  end.

Fixpoint ouichefs_iterate (fuel : nat) (st : state) (dir : Z) (data : A)
  : outcome A :=
  match fuel with
  | O => NoFuel
  | S fuel' =>
      d ← get_inode st dir;
      match sb_bread st (index_block d) with
      | None => Ret data
      | Some bh =>
          files ← dir_view bh;
          iterate_loop (ouichefs_iterate fuel' st) st dir
            (Z.to_nat OUICHEFS_MAX_SUBFILES) files data
      end
  end.

End Iterate.

(** ** Eviction ([ouichefs_fblocks_action], [ouichefs_fblocks]) *)

Definition ouichefs_fblocks_action (st : state) (dir ino : Z)
    (victim : ouichefs_inode_kinship) : outcome ouichefs_inode_kinship :=
  i ← get_inode st ino;
  if i_count i >? 1 then Ret victim
  else
    ret ← match victim_inode victim with
          | None => Ret 1
          | Some v =>
              match ouichefs_fblocks_strategy st with
              | Some strategy => a ← get_inode st v; Ret (strategy a i)
              | None => Ret 0
              end
          end;
    if ret >? 0 then Ret {| parent := Some dir; victim_inode := Some ino |}
    else Ret victim.

Definition d_find_any_alias (st : state) (ino : Z) : option dentry :=
  (fun name => {| d_name := name; d_inode := Some ino |}) <$> aliases st !! ino.

Definition deref {A} (p : option A) : outcome A :=
  match p with
  | Some x => Ret x
  | None => Oops NullDeref
  end.

(** [vfs_unlink(dir, dentry, ..)]: the VFS entry point; it dispatches to
    the directory's [unlink] operation, [ouichefs_unlink].  The permission
    checks of the VFS are outside the model. *)
Definition vfs_unlink (st : state) (dir : Z) (d : dentry)
  : outcome (state * Z) :=
  ouichefs_unlink st dir d.

Definition ouichefs_fblocks (fuel : nat) (st : state) (dir : Z)
  : outcome (state * Z) :=
  victim ← ouichefs_iterate (Some (ouichefs_fblocks_action st)) fuel st dir
             {| parent := None; victim_inode := None |};
  match victim_inode victim with
  | None => Ret (st, -1)
  | Some v =>
      _ ← get_inode st v;                 (* victim->inode->i_count, logged *)
      let dentry := d_find_any_alias st v in
      (* the log line takes [dentry->d_iname], the address of an array
         member: nothing is loaded through [dentry] before the test *)
      match dentry with
      | None =>
          p ← deref (parent victim);
          '(st', _) ← ouichefs_remove st p v;
          Ret (st', 0)
      | Some d =>
          p ← deref (parent victim);
          '(st', _) ← vfs_unlink st p d;
          Ret (st', 0)
      end
  end.

(** ** Lookup ([ouichefs_lookup]) *)

(** The search loop of [ouichefs_lookup]; it yields the [f->inode] handed
    to [ouichefs_iget], if any. *)
Fixpoint lookup_scan (files : list ouichefs_file) (name : cstring)
    (n : nat) (i : Z) : outcome (option Z) :=
  match n with
  | O => Ret None
  | S n' =>
      f ← entry files i;
      if inode f =? 0 then Ret None
      else if strncmp (filename f) name (Z.to_nat OUICHEFS_FILENAME_LEN) =? 0
           then Ret (Some (inode f))
           else lookup_scan files name n' (i + 1)
  end.

Definition set_atime (i : vfs_inode) (t : timespec) : vfs_inode :=
  {| i_mode := i_mode i; i_uid := i_uid i; i_gid := i_gid i;
     i_size := i_size i; i_ctime := i_ctime i; i_atime := t;
     i_mtime := i_mtime i; i_blocks := i_blocks i; i_nlink := i_nlink i;
     i_count := i_count i; index_block := index_block i |}.

(** [d_add(dentry, inode)] and [d_instantiate(dentry, inode)]: the dentry
    bound to the inode ([None]: a negative dentry). *)
Definition d_add (d : dentry) (ino : option Z) : dentry :=
  {| d_name := d_name d; d_inode := ino |}.

(** The result is the state, the dentry as filled by [d_add], and the
    error code of the returned pointer (0 for [NULL]). *)
Definition ouichefs_lookup (st : state) (dir : Z) (d : dentry) (flags : Z)
  : outcome (state * dentry * Z) :=
  if Z.of_nat (length (d_name d)) >? OUICHEFS_FILENAME_LEN
  then Ret (st, d, - ENAMETOOLONG)
  else
    ci_dir ← get_inode st dir;
    match sb_bread st (index_block ci_dir) with
    | None => Ret (st, d, - EIO)
    | Some bh =>
        files ← dir_view bh;
        found ← lookup_scan files (d_name d)
                  (Z.to_nat OUICHEFS_MAX_SUBFILES) 0;
        ino ← match found with
              | None => Ret None
              | Some n =>
                  match ouichefs_iget st n with
                  | inl _ => Oops ErrPtrDeref       (* d_add on an ERR_PTR *)
                  | inr p => Ret (Some p)
                  end
              end;
        let st1 := set_inode st dir (set_atime ci_dir (current_time st)) in
        Ret (st1, d_add d ino, 0)
    end.

(** ** Creation ([ouichefs_new_inode], [ouichefs_create]) *)

(** [inode_init_owner(inode, dir, mode)] of the VFS: owner from the
    caller's credentials, group and set-gid bit inherited from a set-gid
    directory. *)
Definition inode_init_owner (st : state) (i dir : vfs_inode) (mode : Z)
  : vfs_inode :=
  let setgid := negb (Z.land (i_mode dir) S_ISGID =? 0) in
  {| i_mode := if setgid && S_ISDIR mode then Z.lor mode S_ISGID else mode;
     i_uid := fsuid st;
     i_gid := if setgid then i_gid dir else fsgid st;
     i_size := i_size i; i_ctime := i_ctime i; i_atime := i_atime i;
     i_mtime := i_mtime i; i_blocks := i_blocks i; i_nlink := i_nlink i;
     i_count := i_count i; index_block := index_block i |}.

(** The initialisation of the new inode after [inode_init_owner]. *)
Definition init_inode (st : state) (i : vfs_inode) (mode bno : Z)
  : vfs_inode :=
  {| i_mode := i_mode i; i_uid := i_uid i; i_gid := i_gid i;
     i_size := if S_ISDIR mode then OUICHEFS_BLOCK_SIZE
               else if S_ISREG mode then 0 else i_size i;
     i_ctime := current_time st; i_atime := current_time st;
     i_mtime := current_time st;
     i_blocks := 1;
     i_nlink := if S_ISDIR mode then 2
                else if S_ISREG mode then 1 else i_nlink i;
     i_count := i_count i;
     index_block := bno |}.

(** [inl e] is [ERR_PTR(e)], [inr ino] the new inode. *)
Definition ouichefs_new_inode (st : state) (dir : Z) (mode : Z)
  : outcome (state * (Z + Z)) :=
  if negb (S_ISDIR mode) && negb (S_ISREG mode)
  then Ret (st, inl (- EINVAL))
  else if (nr_free_inodes (sbi st) =? 0) || (nr_free_blocks (sbi st) =? 0)
  then Ret (st, inl (- ENOSPC))
  else
    let '(ino, s1) := get_free_inode (sbi st) in
    let st1 := set_sbi st s1 in
    if ino =? 0 then Ret (st1, inl (- ENOSPC))
    else
      match ouichefs_iget st1 ino with
      | inl e => Ret (set_sbi st1 (put_inode (sbi st1) ino), inl e)
      | inr p =>
          let '(bno, s2) := get_free_block (sbi st1) in
          let st2 := set_sbi st1 s2 in
          if bno =? 0
          then Ret (set_sbi st2 (put_inode (sbi st2) ino), inl (- ENOSPC))
          else
            i ← get_inode st2 p;
            d ← get_inode st2 dir;
            let i1 := inode_init_owner st2 i d mode in
            Ret (set_inode st2 p (init_inode st2 i1 mode bno), inr p)
      end.

(** "Find first free slot in parent index". *)
Fixpoint first_free_slot (files : list ouichefs_file) (n : nat) (i : Z)
  : outcome Z :=
  match n with
  | O => Ret i
  | S n' =>
      f ← entry files i;
      if inode f =? 0 then Ret i else first_free_slot files n' (i + 1)
  end.

(** [files[i].inode = ino; strncpy(files[i].filename, name, ..)]. *)
Definition set_file (files : list ouichefs_file) (i ino : Z) (name : cstring)
  : outcome (list ouichefs_file) :=
  _ ← entry files i;
  Ret (<[Z.to_nat i :=
           {| inode := ino;
              filename := strncpy name (Z.to_nat OUICHEFS_FILENAME_LEN) |}]>
         files).

(** [ouichefs_create] from "Get a new free inode" on; [dbno] is the block
    of the parent's index, held in [bh] since the start of the function.
    The result is the state, the dentry as left by [d_instantiate], and
    the returned code. *)
Definition create_entry (st1 : state) (dir dbno : Z) (d : dentry) (mode : Z)
  : outcome (state * dentry * Z) :=
  '(st2, r) ← ouichefs_new_inode st1 dir mode;
  match r with
  | inl e => Ret (st2, d, e)
  | inr p =>
      ni ← get_inode st2 p;
      match sb_bread st2 (index_block ni) with
      | None =>                                                (* iput: *)
          let s := put_inode (put_block (sbi st2) (index_block ni)) p in
          Ret (set_sbi st2 s, d, - EIO)
      | Some _ =>
          let st3 := write_block st2 (index_block ni) Zeroed in
          bh' ← deref (sb_bread st3 dbno);
          files' ← dir_view bh';
          i ← first_free_slot files' (Z.to_nat OUICHEFS_MAX_SUBFILES) 0;
          files'' ← set_file files' i p (d_name d);
          let st4 := write_block st3 dbno (DirBlock files'') in
          dir' ← get_inode st4 dir;
          let dir1 := touch dir' (current_time st4) in
          let dir2 := if S_ISDIR mode then inode_inc_link_count dir1
                      else dir1 in
          Ret (set_inode st4 dir dir2, d_add d (Some p), 0)
      end
  end.

(** "Check if parent directory is full": the eviction pass when the last
    slot is in use. *)
Definition create_evict (fuel : nat) (st : state) (dir : Z)
    (last : ouichefs_file) : outcome (state * Z) :=
  if negb (inode last =? 0) then ouichefs_fblocks fuel st dir
  else Ret (st, 0).

Definition ouichefs_create (fuel : nat) (st : state) (dir : Z) (d : dentry)
    (mode : Z) (excl : bool) : outcome (state * dentry * Z) :=
  if strlen (d_name d) >? OUICHEFS_FILENAME_LEN
  then Ret (st, d, - ENAMETOOLONG)
  else
    ci_dir ← get_inode st dir;
    let dbno := index_block ci_dir in
    match sb_bread st dbno with
    | None => Ret (st, d, - EIO)
    | Some bh =>
        files ← dir_view bh;
        last ← entry files (OUICHEFS_MAX_SUBFILES - 1);
        '(st1, freed) ← create_evict fuel st dir last;
        if negb (freed =? 0) then Ret (st1, d, - EMLINK)
        else create_entry st1 dir dbno d mode
    end.

Definition ouichefs_mkdir (fuel : nat) (st : state) (dir : Z) (d : dentry)
    (mode : Z) : outcome (state * dentry * Z) :=
  ouichefs_create fuel st dir d (Z.lor mode S_IFDIR) false.

(** ** Rename ([ouichefs_rename]) *)

(** The first loop of [ouichefs_rename] over the target directory:
    [inl e] when it leaves through [goto relse_new] with [ret = e],
    otherwise [inr (f_pos, new_pos)]. *)
Fixpoint rename_check (files : list ouichefs_file) (same_dir : bool)
    (old_name new_name : cstring) (n : nat) (i f_pos new_pos : Z)
  : outcome (Z + Z * Z) :=
  match n with
  | O => Ret (inr (f_pos, new_pos))
  | S n' =>
      f ← entry files i;
      let len := Z.to_nat OUICHEFS_FILENAME_LEN in
      let f_pos' := if same_dir && (strncmp (filename f) old_name len =? 0)
                    then i else f_pos in
      if strncmp (filename f) new_name len =? 0 then Ret (inl (- EEXIST))
      else
        let new_pos' := if (new_pos <? 0) && (inode f =? 0)
                        then i else new_pos in
        rename_check files same_dir old_name new_name n' (i + 1)
          f_pos' new_pos'
  end.

(** [strncpy(files[i].filename, name, OUICHEFS_FILENAME_LEN)]. *)
Definition set_filename (files : list ouichefs_file) (i : Z) (name : cstring)
  : outcome (list ouichefs_file) :=
  f ← entry files i;
  Ret (<[Z.to_nat i :=
           {| inode := inode f;
              filename := strncpy name (Z.to_nat OUICHEFS_FILENAME_LEN) |}]>
         files).

(** The second loop of [ouichefs_rename], over the source directory:
    [for (i = 0; OUICHEFS_MAX_SUBFILES; i++)].  Its condition is the
    constant, so the loop ends at a [break] only; [rest] holds the entries
    from position [i] on, and reading [files[i]] once they are exhausted is
    a read past the array.  It yields [(f_id, i)] at loop exit. *)
Fixpoint rename_scan_from (rest : list ouichefs_file) (ino i f_id : Z)
  : outcome (Z * Z) :=
  match rest with
  | [] => Oops OutOfBounds
  | f :: rest' =>
      if inode f =? ino then rename_scan_from rest' ino (i + 1) i
      else if inode f =? 0 then Ret (f_id, i)
      else rename_scan_from rest' ino (i + 1) f_id
  end.

Definition rename_scan (files : list ouichefs_file) (ino : Z)
  : outcome (Z * Z) :=
  if OUICHEFS_MAX_SUBFILES =? 0 then Ret (-1, 0)
  else rename_scan_from files ino 0 (-1).

Definition ouichefs_rename (st : state) (old_dir : Z) (old_dentry : dentry)
    (new_dir : Z) (new_dentry : dentry) (flags : Z) : outcome (state * Z) :=
  if negb (Z.land flags (Z.lor RENAME_EXCHANGE RENAME_WHITEOUT) =? 0)
  then Ret (st, - EINVAL)
  else if strlen (d_name new_dentry) >? OUICHEFS_FILENAME_LEN
  then Ret (st, - ENAMETOOLONG)
  else
    ci_old ← get_inode st old_dir;
    ci_new ← get_inode st new_dir;
    match sb_bread st (index_block ci_new) with
    | None => Ret (st, - EIO)
    | Some bh_new =>
        files ← dir_view bh_new;
        r ← rename_check files (new_dir =? old_dir)
              (d_name old_dentry) (d_name new_dentry)
              (Z.to_nat OUICHEFS_MAX_SUBFILES) 0 (-1) (-1);
        match r with
        | inl e => Ret (st, e)
        | inr (f_pos, new_pos) =>
            if old_dir =? new_dir then
              (* just rename entry *)
              files' ← set_filename files f_pos (d_name new_dentry);
              Ret (write_block st (index_block ci_new) (DirBlock files'), 0)
            else if new_pos <? 0 then Ret (st, - EMLINK)
            else
              (* insert in new parent directory *)
              src ← d_inode_of old_dentry;
              s ← get_inode st src;
              files' ← set_file files new_pos src (d_name new_dentry);
              let st1 := write_block st (index_block ci_new) (DirBlock files') in
              let n1 := touch ci_new (current_time st) in
              let n2 := if S_ISDIR (i_mode s) then inode_inc_link_count n1
                        else n1 in
              let st2 := set_inode st1 new_dir n2 in
              (* remove target from old parent directory *)
              match sb_bread st2 (index_block ci_old) with
              | None => Ret (st2, - EIO)
              | Some bh_old =>
                  ofiles ← dir_view bh_old;
                  '(f_id, nr_subs) ← rename_scan ofiles src;
                  ofiles' ← remove_entry ofiles f_id nr_subs;
                  let st3 := write_block st2 (index_block ci_old)
                               (DirBlock ofiles') in
                  o ← get_inode st3 old_dir;
                  s' ← get_inode st3 src;
                  let o1 := touch o (current_time st3) in
                  let o2 := if S_ISDIR (i_mode s') then inode_dec_link_count o1
                            else o1 in
                  Ret (set_inode st3 old_dir o2, 0)
              end
        end
    end.

(** ** Directory removal ([ouichefs_rmdir]) *)

Definition ouichefs_rmdir (st : state) (dir : Z) (d : dentry)
  : outcome (state * Z) :=
  ino ← d_inode_of d;
  t ← get_inode st ino;
  if i_nlink t >? 2 then Ret (st, - ENOTEMPTY)
  else
    match sb_bread st (index_block t) with
    | None => Ret (st, - EIO)
    | Some bh =>
        dblock ← dir_view bh;
        f0 ← entry dblock 0;
        if negb (inode f0 =? 0) then Ret (st, - ENOTEMPTY)
        else ouichefs_unlink st dir d
    end.

End Model.

(** ** Module exit functions (ouichefs_strategy_changer.c,
    strategy_changer.c) *)

(** [ouichefs_fblocks_strategy = default_strategy]: the pointer saved by
    the initialiser goes back into the global. *)
Definition ouichefs_strategy_changer_exit (st : state)
    (default_strategy : option (vfs_inode -> vfs_inode -> Z)) : state :=
  set_strategy st default_strategy.

(** [ouichefs_fblocks_strategy = saved_strategy]. *)
Definition uname_exit (st : state)
    (saved_strategy : option (vfs_inode -> vfs_inode -> Z)) : state :=
  set_strategy st saved_strategy.

(** ** The ioctl entry point (fs.c, [unlocked_ioctl]) *)

(** The command numbers of [ioctl_ouichefs.h], which is not among the
    sources. *)
Class ioctl_abi := {
  IOC_MAGIC : Z;
  QUICK_CLEAN : Z;
}.

Definition ENOTTY : Z := 25.

(** [_IOC_TYPE(nr)]: bits 8 to 15 of the command number. *)
Definition _IOC_TYPE (nr : Z) : Z := Z.land (Z.shiftr nr 8) 255.

(** [root_inode] is the global the pass starts from.  The result of
    [ouichefs_fblocks] is dropped, and the [break] of [case QUICK_CLEAN]
    leads to the [return -EINVAL] that ends the function. *)
Definition unlocked_ioctl `{layout} `{ioctl_abi} (fuel : nat) (st : state)
    (root_inode : Z) (cmd arg : Z) : outcome (state * Z) :=
  if negb (_IOC_TYPE cmd =? IOC_MAGIC) then Ret (st, - EINVAL)
  else if cmd =? QUICK_CLEAN then
    '(st', _) ← ouichefs_fblocks fuel st root_inode;
    Ret (st', - EINVAL)
  else Ret (st, - ENOTTY).

(** ** Notions of the specification *)

(** A directory index holding [k] entries: the first [k] slots are in use,
    every later slot has inode number 0. *)
Definition left_packed (files : list ouichefs_file) (k : nat) : Prop :=
  (k <= length files)%nat
  /\ Forall (fun f => inode f <> 0) (take k files)
  /\ Forall (fun f => inode f = 0) (drop k files).

(** The scan of [ouichefs_remove] on the entries themselves. *)
Fixpoint scan_entries (rest : list ouichefs_file) (ino i f_id : Z) : Z * Z :=
  match rest with
  | [] => (f_id, i)
  | f :: rest' =>
      if inode f =? ino then scan_entries rest' ino (i + 1) i
      else if inode f =? 0 then (f_id, i)
      else scan_entries rest' ino (i + 1) f_id
  end.

(** The traversal order of [ouichefs_iterate]: the pairs (directory,
    regular file) in the order in which the action is called on them. *)
Definition collect (dir ino : Z) (acc : list (Z * Z)) : outcome (list (Z * Z)) :=
  Ret (acc ++ [(dir, ino)]).

Definition visits `{layout} (fuel : nat) (st : state) (dir : Z)
  : outcome (list (Z * Z)) :=
  ouichefs_iterate (Some collect) fuel st dir [].

(** An action applied along a list of visits. *)
Fixpoint fold_action {A} (act : Z -> Z -> A -> outcome A)
    (vs : list (Z * Z)) (data : A) : outcome A :=
  match vs with
  | [] => Ret data
  | (d, i) :: vs' => data' ← act d i data; fold_action act vs' data'
  end.

Definition no_victim : ouichefs_inode_kinship :=
  {| parent := None; victim_inode := None |}.

(** A file the eviction pass may select: [i_count] not above 1. *)
Definition eligible (st : state) (ino : Z) : bool :=
  match inodes st !! ino with
  | Some i => negb (i_count i >? 1)
  | None => false
  end.

(** Two runs of the walk, one collecting the visits and one applying
    [act], agree on a sub-directory: whatever the first appends to its
    accumulator, the second folds [act] over. *)
Definition walk_agrees {A} (act : Z -> Z -> A -> outcome A)
    (rec_c : Z -> list (Z * Z) -> outcome (list (Z * Z)))
    (rec_a : Z -> A -> outcome A) : Prop :=
  forall p acc r, rec_c p acc = Ret r ->
    exists vs, r = acc ++ vs
               /\ forall data, rec_a p data = fold_action act vs data.

(** The value of a visited inode under a ranking [key] of inodes. *)
Definition key_of (st : state) (key : vfs_inode -> Z) (ino : Z) : Z :=
  match inodes st !! ino with
  | Some i => key i
  | None => 0
  end.

(** [v] is the first eligible visit of [vs] of least [key]: no victim
    when no visit is eligible; otherwise an eligible visit such that the
    eligible visits before it have a greater key and those after it a key
    not smaller. *)
Definition first_best (st : state) (key : vfs_inode -> Z)
    (vs : list (Z * Z)) (v : ouichefs_inode_kinship) : Prop :=
  match victim_inode v, parent v with
  | None, _ => Forall (fun x => eligible st x.2 = false) vs
  | Some i, Some d =>
      exists pre post,
        vs = pre ++ (d, i) :: post
        /\ eligible st i = true
        /\ Forall (fun x => eligible st x.2 = true ->
                            key_of st key i < key_of st key x.2) pre
        /\ Forall (fun x => eligible st x.2 = true ->
                            key_of st key i <= key_of st key x.2) post
  | Some _, None => False
  end.

(** The comparator [strategy] ranks by [key] on the eligible visits of
    [vs]: its result is positive exactly when the candidate [b] has a
    smaller key than the victim [a]. *)
Definition ranks_by (st : state) (strategy : vfs_inode -> vfs_inode -> Z)
    (key : vfs_inode -> Z) (vs : list (Z * Z)) : Prop :=
  forall x y a b, x ∈ vs -> y ∈ vs ->
    eligible st x.2 = true -> eligible st y.2 = true ->
    inodes st !! x.2 = Some a -> inodes st !! y.2 = Some b ->
    (strategy a b >? 0) = (key b <? key a).

(** A visit of the walk: a regular file of the inode store. *)
Definition regular_visit (st : state) (x : Z * Z) : Prop :=
  x.2 <> 0
  /\ exists i, inodes st !! x.2 = Some i
               /\ S_ISDIR (i_mode i) = false /\ S_ISREG (i_mode i) = true.

Definition collects (st : state)
    (rec_c : Z -> list (Z * Z) -> outcome (list (Z * Z))) : Prop :=
  forall p acc r, rec_c p acc = Ret r ->
    exists vs, r = acc ++ vs /\ Forall (regular_visit st) vs.

(** The rankings behind the three comparators. *)
Definition mtime_key (i : vfs_inode) : Z := tv_sec (i_mtime i).
Definition size_key (i : vfs_inode) : Z := i_size i.
Definition neg_size_key (i : vfs_inode) : Z := - i_size i.

(** The eligible visits of [vs] have a [key] within a window of 2^31
    starting at [lo], so that differences of keys fit an [int]. *)
Definition within_int_window (st : state) (key : vfs_inode -> Z)
    (vs : list (Z * Z)) (lo : Z) : Prop :=
  forall x a, x ∈ vs -> eligible st x.2 = true ->
    inodes st !! x.2 = Some a -> lo <= key a < lo + 2 ^ 31.

(** The directory index of [t] is readable and its first slot is in use /
    is free. *)
Definition first_slot_used `{layout} (st : state) (t : vfs_inode) : Prop :=
  exists bh files f0,
    blocks st !! index_block t = Some bh /\ dir_view bh = Ret files
    /\ files !! 0%nat = Some f0 /\ inode f0 <> 0.

Definition first_slot_free `{layout} (st : state) (t : vfs_inode) : Prop :=
  exists bh files f0,
    blocks st !! index_block t = Some bh /\ dir_view bh = Ret files
    /\ files !! 0%nat = Some f0 /\ inode f0 = 0.

(** The entries in use of a directory index: those before the first
    entry of inode number 0. *)
Fixpoint used_entries (files : list ouichefs_file) : list ouichefs_file :=
  match files with
  | [] => []
  | f :: fs => if inode f =? 0 then [] else f :: used_entries fs
  end.

(** The inode number bound to [name] by the first entry of [us] that
    carries it, as [strncmp] compares names. *)
Fixpoint find_name `{layout} (us : list ouichefs_file) (name : cstring)
  : option Z :=
  match us with
  | [] => None
  | f :: us' =>
      if strncmp (filename f) name (Z.to_nat OUICHEFS_FILENAME_LEN) =? 0
      then Some (inode f)
      else find_name us' name
  end.

(** Block [b] reads as a directory index of [OUICHEFS_MAX_SUBFILES]
    entries none of which, among those in use, carries [name]. *)
Definition block_name_free `{layout} (b : block) (name : cstring) : Prop :=
  exists files,
    dir_view b = Ret files
    /\ length files = Z.to_nat OUICHEFS_MAX_SUBFILES
    /\ find_name (used_entries files) name = None.

Definition name_free `{layout} (st : state) (bno : Z) (name : cstring) : Prop :=
  exists bh, blocks st !! bno = Some bh /\ block_name_free bh name.

(** The first entry after the entries in use, if any, has inode number 0. *)
Definition head_zero (tail : list ouichefs_file) : Prop :=
  match tail with
  | [] => True
  | z :: _ => inode z = 0
  end.

(** What the eviction pass may hold as victim: nothing, or a non-zero
    inode number of the store that is not a directory. *)
Definition victim_ok (st : state) (v : ouichefs_inode_kinship) : Prop :=
  match victim_inode v with
  | None => True
  | Some i =>
      i <> 0 /\ is_Some (parent v)
      /\ exists ind, inodes st !! i = Some ind /\ S_ISDIR (i_mode ind) = false
  end.

(** The directories of [st] form a forest: [rank] decreases from a
    directory to every directory among its entries. *)
Definition ranked `{layout} (st : state) (rank : Z -> nat) : Prop :=
  forall dir d bh files f i,
    inodes st !! dir = Some d ->
    blocks st !! index_block d = Some bh ->
    dir_view bh = Ret files ->
    f ∈ files ->
    inodes st !! inode f = Some i ->
    S_ISDIR (i_mode i) = true ->
    (rank (inode f) < rank dir)%nat.

(** [st'] is [st] after data blocks have been released: blocks were only
    overwritten with zeroes, bits of the block bitmap only set to free,
    and the inodes and the inode bitmap are as before. *)
Definition released (st st' : state) : Prop :=
  inodes st' = inodes st
  /\ ifree_bitmap (sbi st') = ifree_bitmap (sbi st)
  /\ nr_free_inodes (sbi st') = nr_free_inodes (sbi st)
  /\ length (bfree_bitmap (sbi st')) = length (bfree_bitmap (sbi st))
  /\ (forall n, bfree_bitmap (sbi st) !! n = Some true ->
                bfree_bitmap (sbi st') !! n = Some true)
  /\ (forall b, is_Some (blocks st' !! b) <-> is_Some (blocks st !! b))
  /\ (forall b, blocks st' !! b = blocks st !! b
                \/ blocks st' !! b = Some Zeroed)
  /\ nr_inodes (sbi st') = nr_inodes (sbi st).

(** The non-zero block numbers among the first [count] entries of an
    index block. *)
Definition listed_blocks (blks : list Z) (count : Z) : list Z :=
  filter (fun b => b <> 0) (take (Z.to_nat count) blks).

(** Among the entries [us], exactly one carries [name], and it is the only
    one that holds the inode number [ino]. *)
Definition sole_entry `{layout} (us : list ouichefs_file) (name : cstring)
    (ino : Z) : Prop :=
  exists (p : nat) f,
    us !! p = Some f /\ inode f = ino
    /\ strncmp (filename f) name (Z.to_nat OUICHEFS_FILENAME_LEN) = 0
    /\ forall (q : nat) g, us !! q = Some g ->
         inode g = ino
         \/ strncmp (filename g) name (Z.to_nat OUICHEFS_FILENAME_LEN) = 0 ->
         q = p.

(** The superblock information once inode number [ino] and block number
    [bno] have been taken. *)
Definition allocated (s : ouichefs_sb_info) (ino bno : Z) : ouichefs_sb_info :=
  {| nr_inodes := nr_inodes s; nr_blocks := nr_blocks s;
     nr_free_inodes := nr_free_inodes s - 1;
     nr_free_blocks := nr_free_blocks s - 1;
     ifree_bitmap := <[Z.to_nat ino := false]> (ifree_bitmap s);
     bfree_bitmap := <[Z.to_nat bno := false]> (bfree_bitmap s) |}.

(** What the eviction pass holds as victim under any comparator: nothing,
    or a regular file of the inode store that nobody else uses. *)
Definition evictable (st : state) (v : ouichefs_inode_kinship) : Prop :=
  match victim_inode v with
  | None => True
  | Some i =>
      i <> 0 /\ is_Some (parent v)
      /\ exists ind, inodes st !! i = Some ind
           /\ S_ISDIR (i_mode ind) = false /\ S_ISREG (i_mode ind) = true
           /\ i_count ind <= 1
  end.

(** ** Concrete volumes *)

(** A small geometry: four entries per directory, names of four bytes. *)
#[export] Instance small_layout : layout := {|
  OUICHEFS_MAX_SUBFILES := 4;
  OUICHEFS_FILENAME_LEN := 4;
  OUICHEFS_BLOCK_SIZE := 64;
|}.

Definition at_time (s : Z) : timespec := {| tv_sec := s; tv_nsec := 0 |}.

(** A regular file (mode 0100644). *)
Definition reg_file (size mtime count bno : Z) : vfs_inode :=
  {| i_mode := 33188; i_uid := 0; i_gid := 0; i_size := size;
     i_ctime := at_time mtime; i_atime := at_time mtime;
     i_mtime := at_time mtime; i_blocks := 1; i_nlink := 1;
     i_count := count; index_block := bno |}.

(** A directory (mode 0040755). *)
Definition directory (nlink bno : Z) : vfs_inode :=
  {| i_mode := 16877; i_uid := 0; i_gid := 0; i_size := 64;
     i_ctime := at_time 500; i_atime := at_time 500;
     i_mtime := at_time 500; i_blocks := 1; i_nlink := nlink;
     i_count := 1; index_block := bno |}.

Definition file_entry (ino : Z) (name : cstring) : ouichefs_file :=
  {| inode := ino; filename := strncpy name 4 |}.

Definition bitmap_of (n : nat) (used : list Z) : list bool :=
  map (fun i => negb (existsb (Z.eqb (Z.of_nat i)) used)) (seq 0 n).

(** A volume of 8 inodes and 32 blocks with the given content. *)
Definition volume (blks : list (Z * block)) (inos : list (Z * vfs_inode))
    (als : list (Z * cstring))
    (strategy : option (vfs_inode -> vfs_inode -> Z)) : state :=
  {| blocks := list_to_map blks;
     inodes := list_to_map inos;
     sbi := {| nr_inodes := 8; nr_blocks := 32;
               nr_free_inodes := 8 - Z.of_nat (length inos) - 1;
               nr_free_blocks := 32 - Z.of_nat (length blks) - 10;
               ifree_bitmap := bitmap_of 8 (0 :: map fst inos);
               bfree_bitmap := bitmap_of 32 ([0;1;2;3;4;5;6;7;8;9] ++ map fst blks) |};
     aliases := list_to_map als;
     ouichefs_fblocks_strategy := strategy;
     current_time := at_time 2000;
     fsuid := 1000; fsgid := 1000 |}.

Definition name_a : cstring := [97].
Definition name_b : cstring := [98].
Definition name_c : cstring := [99].
Definition name_d : cstring := [100].
Definition name_e : cstring := [101].

(** Directory 1 holds file 2 ("b") then file 3 ("a"); both are unused.
    File 3 was modified at second 1000, file 2 at second 1000 + 2^31
    (in 2038). *)
Definition vol_mtime : state :=
  volume
    [(10, DirBlock [file_entry 2 name_b; file_entry 3 name_a;
                    zero_file; zero_file]);
     (11, Zeroed); (12, Zeroed)]
    [(1, directory 2 10);
     (2, reg_file 0 (1000 + 2 ^ 31) 1 11);
     (3, reg_file 0 1000 1 12)]
    [(2, name_b); (3, name_a)]
    (Some ouichefs_fblocks_strategy_mtime).

(** Directory 1 holds file 2 of 10 bytes then file 3 of 20 bytes, both
    unused and modified at the same second; the default strategy is in
    place. *)
Definition vol_sizes : state :=
  volume
    [(10, DirBlock [file_entry 2 name_b; file_entry 3 name_a;
                    zero_file; zero_file]);
     (11, Zeroed); (12, Zeroed)]
    [(1, directory 2 10);
     (2, reg_file 10 1000 1 11);
     (3, reg_file 20 1000 1 12)]
    [(2, name_b); (3, name_a)]
    (Some ouichefs_fblocks_strategy_mtime).

(** Directory 1 is full; its four files are all in use ([i_count] 2). *)
Definition vol_busy : state :=
  volume
    [(10, DirBlock [file_entry 2 name_a; file_entry 3 name_b;
                    file_entry 4 name_c; file_entry 5 name_d]);
     (11, Zeroed); (12, Zeroed); (13, Zeroed); (14, Zeroed)]
    [(1, directory 2 10);
     (2, reg_file 0 1000 2 11); (3, reg_file 0 1001 2 12);
     (4, reg_file 0 1002 2 13); (5, reg_file 0 1003 2 14)]
    []
    (Some ouichefs_fblocks_strategy_mtime).

Definition dentry_e : dentry := {| d_name := name_e; d_inode := None |}.

(** Directory 1 holds the unused file 2, for which the dentry cache has no
    alias (a file not looked up since the mount). *)
Definition vol_no_alias : state :=
  volume
    [(10, DirBlock [file_entry 2 name_a; zero_file; zero_file; zero_file]);
     (11, Zeroed)]
    [(1, directory 2 10); (2, reg_file 0 1000 1 11)]
    []
    (Some ouichefs_fblocks_strategy_mtime).

Definition dentry_a : dentry := {| d_name := name_a; d_inode := Some 2 |}.
Definition dentry_b : dentry := {| d_name := name_b; d_inode := Some 2 |}.

(** Directory 1 is full (files 2 to 5); directory 6 is empty. *)
Definition full_dir : list ouichefs_file :=
  [file_entry 2 name_a; file_entry 3 name_b;
   file_entry 4 name_c; file_entry 5 name_d].

Definition vol_full_src : state :=
  volume
    [(10, DirBlock full_dir);
     (11, Zeroed); (12, Zeroed); (13, Zeroed); (14, Zeroed);
     (15, DirBlock [zero_file; zero_file; zero_file; zero_file])]
    [(1, directory 2 10);
     (2, reg_file 0 1000 1 11); (3, reg_file 0 1001 1 12);
     (4, reg_file 0 1002 1 13); (5, reg_file 0 1003 1 14);
     (6, directory 2 15)]
    [(2, name_a)]
    (Some ouichefs_fblocks_strategy_mtime).

(** Directory 1 holds the empty directory 6, whose index block 15 cannot
    be read. *)
Definition dentry_sub : dentry := {| d_name := name_a; d_inode := Some 6 |}.

Definition vol_unreadable_dir : state :=
  volume
    [(10, DirBlock [file_entry 6 name_a; zero_file; zero_file; zero_file])]
    [(1, directory 3 10); (6, directory 2 15)]
    [(6, name_a)]
    (Some ouichefs_fblocks_strategy_mtime).

(** The same with a readable, empty index block 15. *)
Definition vol_empty_dir : state :=
  volume
    [(10, DirBlock [file_entry 6 name_a; zero_file; zero_file; zero_file]);
     (15, Zeroed)]
    [(1, directory 3 10); (6, directory 2 15)]
    [(6, name_a)]
    (Some ouichefs_fblocks_strategy_mtime).

(** Directory 1 holds files 2, 3, 4; the index block 12 of file 3 cannot
    be read.  File 3 has two data blocks, 20 and 21. *)
Definition three_files : list ouichefs_file :=
  [file_entry 2 name_a; file_entry 3 name_b; file_entry 4 name_c; zero_file].

Definition lost_file : vfs_inode :=
  {| i_mode := 33188; i_uid := 7; i_gid := 7; i_size := 100;
     i_ctime := at_time 1001; i_atime := at_time 1001;
     i_mtime := at_time 1001; i_blocks := 3; i_nlink := 1;
     i_count := 1; index_block := 12 |}.

Definition vol_unreadable_file : state :=
  volume
    [(10, DirBlock three_files); (11, Zeroed); (13, Zeroed);
     (20, DataBlock [1; 2; 3]); (21, DataBlock [4; 5; 6])]
    [(1, directory 2 10);
     (2, reg_file 0 1000 1 11); (3, lost_file); (4, reg_file 0 1002 1 13)]
    []
    (Some ouichefs_fblocks_strategy_mtime).

(** Directory 1 holds files 2 ("a"), 3 ("b") and 4 ("c"). *)
Definition vol_three : state :=
  volume
    [(10, DirBlock three_files); (11, Zeroed); (12, Zeroed); (13, Zeroed)]
    [(1, directory 2 10);
     (2, reg_file 0 1000 1 11); (3, reg_file 0 1001 1 12);
     (4, reg_file 0 1002 1 13)]
    []
    (Some ouichefs_fblocks_strategy_mtime).

Definition dentry_3b : dentry := {| d_name := name_b; d_inode := Some 3 |}.

(** [vol_three] after renaming "b" to "e" in directory 1. *)
Definition vol_three_renamed : state :=
  write_block vol_three 10
    (DirBlock [file_entry 2 name_a; file_entry 3 name_e;
               file_entry 4 name_c; zero_file]).

(** An inode record that is not in use. *)
Definition free_inode : vfs_inode :=
  {| i_mode := 0; i_uid := 0; i_gid := 0; i_size := 0;
     i_ctime := at_time 0; i_atime := at_time 0; i_mtime := at_time 0;
     i_blocks := 0; i_nlink := 0; i_count := 0; index_block := 0 |}.

(** Directory 1 holds file 2 ("a"); inode 3 and block 12, which still
    holds the data of a previous owner, are free. *)
Definition vol_create : state :=
  {| blocks := list_to_map
       [(10, DirBlock [file_entry 2 name_a; zero_file; zero_file; zero_file]);
        (11, Zeroed); (12, DataBlock [7; 7; 7])];
     inodes := list_to_map
       [(1, directory 2 10); (2, reg_file 0 1000 1 11); (3, free_inode)];
     sbi := {| nr_inodes := 8; nr_blocks := 32;
               nr_free_inodes := 5; nr_free_blocks := 20;
               ifree_bitmap := bitmap_of 8 [0; 1; 2];
               bfree_bitmap := bitmap_of 32 [0; 1; 2; 3; 4; 5; 6; 7; 8; 9; 10; 11] |};
     aliases := list_to_map [(2, name_a)];
     ouichefs_fblocks_strategy := Some ouichefs_fblocks_strategy_mtime;
     current_time := at_time 2000;
     fsuid := 1000; fsgid := 1000 |}.

Definition dentry_e3 : dentry := d_add dentry_e (Some 3).

(** Directory 1 holds file 2 ("a") and file 3 ("b").  File 2 has three
    index entries in use: the data blocks 20 and 21 around a hole. *)
Definition data_index : list Z := [20; 0; 21] ++ repeat 0 13.

Definition data_file : vfs_inode :=
  {| i_mode := 33188; i_uid := 7; i_gid := 7; i_size := 150;
     i_ctime := at_time 1000; i_atime := at_time 1000;
     i_mtime := at_time 1000; i_blocks := 4; i_nlink := 1;
     i_count := 1; index_block := 11 |}.

Definition vol_data : state :=
  volume
    [(10, DirBlock [file_entry 2 name_a; file_entry 3 name_b;
                    zero_file; zero_file]);
     (11, FileIndexBlock data_index); (12, Zeroed);
     (20, DataBlock [1; 2; 3]); (21, DataBlock [4; 5; 6])]
    [(1, directory 2 10); (2, data_file); (3, reg_file 0 1001 1 12)]
    [(2, name_a); (3, name_b)]
    (Some ouichefs_fblocks_strategy_mtime).

(** A dentry not yet bound to an inode, as the VFS hands it to a lookup. *)
Definition probe (name : cstring) : dentry :=
  {| d_name := name; d_inode := None |}.

(** Directory 1 is full: the files 2, 3 and 4, all in use, and the
    directory 5, which holds the unused file 6 ("e"). *)
Definition vol_nested : state :=
  volume
    [(10, DirBlock [file_entry 2 name_a; file_entry 3 name_b;
                    file_entry 4 name_c; file_entry 5 name_d]);
     (11, Zeroed); (12, Zeroed); (13, Zeroed);
     (14, DirBlock [file_entry 6 name_e; zero_file; zero_file; zero_file]);
     (15, Zeroed)]
    [(1, directory 3 10);
     (2, reg_file 0 1000 2 11); (3, reg_file 0 1001 2 12);
     (4, reg_file 0 1002 2 13); (5, directory 2 14);
     (6, reg_file 0 1003 1 15)]
    [(6, name_e)]
    (Some ouichefs_fblocks_strategy_mtime).

(** [vol_create] with the free block 12 out of reach of [sb_bread]. *)
Definition vol_create_lost : state :=
  set_blocks vol_create (delete 12 (blocks vol_create)).

(** Directory 1 holds file 2 ("a") and directory 3 ("b"), which holds
    file 4 ("c"). *)
Definition vol_two_dirs : state :=
  volume
    [(10, DirBlock [file_entry 2 name_a; file_entry 3 name_b;
                    zero_file; zero_file]);
     (11, Zeroed);
     (12, DirBlock [file_entry 4 name_c; zero_file; zero_file; zero_file]);
     (13, Zeroed)]
    [(1, directory 3 10); (2, reg_file 0 1000 1 11);
     (3, directory 2 12); (4, reg_file 0 1001 1 13)]
    [(2, name_a); (4, name_c)]
    (Some ouichefs_fblocks_strategy_mtime).

(** The same with the index block 10 of directory 1 out of reach of
    [sb_bread]. *)
Definition vol_two_dirs_lost : state :=
  set_blocks vol_two_dirs (delete 10 (blocks vol_two_dirs)).

(** Directory 1 lists itself as its first entry. *)
Definition vol_loop : state :=
  volume
    [(10, DirBlock [file_entry 1 name_a; zero_file; zero_file; zero_file])]
    [(1, directory 2 10)]
    []
    (Some ouichefs_fblocks_strategy_mtime).

(** Ranks for [vol_nested]: directory 1 above directory 5. *)
Definition nested_rank (ino : Z) : nat := if ino =? 1 then 1%nat else 0%nat.

(** Command numbers for the evaluations: type 'N', command 0. *)
#[export] Instance small_abi : ioctl_abi := {|
  IOC_MAGIC := 78;
  QUICK_CLEAN := 19968;
|}.

(** * Properties *)

Section Properties.
Context `{L : layout}.

(** ** Arrays *)

Lemma entry_lookup {A} (a : list A) (i : nat) (x : A) :
  a !! i = Some x -> entry a (Z.of_nat i) = Ret x.
Proof.
  intros H. unfold entry.
  destruct (Z.ltb_spec (Z.of_nat i) 0) as [Hlt|_]; [lia|].
  by rewrite Nat2Z.id, H.
Qed.

Lemma entry_oob {A} (a : list A) (i : Z) :
  Z.of_nat (length a) <= i -> entry a i = Oops OutOfBounds.
Proof.
  intros H. unfold entry.
  destruct (Z.ltb_spec i 0) as [|_]; [done|].
  rewrite lookup_ge_None_2; [done|lia].
Qed.

Lemma entry_Ret {A} (a : list A) (i : Z) (x : A) :
  entry a i = Ret x -> 0 <= i /\ a !! Z.to_nat i = Some x.
Proof.
  unfold entry. destruct (Z.ltb_spec i 0); [done|].
  destruct (a !! Z.to_nat i) eqn:E; [|done].
  intros [= ->]. done.
Qed.

(** ** Directory compaction *)

(** On an array of [n] remaining slots the bounded scan of
    [ouichefs_remove] is the scan of the remaining entries. *)
Lemma remove_scan_entries (files : list ouichefs_file) ino :
  forall rest (i : nat) f_id,
    drop i files = rest ->
    remove_scan files ino (length rest) (Z.of_nat i) f_id
    = Ret (scan_entries rest ino (Z.of_nat i) f_id).
Proof.
  induction rest as [|f rest IH]; intros i f_id Hdrop; [done|].
  assert (Hf : files !! i = Some f).
  { rewrite <- (Nat.add_0_r i), <- lookup_drop, Hdrop. done. }
  assert (Hrest : drop (S i) files = rest).
  { rewrite (drop_S _ _ _ Hf) in Hdrop. congruence. }
  cbn [remove_scan length scan_entries].
  rewrite (entry_lookup _ _ _ Hf). cbn.
  replace (Z.of_nat i + 1) with (Z.of_nat (S i)) by lia.
  destruct (inode f =? ino); [by apply IH|].
  destruct (inode f =? 0); [done|by apply IH].
Qed.

Lemma scan_entries_packed (pre tail : list ouichefs_file) ino :
  ino <> 0 ->
  Forall (fun f => inode f <> 0) pre ->
  head_zero tail ->
  forall i f_id,
  exists f', scan_entries (pre ++ tail) ino i f_id = (f', i + Z.of_nat (length pre))
   /\ ((f' = f_id /\ Forall (fun f => inode f <> ino) pre)
       \/ exists p : nat, f' = i + Z.of_nat p
            /\ inode <$> pre !! p = Some ino
            /\ Forall (fun f => inode f <> ino) (drop (S p) pre)).
Proof.
  intros Hino Hpre Htail.
  induction Hpre as [|f pre Hf Hpre IH]; intros i f_id.
  - exists f_id. split; [|left; done].
    cbn. destruct tail as [|t tail]; cbn; [f_equal; lia|].
    cbn in Htail. rewrite Htail. destruct (Z.eqb_spec 0 ino); [congruence|].
    cbn. f_equal; lia.
  - cbn [app scan_entries length].
    destruct (Z.eqb_spec (inode f) ino) as [Heq|Hne].
    + destruct (IH (i + 1) i) as (f' & -> & Hcase).
      exists f'. split; [f_equal; lia|]. right.
      destruct Hcase as [[-> Hall]|(p & -> & Hp & Hafter)].
      * exists 0%nat. cbn. rewrite Heq. split; [lia|]. split; [done|]. by rewrite drop_0.
      * exists (S p). cbn. split; [lia|]. done.
    + destruct (Z.eqb_spec (inode f) 0); [done|].
      destruct (IH (i + 1) f_id) as (f' & -> & Hcase).
      exists f'. split; [f_equal; lia|].
      destruct Hcase as [[-> Hall]|(p & -> & Hp & Hafter)].
      * left. split; [done|]. by constructor.
      * right. exists (S p). cbn. split; [lia|]. done.
Qed.

Lemma drop_take_all {A} (l : list A) (n : nat) : drop n (take n l) = [].
Proof. apply drop_ge. rewrite length_take. lia. Qed.

Lemma remove_entry_packed (files : list ouichefs_file) (p k : nat) :
  length files = Z.to_nat OUICHEFS_MAX_SUBFILES ->
  (p < k <= length files)%nat ->
  remove_entry files (Z.of_nat p) (Z.of_nat k)
  = Ret (take p files ++ drop (S p) (take k files) ++ zero_file :: drop k files).
Proof.
  intros Hlen [Hpk Hk]. unfold remove_entry.
  destruct (Z.eqb_spec (Z.of_nat p) (OUICHEFS_MAX_SUBFILES - 1)) as [Hlast|Hnl].
  - assert (k = S p) as -> by lia.
    cbn. unfold memset_file.
    replace (Z.of_nat (S p) - 1) with (Z.of_nat p) by lia.
    rewrite Nat2Z.id.
    destruct (Z.leb_spec 0 (Z.of_nat p)); [|lia].
    destruct (Z.ltb_spec (Z.of_nat p) (Z.of_nat (length files))); [|lia].
    cbn. f_equal. rewrite insert_take_drop by lia.
    f_equal. by rewrite drop_take_all.
  - unfold memmove_files.
    destruct (Z.eqb_spec (Z.of_nat k - Z.of_nat p - 1) 0) as [Hz|Hnz].
    + assert (k = S p) as -> by lia.
      cbn. unfold memset_file.
      replace (Z.of_nat (S p) - 1) with (Z.of_nat p) by lia.
      rewrite Nat2Z.id.
      destruct (Z.leb_spec 0 (Z.of_nat p)); [|lia].
      destruct (Z.ltb_spec (Z.of_nat p) (Z.of_nat (length files))); [|lia].
      cbn. f_equal. rewrite insert_take_drop by lia.
      f_equal. by rewrite drop_take_all.
    + destruct (Z.leb_spec 0 (Z.of_nat p)); [|lia].
      destruct (Z.leb_spec 0 (Z.of_nat p + 1)); [|lia].
      destruct (Z.ltb_spec 0 (Z.of_nat k - Z.of_nat p - 1)); [|lia].
      destruct (Z.leb_spec (Z.of_nat p + (Z.of_nat k - Z.of_nat p - 1)) (Z.of_nat (length files))); [|lia].
      destruct (Z.leb_spec (Z.of_nat p + 1 + (Z.of_nat k - Z.of_nat p - 1)) (Z.of_nat (length files))); [|lia].
      cbn [andb]. cbn [mbind outcome_mbind obind].
      unfold memset_file.
      replace (Z.to_nat (Z.of_nat p)) with p by lia.
      replace (Z.to_nat (Z.of_nat p + 1)) with (S p) by lia.
      replace (Z.to_nat (Z.of_nat k - Z.of_nat p - 1)) with (k - S p)%nat by lia.
      replace (Z.to_nat (Z.of_nat p + (Z.of_nat k - Z.of_nat p - 1))) with (k - 1)%nat by lia.
      replace (Z.to_nat (Z.of_nat k - 1)) with (k - 1)%nat by lia.
      set (l := take p files ++ take (k - S p) (drop (S p) files) ++ drop (k - 1) files).
      assert (Hl : length l = length files).
      { unfold l. rewrite !length_app, !length_take, !length_drop. lia. }
      rewrite Hl.
      destruct (Z.leb_spec 0 (Z.of_nat k - 1)); [|lia].
      destruct (Z.ltb_spec (Z.of_nat k - 1) (Z.of_nat (length files))); [|lia].
      cbn. f_equal. unfold l.
      destruct (lookup_lt_is_Some_2 files (k - 1)) as [o Ho]; [lia|].
      rewrite (drop_S _ _ _ Ho).
      replace (S (k - 1)) with k by lia.
      rewrite insert_app_r_alt by (rewrite length_take; lia).
      f_equal.
      rewrite insert_app_r_alt by (rewrite !length_take, length_drop; lia).
      rewrite take_drop_commute.
      replace (S p + (k - S p))%nat with k by lia.
      f_equal.
      match goal with
      | |- context [<[?i := _]> _] =>
          replace i with 0%nat
            by (repeat (rewrite length_take || rewrite length_drop); lia)
      end.
      done.
Qed.

(** The removal in closed form: the entries before the slot [p'] found by
    the scan, the entries between [p'] and [k], a zeroed slot, and the
    slots from [k] on. *)
Lemma remove_from_dir_closed (files : list ouichefs_file) (k p : nat) (ino : Z) :
  length files = Z.to_nat OUICHEFS_MAX_SUBFILES ->
  left_packed files k ->
  (p < k)%nat ->
  inode <$> files !! p = Some ino ->
  exists p' : nat,
    (p <= p' < k)%nat
    /\ inode <$> files !! p' = Some ino
    /\ (forall q, (p' < q < k)%nat -> inode <$> files !! q <> Some ino)
    /\ remove_from_dir files ino
       = Ret (take p' files ++ drop (S p') (take k files)
              ++ zero_file :: drop k files).
Proof.
  intros Hlen (Hk & Hpre & Htail) Hp Hino.
  assert (Hino' : inode <$> take k files !! p = Some ino)
    by (by rewrite lookup_take_lt).
  assert (Hnz : ino <> 0).
  { destruct (take k files !! p) as [f|] eqn:E; [|done].
    injection Hino' as <-. eapply Forall_lookup_1 in Hpre; eauto. }
  assert (Hhz : head_zero (drop k files)) by (by destruct Htail).
  destruct (scan_entries_packed _ _ ino Hnz Hpre Hhz 0 (-1))
    as (f' & Hscan & Hcase).
  rewrite take_drop in Hscan.
  rewrite length_take, Nat.min_l in Hscan by done.
  destruct Hcase as [[_ Hall]|(p' & -> & Hp' & Hafter)].
  { destruct (take k files !! p) as [f|] eqn:E; [|done].
    injection Hino' as Hf. eapply Forall_lookup_1 in Hall; eauto. done. }
  assert (Hp'k : (p' < k)%nat).
  { destruct (take k files !! p') eqn:E; [|done].
    apply lookup_lt_Some in E. rewrite length_take in E. lia. }
  assert (Hlast : forall q, (p' < q < k)%nat -> inode <$> files !! q <> Some ino).
  { intros q Hq Hc. rewrite <- (lookup_take_lt files k q) in Hc by lia.
    destruct (take k files !! q) as [f|] eqn:E; [|done].
    injection Hc as Hf.
    assert (Hd : drop (S p') (take k files) !! (q - S p')%nat = Some f).
    { rewrite lookup_drop. rewrite <- E. f_equal. lia. }
    eapply Forall_lookup_1 in Hafter; eauto. }
  assert (Hpp' : (p <= p')%nat).
  { destruct (le_lt_dec p p'); [done|]. exfalso. apply (Hlast p); [lia|done]. }
  rewrite lookup_take_lt in Hp' by done.
  exists p'. repeat split; try done.
  unfold remove_from_dir.
  pose proof (remove_scan_entries files ino files 0 (-1) eq_refl) as Hs.
  rewrite Hlen in Hs. change (Z.of_nat 0) with 0 in Hs. rewrite Hs, Hscan.
  cbn [mbind outcome_mbind obind].
  replace (0 + Z.of_nat p') with (Z.of_nat p') by lia.
  replace (0 + Z.of_nat k) with (Z.of_nat k) by lia.
  apply remove_entry_packed; [done|lia].
Qed.

(** C6.  In a left-packed directory index holding [k] entries, removing
    a target inode found at a position [p < k] succeeds; with [p'] the slot
    the scan settles on (the last one holding the inode number, [p] itself
    when inode numbers are unique), every entry after [p'] moves left by
    one, the vacated slot [k - 1] is zeroed, the other slots are
    untouched, the [k - 1] remaining entries are contiguous from index 0
    in their original order, and the index is left-packed again. *)
Theorem remove_from_dir_compacts (files : list ouichefs_file) (k p : nat) (ino : Z) :
  length files = Z.to_nat OUICHEFS_MAX_SUBFILES ->
  left_packed files k ->
  (p < k)%nat ->
  inode <$> files !! p = Some ino ->
  exists (p' : nat) files',
    remove_from_dir files ino = Ret files'
    /\ (p <= p' < k)%nat
    /\ inode <$> files !! p' = Some ino
    /\ (forall q, (p' < q < k)%nat -> inode <$> files !! q <> Some ino)
    /\ length files' = length files
    /\ (forall j, (j < p')%nat -> files' !! j = files !! j)
    /\ (forall j, (p' <= j < k - 1)%nat -> files' !! j = files !! S j)
    /\ files' !! (k - 1)%nat = Some zero_file
    /\ (forall j, (k <= j)%nat -> files' !! j = files !! j)
    /\ take (k - 1) files' = take p' files ++ drop (S p') (take k files)
    /\ left_packed files' (k - 1).
Proof.
  intros Hlen Hpacked Hp Hino.
  destruct (remove_from_dir_closed files k p ino Hlen Hpacked Hp Hino)
    as (p' & Hpp' & Hp' & Hlast & Hrm).
  destruct Hpacked as (Hk & Hpre & Htail).
  set (files' := take p' files ++ drop (S p') (take k files)
                 ++ zero_file :: drop k files) in *.
  assert (Hl1 : length (take p' files) = p') by (rewrite length_take; lia).
  assert (Hl2 : length (drop (S p') (take k files)) = (k - S p')%nat)
    by (rewrite length_drop, length_take; lia).
  exists p', files'. repeat split; try done; try lia.
  - unfold files'. rewrite !length_app, Hl1, Hl2. cbn. rewrite length_drop. lia.
  - intros j Hj. unfold files'. rewrite lookup_app_l by lia.
    by rewrite lookup_take_lt.
  - intros j Hj. unfold files'. rewrite lookup_app_r by lia.
    rewrite lookup_app_l by lia. rewrite Hl1, lookup_drop.
    rewrite lookup_take_lt by lia. f_equal. lia.
  - unfold files'. rewrite lookup_app_r by lia.
    rewrite lookup_app_r by lia. rewrite Hl1, Hl2.
    by replace (k - 1 - p' - (k - S p'))%nat with 0%nat by lia.
  - intros j Hj. unfold files'. rewrite lookup_app_r by lia.
    rewrite lookup_app_r by lia. rewrite Hl1, Hl2.
    replace (j - p' - (k - S p'))%nat with (S (j - k)) by lia.
    simpl. rewrite lookup_drop. f_equal. lia.
  - unfold files'. rewrite app_assoc.
    rewrite take_app_length'; [done|]. rewrite length_app. lia.
  - unfold files'. rewrite !length_app, Hl1, Hl2. cbn. rewrite length_drop. lia.
  - unfold files'. rewrite app_assoc.
    rewrite take_app_length' by (rewrite length_app; lia).
    apply Forall_app. split.
    + replace (take p' files) with (take p' (take k files))
        by (rewrite take_take; f_equal; lia).
      by apply Forall_take.
    + by apply Forall_drop.
  - unfold files'. rewrite app_assoc.
    rewrite drop_app_length' by (rewrite length_app; lia).
    constructor; done.
Qed.

(** ** The tree walk as a fold over its visits *)

Lemma obind_Ret_inv {A B} (m : outcome A) (k : A -> outcome B) (b : B) :
  obind m k = Ret b -> exists a, m = Ret a /\ k a = Ret b.
Proof. destruct m; cbn; [eauto|done|done]. Qed.

Lemma fold_action_app {A} (act : Z -> Z -> A -> outcome A) vs1 vs2 data :
  fold_action act (vs1 ++ vs2) data
  = obind (fold_action act vs1 data) (fold_action act vs2).
Proof.
  revert data. induction vs1 as [|[d i] vs1 IH]; intros data; [done|].
  cbn. destruct (act d i data); cbn; [apply IH|done|done].
Qed.

Section Walk.
Context {A : Type} (act : Z -> Z -> A -> outcome A) (st : state).

Lemma iterate_loop_fold rec_c rec_a dir :
  walk_agrees act rec_c rec_a ->
  forall n fs acc r,
    iterate_loop (Some collect) rec_c st dir n fs acc = Ret r ->
    exists vs, r = acc ++ vs /\
      forall data, iterate_loop (Some act) rec_a st dir n fs data
                   = fold_action act vs data.
Proof.
  intros Hrec. induction n as [|n IH]; intros fs acc r.
  { cbn. intros [= <-]. exists []. by rewrite app_nil_r. }
  destruct fs as [|f fs]; [done|]. cbn [iterate_loop].
  destruct (inode f =? 0).
  { intros [= <-]. exists []. by rewrite app_nil_r. }
  destruct (ouichefs_iget st (inode f)) as [e|p]; [done|].
  destruct (get_inode st p) as [i| |]; [|done|done].
  cbn [mbind outcome_mbind obind].
  destruct (S_ISDIR (i_mode i)).
  - intros H. apply obind_Ret_inv in H as (acc1 & H1 & H2).
    apply Hrec in H1 as (vs1 & -> & Hv1).
    apply IH in H2 as (vs2 & -> & Hv2).
    exists (vs1 ++ vs2). split; [by rewrite app_assoc|].
    intros data. rewrite fold_action_app, Hv1.
    destruct (fold_action act vs1 data); cbn; [apply Hv2|done|done].
  - destruct (S_ISREG (i_mode i)).
    + cbn. intros H. apply IH in H as (vs2 & -> & Hv2).
      exists ((dir, p) :: vs2). split; [by rewrite <- app_assoc|].
      intros data. cbn. destruct (act dir p data); cbn; [apply Hv2|done|done].
    + cbn. intros H. apply IH in H as (vs2 & -> & Hv2). eauto.
Qed.

Lemma iterate_fold fuel :
  walk_agrees act (fun p => ouichefs_iterate (Some collect) fuel st p)
              (fun p => ouichefs_iterate (Some act) fuel st p).
Proof.
  induction fuel as [|fuel IH]; intros dir acc r; [done|].
  cbn [ouichefs_iterate].
  destruct (get_inode st dir) as [d| |]; [|done|done].
  cbn [mbind outcome_mbind obind].
  destruct (sb_bread st (index_block d)) as [bh|].
  2:{ intros [= <-]. exists []. by rewrite app_nil_r. }
  destruct (dir_view bh) as [files| |]; [|done|done].
  cbn [mbind outcome_mbind obind].
  by apply iterate_loop_fold.
Qed.

(** Whenever the walk completes, running it with an action is applying
    the action along the visits, in order. *)
Lemma iterate_visits fuel dir vs data :
  visits fuel st dir = Ret vs ->
  ouichefs_iterate (Some act) fuel st dir data = fold_action act vs data.
Proof.
  intros H. apply iterate_fold in H as (vs' & -> & Hv). apply Hv.
Qed.

End Walk.

(** ** Victim selection *)

Section Select.
Context (st : state) (strategy : vfs_inode -> vfs_inode -> Z)
        (key : vfs_inode -> Z).
Hypothesis Hstrategy : ouichefs_fblocks_strategy st = Some strategy.

Lemma eligible_inode ino :
  eligible st ino = true ->
  exists i, inodes st !! ino = Some i /\ (i_count i >? 1) = false.
Proof.
  unfold eligible. destruct (inodes st !! ino) as [i|]; [|done].
  intros H. exists i. split; [done|]. by destruct (i_count i >? 1).
Qed.

Lemma action_used d ino i v :
  inodes st !! ino = Some i -> (i_count i >? 1) = true ->
  ouichefs_fblocks_action st d ino v = Ret v.
Proof.
  intros Hi Hc. unfold ouichefs_fblocks_action, get_inode.
  rewrite Hi. cbn. by rewrite Hc.
Qed.

Lemma action_first d ino i v :
  inodes st !! ino = Some i -> (i_count i >? 1) = false ->
  victim_inode v = None ->
  ouichefs_fblocks_action st d ino v
  = Ret {| parent := Some d; victim_inode := Some ino |}.
Proof.
  intros Hi Hc Hv. unfold ouichefs_fblocks_action, get_inode.
  rewrite Hi. cbn. by rewrite Hc, Hv.
Qed.

Lemma action_compare d ino i v vi a :
  inodes st !! ino = Some i -> (i_count i >? 1) = false ->
  victim_inode v = Some vi -> inodes st !! vi = Some a ->
  ouichefs_fblocks_action st d ino v
  = Ret (if strategy a i >? 0
         then {| parent := Some d; victim_inode := Some ino |} else v).
Proof.
  intros Hi Hc Hv Ha. unfold ouichefs_fblocks_action, get_inode.
  rewrite Hi. cbn. rewrite Hc, Hv, Hstrategy, Ha. cbn.
  by destruct (strategy a i >? 0).
Qed.

Lemma select_fold vs :
  forall done_ v,
    Forall (fun x => is_Some (inodes st !! x.2)) vs ->
    ranks_by st strategy key (done_ ++ vs) ->
    first_best st key done_ v ->
    exists v', fold_action (ouichefs_fblocks_action st) vs v = Ret v'
               /\ first_best st key (done_ ++ vs) v'.
Proof.
  induction vs as [|[d ino] vs IH]; intros done_ v Hin Hrk Hv.
  { exists v. by rewrite app_nil_r. }
  apply Forall_cons in Hin as [[i Hi] Hin]. simpl in Hi.
  cbn [fold_action].
  replace (done_ ++ (d, ino) :: vs) with ((done_ ++ [(d, ino)]) ++ vs) in *
    by (by rewrite <- app_assoc).
  assert (Hrk' : ranks_by st strategy key (done_ ++ [(d, ino)])).
  { intros x y a b Hx Hy. apply Hrk; apply elem_of_app; by left. }
  assert (Helig : eligible st ino = negb (i_count i >? 1)).
  { unfold eligible. by rewrite Hi. }
  destruct (i_count i >? 1) eqn:Hcount.
  - (* inode used: skipped *)
    rewrite (action_used _ _ _ _ Hi Hcount). cbn [mbind outcome_mbind obind].
    apply IH; [done|done|].
    unfold first_best in *.
    destruct (victim_inode v) as [vi|]; [destruct (parent v) as [vp|]; [|done]|].
    + destruct Hv as (pre & post & -> & He & Hpre & Hpost).
      exists pre, (post ++ [(d, ino)]). rewrite <- app_assoc. cbn.
      repeat split; try done.
      apply Forall_app. split; [done|]. constructor; [|done].
      cbn. rewrite Helig. done.
    + apply Forall_app. split; [done|]. constructor; [|done]. by cbn.
  - cbn in Helig.
    unfold first_best in Hv.
    destruct (victim_inode v) as [vi|] eqn:Evi;
      [destruct (parent v) as [vp|] eqn:Evp; [|done]|].
    + destruct Hv as (pre & post & -> & He & Hpre & Hpost).
      destruct (eligible_inode _ He) as (a & Ha & _).
      rewrite (action_compare _ _ _ _ _ _ Hi Hcount Evi Ha).
      cbn [mbind outcome_mbind obind].
      assert (Hcmp : (strategy a i >? 0) = (key i <? key a)).
      { apply (Hrk' (vp, vi) (d, ino)); try done.
        - apply elem_of_app. left. apply elem_of_app. right. by left.
        - apply elem_of_app. right. by left. }
      rewrite Hcmp.
      assert (Hka : key_of st key vi = key a) by (unfold key_of; by rewrite Ha).
      assert (Hki : key_of st key ino = key i) by (unfold key_of; by rewrite Hi).
      destruct (Z.ltb_spec (key i) (key a)) as [Hlt|Hge].
      * (* the candidate replaces the victim *)
        apply IH; [done|done|].
        unfold first_best. cbn.
        exists (pre ++ (vp, vi) :: post), [].
        repeat split; try done.
        apply Forall_app. split.
        { eapply Forall_impl; [exact Hpre|]. cbn. intros x Hx Hex.
          specialize (Hx Hex). lia. }
        constructor.
        { cbn. lia. }
        eapply Forall_impl; [exact Hpost|]. cbn. intros x Hx Hex.
        specialize (Hx Hex). lia.
      * (* the victim stays *)
        apply IH; [done|done|].
        unfold first_best. rewrite Evi, Evp.
        exists pre, (post ++ [(d, ino)]). rewrite <- app_assoc. cbn.
        repeat split; try done.
        apply Forall_app. split; [done|]. constructor; [|done].
        cbn. lia.
    + (* first eligible file *)
      rewrite (action_first _ _ _ _ Hi Hcount Evi).
      cbn [mbind outcome_mbind obind].
      apply IH; [done|done|].
      unfold first_best. cbn.
      exists done_, []. repeat split; try done.
      eapply Forall_impl; [exact Hv|]. cbn. intros x Hx Hex. congruence.
Qed.

End Select.

(** ** What the walk visits *)

Lemma iget_inr st ino p :
  ouichefs_iget st ino = inr p ->
  p = ino /\ ino < nr_inodes (sbi st) /\ is_Some (inodes st !! ino).
Proof.
  unfold ouichefs_iget.
  destruct (Z.leb_spec (nr_inodes (sbi st)) ino); [done|].
  destruct (inodes st !! ino) eqn:E; [|done].
  intros [= <-]. eauto.
Qed.

Lemma iterate_loop_regular st rec_c dir :
  collects st rec_c ->
  forall n fs acc r,
    iterate_loop (Some collect) rec_c st dir n fs acc = Ret r ->
    exists vs, r = acc ++ vs /\ Forall (regular_visit st) vs.
Proof.
  intros Hrec. induction n as [|n IH]; intros fs acc r.
  { cbn. intros [= <-]. exists []. by rewrite app_nil_r. }
  destruct fs as [|f fs]; [done|]. cbn [iterate_loop].
  destruct (Z.eqb_spec (inode f) 0) as [|Hnz].
  { intros [= <-]. exists []. by rewrite app_nil_r. }
  destruct (ouichefs_iget st (inode f)) as [e|p] eqn:Hget; [done|].
  assert (Hp : p <> 0) by (by apply iget_inr in Hget as [-> _]).
  unfold get_inode. destruct (inodes st !! p) as [i|] eqn:Hi; [|done].
  cbn [mbind outcome_mbind obind].
  destruct (S_ISDIR (i_mode i)) eqn:Hdir.
  - intros H. apply obind_Ret_inv in H as (acc1 & H1 & H2).
    apply Hrec in H1 as (vs1 & -> & Hv1).
    apply IH in H2 as (vs2 & -> & Hv2).
    exists (vs1 ++ vs2). split; [by rewrite app_assoc|].
    by apply Forall_app.
  - destruct (S_ISREG (i_mode i)) eqn:Hreg.
    + cbn. intros H. apply IH in H as (vs2 & -> & Hv2).
      exists ((dir, p) :: vs2). split; [by rewrite <- app_assoc|].
      constructor; [|done]. split; [done|]. exists i. done.
    + cbn. intros H. apply IH in H as (vs2 & -> & Hv2). eauto.
Qed.

Lemma iterate_regular st fuel :
  collects st (fun p => ouichefs_iterate (Some collect) fuel st p).
Proof.
  induction fuel as [|fuel IH]; intros dir acc r; [done|].
  cbn [ouichefs_iterate].
  destruct (get_inode st dir) as [d| |]; [|done|done].
  cbn [mbind outcome_mbind obind].
  destruct (sb_bread st (index_block d)) as [bh|].
  2:{ intros [= <-]. exists []. by rewrite app_nil_r. }
  destruct (dir_view bh) as [files| |]; [|done|done].
  cbn [mbind outcome_mbind obind].
  by apply iterate_loop_regular.
Qed.

Lemma visits_regular st fuel dir vs :
  visits fuel st dir = Ret vs -> Forall (regular_visit st) vs.
Proof.
  intros H. apply iterate_regular in H as (vs' & -> & Hv). done.
Qed.

(** ** The eviction pass selects the first eligible file of least key *)

Theorem eviction_selects_first_best st strategy key fuel dir vs :
  ouichefs_fblocks_strategy st = Some strategy ->
  visits fuel st dir = Ret vs ->
  ranks_by st strategy key vs ->
  exists v,
    ouichefs_iterate (Some (ouichefs_fblocks_action st)) fuel st dir no_victim
    = Ret v
    /\ first_best st key vs v.
Proof.
  intros Hs Hvs Hrk.
  rewrite (iterate_visits _ _ _ _ _ _ Hvs).
  apply (select_fold st strategy key Hs vs [] no_victim).
  - eapply Forall_impl; [by eapply visits_regular|].
    intros x (_ & i & Hi & _). by exists i.
  - done.
  - by constructor.
Qed.

(** ** The three comparators *)

Lemma to_int_small z : - 2 ^ 31 <= z < 2 ^ 31 -> to_int z = z.
Proof.
  intros H. unfold to_int.
  rewrite Z.mod_small by lia. lia.
Qed.

Lemma mtime_ranks st vs lo :
  within_int_window st mtime_key vs lo ->
  ranks_by st ouichefs_fblocks_strategy_mtime mtime_key vs.
Proof.
  intros Hw x y a b Hx Hy Hex Hey Ha Hb.
  pose proof (Hw x a Hx Hex Ha). pose proof (Hw y b Hy Hey Hb).
  unfold ouichefs_fblocks_strategy_mtime, mtime_key in *.
  rewrite to_int_small by lia.
  destruct (Z.gtb_spec (tv_sec (i_mtime a) - tv_sec (i_mtime b)) 0);
    destruct (Z.ltb_spec (tv_sec (i_mtime b)) (tv_sec (i_mtime a))); lia.
Qed.

Lemma size_ranks st vs lo :
  within_int_window st size_key vs lo ->
  ranks_by st ouichefs_strategy_size neg_size_key vs.
Proof.
  intros Hw x y a b Hx Hy Hex Hey Ha Hb.
  pose proof (Hw x a Hx Hex Ha). pose proof (Hw y b Hy Hey Hb).
  unfold ouichefs_strategy_size, neg_size_key, size_key in *.
  rewrite to_int_small by lia.
  destruct (Z.gtb_spec (i_size b - i_size a) 0);
    destruct (Z.ltb_spec (- i_size b) (- i_size a)); lia.
Qed.

Lemma by_size_ranks st vs lo :
  within_int_window st size_key vs lo ->
  ranks_by st strategy_by_size size_key vs.
Proof.
  intros Hw x y a b Hx Hy Hex Hey Ha Hb.
  pose proof (Hw x a Hx Hex Ha). pose proof (Hw y b Hy Hey Hb).
  unfold strategy_by_size, size_key in *.
  rewrite to_int_small by lia.
  destruct (Z.gtb_spec (i_size a - i_size b) 0);
    destruct (Z.ltb_spec (i_size b) (i_size a)); lia.
Qed.

(** X21.  Under the default strategy, when the modification times of the
    eligible files lie within a window of 2^31 seconds, the pass selects
    the first eligible file of oldest modification time, in the order of
    the walk. *)
Theorem mtime_selects_first_oldest st fuel dir vs lo :
  ouichefs_fblocks_strategy st = Some ouichefs_fblocks_strategy_mtime ->
  visits fuel st dir = Ret vs ->
  within_int_window st mtime_key vs lo ->
  exists v,
    ouichefs_iterate (Some (ouichefs_fblocks_action st)) fuel st dir no_victim
    = Ret v
    /\ first_best st mtime_key vs v.
Proof.
  intros Hs Hvs Hw.
  eapply eviction_selects_first_best; eauto using mtime_ranks.
Qed.

(** X22.  With [ouichefs_strategy_size] installed and sizes within a
    window of 2^31 bytes, the pass selects the first eligible file of
    greatest size, in the order of the walk. *)
Theorem size_selects_first_largest st fuel dir vs lo :
  ouichefs_fblocks_strategy st = Some ouichefs_strategy_size ->
  visits fuel st dir = Ret vs ->
  within_int_window st size_key vs lo ->
  exists v,
    ouichefs_iterate (Some (ouichefs_fblocks_action st)) fuel st dir no_victim
    = Ret v
    /\ first_best st neg_size_key vs v.
Proof.
  intros Hs Hvs Hw.
  eapply eviction_selects_first_best; eauto using size_ranks.
Qed.

(** X23.  With [strategy_by_size] installed and sizes within a window of
    2^31 bytes, the pass selects the first eligible file of smallest size,
    in the order of the walk. *)
Theorem by_size_selects_first_smallest st fuel dir vs lo :
  ouichefs_fblocks_strategy st = Some strategy_by_size ->
  visits fuel st dir = Ret vs ->
  within_int_window st size_key vs lo ->
  exists v,
    ouichefs_iterate (Some (ouichefs_fblocks_action st)) fuel st dir no_victim
    = Ret v
    /\ first_best st size_key vs v.
Proof.
  intros Hs Hvs Hw.
  eapply eviction_selects_first_best; eauto using by_size_ranks.
Qed.

(** ** Creation in a full directory *)

Lemma fold_action_ineligible st vs v :
  Forall (regular_visit st) vs ->
  Forall (fun x => eligible st x.2 = false) vs ->
  fold_action (ouichefs_fblocks_action st) vs v = Ret v.
Proof.
  induction 1 as [|[d ino] vs (_ & i & Hi & _) _ IH]; intros Hel; [done|].
  apply Forall_cons in Hel as [He Hel]. cbn in Hi, He.
  cbn [fold_action].
  unfold eligible in He. rewrite Hi in He.
  rewrite (action_used st d ino i v Hi) by (by destruct (i_count i >? 1)).
  by apply IH.
Qed.

(** When no visited file is eligible the pass ends without a victim, and
    [ouichefs_fblocks] returns -1 on an unchanged state. *)
Lemma fblocks_without_victim st fuel dir vs :
  visits fuel st dir = Ret vs ->
  Forall (fun x => eligible st x.2 = false) vs ->
  ouichefs_fblocks fuel st dir = Ret (st, -1).
Proof.
  intros Hvs Hel. unfold ouichefs_fblocks.
  change {| parent := None; victim_inode := None |} with no_victim.
  rewrite (iterate_visits _ _ _ _ _ _ Hvs).
  rewrite fold_action_ineligible; [done| |done].
  by eapply visits_regular.
Qed.

(** C2.  A create of a valid name into a directory whose last slot is in
    use runs the eviction pass on that directory before anything else:
    its outcome is that of [ouichefs_fblocks] followed by the rest of the
    function.  When no file visited by the pass is eligible, the pass
    returns -1 and create returns [-EMLINK], both on the unchanged
    state. *)
Theorem create_full_without_victim fuel st dir d mode excl ci bh files last vs :
  strlen (d_name d) <= OUICHEFS_FILENAME_LEN ->
  inodes st !! dir = Some ci ->
  blocks st !! index_block ci = Some bh ->
  dir_view bh = Ret files ->
  entry files (OUICHEFS_MAX_SUBFILES - 1) = Ret last ->
  inode last <> 0 ->
  visits fuel st dir = Ret vs ->
  Forall (fun x => eligible st x.2 = false) vs ->
  ouichefs_create fuel st dir d mode excl
  = ('(st1, freed) ← ouichefs_fblocks fuel st dir;
     if negb (freed =? 0) then Ret (st1, d, - EMLINK)
     else create_entry st1 dir (index_block ci) d mode)
  /\ ouichefs_fblocks fuel st dir = Ret (st, -1)
  /\ ouichefs_create fuel st dir d mode excl = Ret (st, d, - EMLINK).
Proof.
  intros Hname Hci Hbh Hfiles Hlast Hfull Hvs Hel.
  assert (Hcreate : ouichefs_create fuel st dir d mode excl
    = ('(st1, freed) ← ouichefs_fblocks fuel st dir;
       if negb (freed =? 0) then Ret (st1, d, - EMLINK)
       else create_entry st1 dir (index_block ci) d mode)).
  { unfold ouichefs_create.
    destruct (Z.gtb_spec (strlen (d_name d)) OUICHEFS_FILENAME_LEN); [lia|].
    unfold get_inode, sb_bread. rewrite Hci. cbn [mbind outcome_mbind obind].
    rewrite Hbh, Hfiles. cbn [mbind outcome_mbind obind].
    rewrite Hlast. cbn [mbind outcome_mbind obind].
    unfold create_evict.
    destruct (Z.eqb_spec (inode last) 0); [done|]. done. }
  pose proof (fblocks_without_victim st fuel dir vs Hvs Hel) as Hfb.
  split; [done|]. split; [done|].
  rewrite Hcreate, Hfb. done.
Qed.

(** ** The deletion route of the eviction pass *)

(** With a dentry alias for the victim, [ouichefs_fblocks] deletes it by
    [vfs_unlink] on that dentry under the recorded parent. *)
Lemma fblocks_by_name st fuel dir p vi i d :
  ouichefs_iterate (Some (ouichefs_fblocks_action st)) fuel st dir no_victim
  = Ret {| parent := Some p; victim_inode := Some vi |} ->
  inodes st !! vi = Some i ->
  d_find_any_alias st vi = Some d ->
  ouichefs_fblocks fuel st dir
  = ('(st', _) ← vfs_unlink st p d; Ret (st', 0)).
Proof.
  intros Hit Hi Hd. unfold ouichefs_fblocks.
  change {| parent := None; victim_inode := None |} with no_victim.
  rewrite Hit. cbn. unfold get_inode. rewrite Hi, Hd. done.
Qed.

(** Without one, it removes the victim inode itself from the recorded
    parent, by [ouichefs_remove]. *)
Lemma fblocks_without_alias st fuel dir p vi i :
  ouichefs_iterate (Some (ouichefs_fblocks_action st)) fuel st dir no_victim
  = Ret {| parent := Some p; victim_inode := Some vi |} ->
  inodes st !! vi = Some i ->
  d_find_any_alias st vi = None ->
  ouichefs_fblocks fuel st dir
  = ('(st', _) ← ouichefs_remove st p vi; Ret (st', 0)).
Proof.
  intros Hit Hi Hd. unfold ouichefs_fblocks.
  change {| parent := None; victim_inode := None |} with no_victim.
  rewrite Hit. cbn. unfold get_inode. rewrite Hi, Hd. done.
Qed.

(** ** The scan of the source directory in a cross-parent rename *)

Lemma rename_scan_from_full rest ino :
  Forall (fun f => inode f <> 0) rest ->
  forall i f_id, rename_scan_from rest ino i f_id = Oops OutOfBounds.
Proof.
  induction 1 as [|f rest Hf _ IH]; intros i f_id; [done|].
  cbn. destruct (inode f =? ino); [apply IH|].
  destruct (Z.eqb_spec (inode f) 0); [done|apply IH].
Qed.

(** On a directory without a zero entry the scan reads past the array,
    whatever the capacity. *)
Lemma rename_scan_full files ino :
  OUICHEFS_MAX_SUBFILES <> 0 ->
  Forall (fun f => inode f <> 0) files ->
  rename_scan files ino = Oops OutOfBounds.
Proof.
  intros Hmax Hfull. unfold rename_scan.
  destruct (Z.eqb_spec OUICHEFS_MAX_SUBFILES 0); [done|].
  by apply rename_scan_from_full.
Qed.

(** ** Directory removal *)

Lemma entry_first {A} (a : list A) (x : A) :
  a !! 0%nat = Some x -> entry a 0 = Ret x.
Proof. apply (entry_lookup a 0). Qed.

Lemma remove_codes st dir ino st' r :
  ouichefs_remove st dir ino = Ret (st', r) -> r = 0 \/ r = - EIO.
Proof.
  unfold ouichefs_remove.
  destruct (get_inode st dir) as [d| |]; [|done|done].
  destruct (get_inode st ino) as [t| |]; [|done|done].
  cbn [mbind outcome_mbind obind].
  destruct (sb_bread st (index_block d)) as [bh|]; [|intros [= _ <-]; by right].
  destruct (dir_view bh) as [files| |]; [|done|done].
  cbn [mbind outcome_mbind obind].
  destruct (remove_from_dir files ino) as [files'| |]; [|done|done].
  cbn [mbind outcome_mbind obind].
  destruct (cleanup_blocks _ _ _) as [st3| |]; [|done|done].
  cbn [mbind outcome_mbind obind].
  destruct (get_inode st3 ino) as [t'| |]; [|done|done].
  cbn. intros [= _ <-]. by left.
Qed.

Lemma unlink_codes st dir d st' r :
  ouichefs_unlink st dir d = Ret (st', r) -> r = 0 \/ r = - EIO.
Proof.
  unfold ouichefs_unlink, d_inode_of.
  destruct (d_inode d); [|done]. cbn. apply remove_codes.
Qed.

(** C8 (amended).  For a target directory [t]: [rmdir] fails with
    [-ENOTEMPTY] exactly when the link count of [t] exceeds 2 or its index
    block is readable with a first slot in use; with a link count of at
    most 2 and an index block that cannot be read it fails with [-EIO] on
    the unchanged state; with a link count of at most 2 and a readable
    index whose first slot is free it is [ouichefs_unlink] on the same
    arguments, the removal path of unlink. *)
Theorem rmdir_cases st dir d ino t :
  d_inode d = Some ino ->
  inodes st !! ino = Some t ->
  ((exists st', ouichefs_rmdir st dir d = Ret (st', - ENOTEMPTY))
   <-> (2 < i_nlink t \/ first_slot_used st t))
  /\ (i_nlink t <= 2 -> blocks st !! index_block t = None ->
      ouichefs_rmdir st dir d = Ret (st, - EIO))
  /\ (i_nlink t <= 2 -> first_slot_free st t ->
      ouichefs_rmdir st dir d = ouichefs_unlink st dir d).
Proof.
  intros Hd Ht.
  assert (Hhead : ouichefs_rmdir st dir d
    = if i_nlink t >? 2 then Ret (st, - ENOTEMPTY)
      else match sb_bread st (index_block t) with
           | None => Ret (st, - EIO)
           | Some bh =>
               dblock ← dir_view bh; f0 ← entry dblock 0;
               if negb (inode f0 =? 0) then Ret (st, - ENOTEMPTY)
               else ouichefs_unlink st dir d
           end).
  { unfold ouichefs_rmdir, d_inode_of, get_inode. rewrite Hd. cbn.
    rewrite Ht. done. }
  rewrite Hhead. unfold sb_bread.
  split; [|split].
  - split.
    + intros [st' H].
      destruct (Z.gtb_spec (i_nlink t) 2); [left; lia|right].
      destruct (blocks st !! index_block t) as [bh|] eqn:Hbh; [|done].
      destruct (dir_view bh) as [files| |] eqn:Hfiles; [|done|done].
      cbn [mbind outcome_mbind obind] in H.
      destruct (entry files 0) as [f0| |] eqn:Hf0; [|done|done].
      cbn [mbind outcome_mbind obind] in H.
      apply entry_Ret in Hf0 as [_ Hf0].
      destruct (Z.eqb_spec (inode f0) 0) as [Hz|Hnz].
      * cbn in H. apply unlink_codes in H. unfold ENOTEMPTY, EIO in H. lia.
      * exists bh, files, f0. done.
    + intros [Hn|(bh & files & f0 & Hbh & Hfiles & Hf0 & Hnz)].
      * exists st. destruct (Z.gtb_spec (i_nlink t) 2); [done|lia].
      * exists st. destruct (i_nlink t >? 2); [done|].
        rewrite Hbh, Hfiles. cbn [mbind outcome_mbind obind].
        rewrite (entry_first files f0 Hf0). cbn [mbind outcome_mbind obind].
        by destruct (Z.eqb_spec (inode f0) 0).
  - intros Hn Hbh. destruct (Z.gtb_spec (i_nlink t) 2); [lia|].
    by rewrite Hbh.
  - intros Hn (bh & files & f0 & Hbh & Hfiles & Hf0 & Hz).
    destruct (Z.gtb_spec (i_nlink t) 2); [lia|].
    rewrite Hbh, Hfiles. cbn [mbind outcome_mbind obind].
    rewrite (entry_first files f0 Hf0). cbn [mbind outcome_mbind obind].
    by rewrite Hz.
Qed.

(** ** Removal of a file whose index block cannot be read *)

Lemma put_free_bit_other bm i j :
  0 <= j -> j <> i -> put_free_bit bm i !! Z.to_nat j = bm !! Z.to_nat j.
Proof.
  intros Hj Hne. unfold put_free_bit.
  destruct (Z.ltb_spec i 0); [done|].
  apply list_lookup_insert_ne. lia.
Qed.

Lemma put_free_bit_same bm i :
  0 <= i -> (Z.to_nat i < length bm)%nat ->
  put_free_bit bm i !! Z.to_nat i = Some true.
Proof.
  intros Hi Hlen. unfold put_free_bit.
  destruct (Z.ltb_spec i 0); [lia|].
  by apply list_lookup_insert_eq.
Qed.

(** C9.  Removing from directory [dir] a target [ino] that resides in
    it, when the index block of the target cannot be read: the removal
    returns 0; the only block written is the parent's index, from which
    the entry is removed (no data block is scrubbed); the mode, owner,
    group, size, block count, index block number and the seconds of the
    three timestamps of the inode are 0 afterwards, its link count,
    reference count and nanoseconds being left as they were; the parent
    has the current time as its three timestamps and one link less when
    the target is a directory; the superblock information is the previous
    one with the index block number, then the inode number, freed: both
    free counts have grown by one, the two bits read as free, and the bit
    of every other block, the data blocks of the target included, is as
    before. *)
Theorem remove_unreadable_index st dir ino d t bh files (k p : nat) :
  inodes st !! dir = Some d ->
  inodes st !! ino = Some t ->
  blocks st !! index_block d = Some bh ->
  dir_view bh = Ret files ->
  length files = Z.to_nat OUICHEFS_MAX_SUBFILES ->
  left_packed files k ->
  (p < k)%nat ->
  inode <$> files !! p = Some ino ->
  blocks st !! index_block t = None ->
  exists (p' : nat) st',
    ouichefs_remove st dir ino = Ret (st', 0)
    /\ (p <= p' < k)%nat
    /\ inode <$> files !! p' = Some ino
    /\ blocks st'
       = <[index_block d :=
             DirBlock (take p' files ++ drop (S p') (take k files)
                       ++ zero_file :: drop k files)]> (blocks st)
    /\ inodes st' !! ino
       = Some {| i_mode := 0; i_uid := 0; i_gid := 0; i_size := 0;
                 i_ctime := {| tv_sec := 0; tv_nsec := tv_nsec (i_ctime t) |};
                 i_atime := {| tv_sec := 0; tv_nsec := tv_nsec (i_atime t) |};
                 i_mtime := {| tv_sec := 0; tv_nsec := tv_nsec (i_mtime t) |};
                 i_blocks := 0; i_nlink := i_nlink t; i_count := i_count t;
                 index_block := 0 |}
    /\ inodes st' !! dir
       = Some {| i_mode := i_mode d; i_uid := i_uid d; i_gid := i_gid d;
                 i_size := i_size d; i_ctime := current_time st;
                 i_atime := current_time st; i_mtime := current_time st;
                 i_blocks := i_blocks d;
                 i_nlink := if S_ISDIR (i_mode t)
                            then to_u32 (i_nlink d - 1) else i_nlink d;
                 i_count := i_count d; index_block := index_block d |}
    /\ (forall q, q <> ino -> q <> dir -> inodes st' !! q = inodes st !! q)
    /\ sbi st' = put_inode (put_block (sbi st) (index_block t)) ino
    /\ nr_free_inodes (sbi st') = nr_free_inodes (sbi st) + 1
    /\ nr_free_blocks (sbi st') = nr_free_blocks (sbi st) + 1
    /\ (0 <= ino -> (Z.to_nat ino < length (ifree_bitmap (sbi st)))%nat ->
        ifree_bitmap (sbi st') !! Z.to_nat ino = Some true)
    /\ (0 <= index_block t ->
        (Z.to_nat (index_block t) < length (bfree_bitmap (sbi st)))%nat ->
        bfree_bitmap (sbi st') !! Z.to_nat (index_block t) = Some true)
    /\ (forall b, 0 <= b -> b <> index_block t ->
        bfree_bitmap (sbi st') !! Z.to_nat b
        = bfree_bitmap (sbi st) !! Z.to_nat b)
    /\ (forall b, b <> index_block d -> blocks st' !! b = blocks st !! b).
Proof.
  intros Hd Ht Hbh Hfiles Hlen Hpacked Hp Hino Hunread.
  destruct (remove_from_dir_closed files k p ino Hlen Hpacked Hp Hino)
    as (p' & Hpp' & Hp' & _ & Hrm).
  assert (Hbno : index_block t <> index_block d) by congruence.
  assert (Hne : ino <> dir) by congruence.
  set (files' := take p' files ++ drop (S p') (take k files)
                 ++ zero_file :: drop k files) in *.
  set (d1 := touch d (current_time st)).
  set (d2 := if S_ISDIR (i_mode t) then inode_dec_link_count d1 else d1).
  set (st2 := set_inode (write_block st (index_block d) (DirBlock files'))
                dir d2).
  exists p',
    (set_sbi (set_inode st2 ino (clean_inode t))
       (put_inode (put_block (sbi st) (index_block t)) ino)).
  split.
  { unfold ouichefs_remove, get_inode, sb_bread.
    rewrite Hd, Ht. cbn [mbind outcome_mbind obind].
    rewrite Hbh, Hfiles. cbn [mbind outcome_mbind obind].
    rewrite Hrm. cbn [mbind outcome_mbind obind].
    fold d1 d2 st2.
    assert (Hc : cleanup_blocks st2 t (index_block t) = Ret st2).
    { unfold cleanup_blocks, sb_bread. cbn.
      by rewrite lookup_insert_ne, Hunread. }
    rewrite Hc. cbn [mbind outcome_mbind obind].
    assert (Hi : inodes st2 !! ino = Some t).
    { cbn. by rewrite lookup_insert_ne. }
    rewrite Hi. done. }
  split; [lia|]. split; [done|]. split; [done|].
  split; [cbn; apply lookup_insert_eq|].
  split.
  { cbn. rewrite lookup_insert_ne by done. rewrite lookup_insert_eq.
    subst d2 d1. by destruct (S_ISDIR (i_mode t)). }
  split.
  { intros q Hq1 Hq2. cbn. by rewrite !lookup_insert_ne. }
  split; [done|]. split; [done|]. split; [done|].
  split; [intros H0 Hl; cbn; by apply put_free_bit_same|].
  split; [intros H0 Hl; cbn; by apply put_free_bit_same|].
  split.
  - intros b Hb Hne'. cbn. by apply put_free_bit_other.
  - intros b Hb. cbn. by rewrite lookup_insert_ne.
Qed.

(** ** Rename within one directory *)

(** The position recorded by the first loop of [ouichefs_rename] is the
    initial one or that of an entry carrying the old name. *)
Lemma rename_check_f_pos files old_name new_name :
  forall n i f_pos new_pos f_pos' new_pos',
    rename_check files true old_name new_name n i f_pos new_pos
    = Ret (inr (f_pos', new_pos')) ->
    f_pos' = f_pos
    \/ exists f, files !! Z.to_nat f_pos' = Some f /\ 0 <= f_pos'
         /\ strncmp (filename f) old_name (Z.to_nat OUICHEFS_FILENAME_LEN) = 0.
Proof.
  induction n as [|n IH]; intros i f_pos new_pos f_pos' new_pos'.
  { cbn. intros [= <- <-]. by left. }
  cbn [rename_check].
  destruct (entry files i) as [f| |] eqn:Hf; [|done|done].
  cbn [mbind outcome_mbind obind andb].
  apply entry_Ret in Hf as [Hi Hf].
  destruct (strncmp (filename f) new_name _ =? 0); [done|].
  intros H. apply IH in H as [->|H]; [|by right].
  destruct (Z.eqb_spec (strncmp (filename f) old_name
                          (Z.to_nat OUICHEFS_FILENAME_LEN)) 0) as [Hm|];
    [|by left].
  right. exists f. done.
Qed.

Lemma entry_at {A} (a : list A) (i : Z) (x : A) :
  0 <= i -> a !! Z.to_nat i = Some x -> entry a i = Ret x.
Proof.
  intros Hi H. rewrite <- (Z2Nat.id i) by done. by apply entry_lookup.
Qed.

Lemma rename_check_total files old_name new_name :
  Forall (fun f => strncmp (filename f) new_name
                     (Z.to_nat OUICHEFS_FILENAME_LEN) <> 0) files ->
  forall (n i : nat) f_pos new_pos,
    (i + n <= length files)%nat ->
    exists f_pos' new_pos',
      rename_check files true old_name new_name n (Z.of_nat i) f_pos new_pos
      = Ret (inr (f_pos', new_pos'))
      /\ (f_pos' = f_pos \/ Z.of_nat i <= f_pos' < Z.of_nat (i + n))
      /\ ((exists (q : nat) f, (i <= q < i + n)%nat /\ files !! q = Some f
             /\ strncmp (filename f) old_name
                  (Z.to_nat OUICHEFS_FILENAME_LEN) = 0)
          -> Z.of_nat i <= f_pos' < Z.of_nat (i + n)).
Proof.
  intros Hnew. induction n as [|n IH]; intros i f_pos new_pos Hlen.
  { exists f_pos, new_pos. cbn. split; [done|]. split; [by left|].
    intros (q & f & Hq & _). lia. }
  destruct (lookup_lt_is_Some_2 files i) as [f Hf]; [lia|].
  cbn [rename_check]. rewrite (entry_lookup _ _ _ Hf).
  cbn [mbind outcome_mbind obind andb].
  pose proof (Forall_lookup_1 _ _ _ _ Hnew Hf) as Hn. cbn in Hn.
  destruct (Z.eqb_spec (strncmp (filename f) new_name
                          (Z.to_nat OUICHEFS_FILENAME_LEN)) 0); [done|].
  replace (Z.of_nat i + 1) with (Z.of_nat (S i)) by lia.
  destruct (Z.eqb_spec (strncmp (filename f) old_name
                          (Z.to_nat OUICHEFS_FILENAME_LEN)) 0) as [Hm|Hm].
  - edestruct (IH (S i) (Z.of_nat i)) as (f_pos' & new_pos' & -> & Hr & Hex);
      [lia|].
    exists f_pos', new_pos'. split; [done|].
    assert (Z.of_nat i <= f_pos' < Z.of_nat (i + S n)) by lia.
    split; [by right|done].
  - edestruct (IH (S i) f_pos) as (f_pos' & new_pos' & -> & Hr & Hex); [lia|].
    exists f_pos', new_pos'. split; [done|]. split; [lia|].
    intros (q & f' & Hq & Hf' & Hm').
    destruct (decide (q = i)) as [->|Hne]; [congruence|].
    assert (Z.of_nat (S i) <= f_pos' < Z.of_nat (S i + n)); [|lia].
    apply Hex. exists q, f'. split; [lia|done].
Qed.

(** A rename within a directory of an existing name to a name carried by
    no entry returns 0. *)
Lemma rename_same_dir_succeeds st dir old_dentry new_dentry ci files (q : nat) f :
  strlen (d_name new_dentry) <= OUICHEFS_FILENAME_LEN ->
  inodes st !! dir = Some ci ->
  blocks st !! index_block ci = Some (DirBlock files) ->
  length files = Z.to_nat OUICHEFS_MAX_SUBFILES ->
  files !! q = Some f ->
  strncmp (filename f) (d_name old_dentry)
    (Z.to_nat OUICHEFS_FILENAME_LEN) = 0 ->
  Forall (fun f => strncmp (filename f) (d_name new_dentry)
                     (Z.to_nat OUICHEFS_FILENAME_LEN) <> 0) files ->
  exists st', ouichefs_rename st dir old_dentry dir new_dentry 0 = Ret (st', 0).
Proof.
  intros Hname Hci Hbh Hlen Hq Hold Hnew.
  unfold ouichefs_rename.
  assert (Hfl : negb (Z.land 0 (Z.lor RENAME_EXCHANGE RENAME_WHITEOUT) =? 0)
                = false) by reflexivity.
  rewrite Hfl.
  destruct (Z.gtb_spec (strlen (d_name new_dentry)) OUICHEFS_FILENAME_LEN);
    [lia|].
  unfold get_inode, sb_bread. rewrite Hci. cbn [mbind outcome_mbind obind].
  rewrite Hbh. cbn [dir_view mbind outcome_mbind obind].
  rewrite Z.eqb_refl.
  destruct (rename_check_total files (d_name old_dentry) (d_name new_dentry)
              Hnew (Z.to_nat OUICHEFS_MAX_SUBFILES) 0 (-1) (-1))
    as (f_pos & new_pos & Hcheck & _ & Hex); [lia|].
  change (Z.of_nat 0) with 0 in *. rewrite Hcheck.
  cbn [mbind outcome_mbind obind].
  assert (Hrange : 0 <= f_pos < Z.of_nat (0 + Z.to_nat OUICHEFS_MAX_SUBFILES)).
  { apply Hex. exists q, f. split; [|done].
    apply lookup_lt_Some in Hq. lia. }
  unfold set_filename.
  destruct (lookup_lt_is_Some_2 files (Z.to_nat f_pos)) as [f' Hf']; [lia|].
  rewrite (entry_at _ _ _ (proj1 Hrange) Hf'). cbn. eauto.
Qed.


(** C10.  A rename within one directory that returns 0 rewrites, in the
    index block of the directory, the filename of one entry carrying the
    old name: the entry keeps its inode number, every other entry and
    every other block is as before, and the inodes (block allocation
    included) and the superblock information are unchanged. *)
Theorem rename_same_dir st dir old_dentry new_dentry flags st' :
  ouichefs_rename st dir old_dentry dir new_dentry flags = Ret (st', 0) ->
  exists ci bh files (p : nat) f,
    inodes st !! dir = Some ci
    /\ blocks st !! index_block ci = Some bh
    /\ dir_view bh = Ret files
    /\ files !! p = Some f
    /\ strncmp (filename f) (d_name old_dentry)
         (Z.to_nat OUICHEFS_FILENAME_LEN) = 0
    /\ blocks st'
       = <[index_block ci :=
             DirBlock (<[p := {| inode := inode f;
                                 filename := strncpy (d_name new_dentry)
                                   (Z.to_nat OUICHEFS_FILENAME_LEN) |}]>
                         files)]> (blocks st)
    /\ inodes st' = inodes st
    /\ sbi st' = sbi st
    /\ aliases st' = aliases st.
Proof.
  unfold ouichefs_rename.
  destruct (negb _); [intros [= _ H]; unfold EINVAL in H; lia|].
  destruct (strlen (d_name new_dentry) >? OUICHEFS_FILENAME_LEN);
    [intros [= _ H]; unfold ENAMETOOLONG in H; lia|].
  unfold get_inode, sb_bread.
  destruct (inodes st !! dir) as [ci|] eqn:Hci; [|done].
  cbn [mbind outcome_mbind obind].
  destruct (blocks st !! index_block ci) as [bh|] eqn:Hbh;
    [|intros [= _ H]; unfold EIO in H; lia].
  destruct (dir_view bh) as [files| |] eqn:Hfiles; [|done|done].
  cbn [mbind outcome_mbind obind].
  rewrite Z.eqb_refl.
  destruct (rename_check files true _ _ _ 0 (-1) (-1))
    as [[e|[f_pos new_pos]]| |] eqn:Hcheck; [| |done|done].
  { cbn. intros [= <- ->].
    (* the only code on this path is -EEXIST *)
    exfalso. clear -Hcheck.
    assert (Hgen : forall n i a b e, rename_check files true (d_name old_dentry)
              (d_name new_dentry) n i a b = Ret (inl e) -> e = - EEXIST).
    { induction n as [|n IH]; intros i a b e; [done|].
      cbn [rename_check].
      destruct (entry files i) as [f| |]; [|done|done].
      cbn [mbind outcome_mbind obind].
      destruct (strncmp (filename f) (d_name new_dentry) _ =? 0);
        [by intros [= <-]|apply IH]. }
    apply Hgen in Hcheck. unfold EEXIST in Hcheck. lia. }
  cbn [mbind outcome_mbind obind].
  unfold set_filename.
  destruct (entry files f_pos) as [f| |] eqn:Hf; [|done|done].
  cbn. intros [= <-].
  apply entry_Ret in Hf as [Hpos Hf].
  apply rename_check_f_pos in Hcheck as [->|(f' & Hf' & _ & Hname)]; [lia|].
  assert (f' = f) as -> by congruence.
  exists ci, bh, files, (Z.to_nat f_pos), f. done.
Qed.

(** ** Names in a directory index *)

Lemma strncmp_strncpy name n : strncmp (strncpy name n) name n = 0.
Proof.
  revert name. induction n as [|n IH]; intros name; [done|].
  destruct name as [|c name].
  - cbn. done.
  - cbn [strncpy]. destruct (Z.eqb_spec c 0) as [->|Hc].
    + cbn. done.
    + cbn [strncmp hd tl]. rewrite Z.eqb_refl.
      destruct (Z.eqb_spec c 0); [done|]. apply IH.
Qed.

Lemma lookup_scan_used (files : list ouichefs_file) name :
  forall rest (i : nat),
    drop i files = rest ->
    lookup_scan files name (length rest) (Z.of_nat i)
    = Ret (find_name (used_entries rest) name).
Proof.
  induction rest as [|f rest IH]; intros i Hdrop; [done|].
  assert (Hf : files !! i = Some f).
  { rewrite <- (Nat.add_0_r i), <- lookup_drop, Hdrop. done. }
  assert (Hrest : drop (S i) files = rest).
  { rewrite (drop_S _ _ _ Hf) in Hdrop. congruence. }
  cbn [lookup_scan length used_entries].
  rewrite (entry_lookup _ _ _ Hf). cbn [mbind outcome_mbind obind].
  destruct (inode f =? 0); [done|]. cbn [find_name].
  destruct (strncmp (filename f) name _ =? 0); [done|].
  replace (Z.of_nat i + 1) with (Z.of_nat (S i)) by lia.
  by apply IH.
Qed.

Lemma first_free_slot_used (files : list ouichefs_file) :
  forall rest (i : nat),
    drop i files = rest ->
    first_free_slot files (length rest) (Z.of_nat i)
    = Ret (Z.of_nat (i + length (used_entries rest))).
Proof.
  induction rest as [|f rest IH]; intros i Hdrop.
  { cbn. by rewrite Nat.add_0_r. }
  assert (Hf : files !! i = Some f).
  { rewrite <- (Nat.add_0_r i), <- lookup_drop, Hdrop. done. }
  assert (Hrest : drop (S i) files = rest).
  { rewrite (drop_S _ _ _ Hf) in Hdrop. congruence. }
  cbn [first_free_slot length used_entries].
  rewrite (entry_lookup _ _ _ Hf). cbn [mbind outcome_mbind obind].
  destruct (inode f =? 0).
  { cbn. by rewrite Nat.add_0_r. }
  replace (Z.of_nat i + 1) with (Z.of_nat (S i)) by lia.
  rewrite (IH (S i) Hrest). cbn [length]. do 2 f_equal. lia.
Qed.

Lemma find_name_app us vs name :
  find_name (us ++ vs) name
  = match find_name us name with
    | Some i => Some i
    | None => find_name vs name
    end.
Proof.
  induction us as [|f us IH]; [done|]. cbn.
  by destruct (strncmp (filename f) name _ =? 0).
Qed.

Lemma used_entries_nonzero files :
  Forall (fun f => inode f <> 0) (used_entries files).
Proof.
  induction files as [|f files IH]; [constructor|]. cbn.
  destruct (Z.eqb_spec (inode f) 0); [constructor|by constructor].
Qed.

Lemma used_entries_app pre rest :
  Forall (fun f => inode f <> 0) pre ->
  used_entries (pre ++ rest) = pre ++ used_entries rest.
Proof.
  induction 1 as [|f pre Hf _ IH]; [done|]. cbn.
  destruct (Z.eqb_spec (inode f) 0); [done|]. by rewrite IH.
Qed.

(** An index splits into its entries in use and a tail that is empty or
    starts with a free slot. *)
Lemma used_entries_split files :
  files = used_entries files ++ drop (length (used_entries files)) files
  /\ head_zero (drop (length (used_entries files)) files)
  /\ take (length (used_entries files)) files = used_entries files.
Proof.
  induction files as [|f files (IH1 & IH2 & IH3)]; [done|]. cbn.
  destruct (Z.eqb_spec (inode f) 0) as [Hz|Hnz]; [done|].
  cbn. rewrite <- IH1. rewrite IH3. done.
Qed.

Lemma find_name_sublist us name (p : nat) :
  find_name us name = None ->
  find_name (take p us ++ drop (S p) us) name = None.
Proof.
  revert p. induction us as [|f us IH]; intros p; [by destruct p|].
  cbn. destruct (strncmp (filename f) name _ =? 0) eqn:E; [done|].
  intros H. destruct p as [|p]; cbn.
  - by rewrite drop_0.
  - rewrite E. by apply IH.
Qed.

(** Without assuming the index left-packed: a removal that succeeds
    deletes one of the entries in use. *)
Lemma remove_from_dir_used (files files' : list ouichefs_file) ino :
  length files = Z.to_nat OUICHEFS_MAX_SUBFILES ->
  ino <> 0 ->
  remove_from_dir files ino = Ret files' ->
  exists p' : nat,
    (p' < length (used_entries files))%nat
    /\ files' = take p' files
                ++ drop (S p') (used_entries files)
                ++ zero_file :: drop (length (used_entries files)) files.
Proof.
  intros Hlen Hino.
  destruct (used_entries_split files) as (Hsplit & Hhz & Htake).
  assert (Hk : (length (used_entries files) <= length files)%nat).
  { rewrite <- Htake at 1. rewrite length_take. lia. }
  set (k := length (used_entries files)) in *.
  destruct (scan_entries_packed _ _ ino Hino (used_entries_nonzero files)
              Hhz 0 (-1)) as (f' & Hscan & Hcase).
  rewrite <- Hsplit in Hscan. fold k in Hscan.
  unfold remove_from_dir.
  pose proof (remove_scan_entries files ino files 0 (-1) eq_refl) as Hs.
  rewrite Hlen in Hs. change (Z.of_nat 0) with 0 in Hs. rewrite Hs, Hscan.
  cbn [mbind outcome_mbind obind].
  replace (0 + Z.of_nat k) with (Z.of_nat k) by lia.
  destruct Hcase as [[-> _]|(p' & -> & Hp' & _)].
  - (* the inode is not in the directory *)
    unfold remove_entry, memmove_files, memset_file.
    destruct (-1 =? OUICHEFS_MAX_SUBFILES - 1) eqn:E1.
    + cbn [mbind outcome_mbind obind].
      apply Z.eqb_eq in E1.
      destruct (Z.leb_spec 0 (Z.of_nat k - 1)); [lia|]. done.
    + destruct (Z.eqb_spec (Z.of_nat k - -1 - 1) 0) as [Hz|Hnz].
      * cbn [mbind outcome_mbind obind].
        destruct (Z.leb_spec 0 (Z.of_nat k - 1)); [lia|]. done.
      * done.
  - assert (Hp'k : (p' < k)%nat).
    { destruct (used_entries files !! p') eqn:E; [|done].
      apply lookup_lt_Some in E. done. }
    replace (0 + Z.of_nat p') with (Z.of_nat p') by lia.
    rewrite remove_entry_packed by (done || lia).
    intros [= <-]. exists p'. split; [done|]. by rewrite Htake.
Qed.

Lemma used_entries_zero_file rest : used_entries (zero_file :: rest) = [].
Proof. done. Qed.

(** A removal keeps the index at its size and frees no name. *)
Lemma remove_from_dir_name_free (files files' : list ouichefs_file) ino name :
  length files = Z.to_nat OUICHEFS_MAX_SUBFILES ->
  ino <> 0 ->
  remove_from_dir files ino = Ret files' ->
  find_name (used_entries files) name = None ->
  length files' = Z.to_nat OUICHEFS_MAX_SUBFILES
  /\ find_name (used_entries files') name = None.
Proof.
  intros Hlen Hino Hrm Hfree.
  destruct (remove_from_dir_used files files' ino Hlen Hino Hrm)
    as (p' & Hp' & ->).
  destruct (used_entries_split files) as (Hsplit & Hhz & Htake).
  assert (Hk : (length (used_entries files) <= length files)%nat).
  { rewrite <- Htake at 1. rewrite length_take. lia. }
  set (k := length (used_entries files)) in *.
  split.
  - rewrite !length_app, length_take, length_drop. cbn [length].
    rewrite length_drop. fold k. lia.
  - replace (take p' files) with (take p' (used_entries files)).
    2:{ rewrite <- Htake, take_take. f_equal. lia. }
    rewrite app_assoc, used_entries_app.
    + rewrite used_entries_zero_file, app_nil_r.
      by apply find_name_sublist.
    + apply Forall_app. split.
      * apply Forall_take, used_entries_nonzero.
      * apply Forall_drop, used_entries_nonzero.
Qed.

(** ** What the eviction pass leaves of a directory *)

Lemma get_inode_Ret st p i : get_inode st p = Ret i -> inodes st !! p = Some i.
Proof. unfold get_inode. destruct (inodes st !! p); [|done]. by intros [= ->]. Qed.

Section WalkInvariant.
Context {A : Type} (act : Z -> Z -> A -> outcome A) (st : state)
        (P : A -> Prop).
Hypothesis Hact : forall d i data data',
  regular_visit st (d, i) -> P data -> act d i data = Ret data' -> P data'.

Lemma iterate_loop_invariant (rec : Z -> A -> outcome A) dir :
  (forall p data r, P data -> rec p data = Ret r -> P r) ->
  forall n fs data r,
    P data -> iterate_loop (Some act) rec st dir n fs data = Ret r -> P r.
Proof.
  intros Hrec. induction n as [|n IH]; intros fs data r HP.
  { cbn. by intros [= <-]. }
  destruct fs as [|f fs]; [done|]. cbn [iterate_loop].
  destruct (Z.eqb_spec (inode f) 0) as [|Hnz]; [by intros [= <-]|].
  destruct (ouichefs_iget st (inode f)) as [e|p] eqn:Hget; [done|].
  assert (Hp : p <> 0) by (by apply iget_inr in Hget as [-> _]).
  unfold get_inode. destruct (inodes st !! p) as [i|] eqn:Hi; [|done].
  cbn [mbind outcome_mbind obind].
  destruct (S_ISDIR (i_mode i)) eqn:Hdir.
  - intros H. apply obind_Ret_inv in H as (d1 & H1 & H2).
    eapply IH; [|exact H2]. eapply Hrec; eauto.
  - destruct (S_ISREG (i_mode i)) eqn:Hreg.
    + intros H. apply obind_Ret_inv in H as (d1 & H1 & H2).
      eapply IH; [|exact H2]. eapply Hact; [|exact HP|exact H1].
      split; [done|]. exists i. done.
    + cbn. by apply IH.
Qed.

Lemma iterate_invariant fuel :
  forall dir data r,
    P data -> ouichefs_iterate (Some act) fuel st dir data = Ret r -> P r.
Proof.
  induction fuel as [|fuel IH]; intros dir data r HP; [done|].
  cbn [ouichefs_iterate].
  destruct (get_inode st dir) as [d| |]; [|done|done].
  cbn [mbind outcome_mbind obind].
  destruct (sb_bread st (index_block d)) as [bh|]; [|by intros [= <-]].
  destruct (dir_view bh) as [files| |]; [|done|done].
  cbn [mbind outcome_mbind obind].
  by apply iterate_loop_invariant.
Qed.

End WalkInvariant.

Lemma action_victim_ok st d i v v' :
  regular_visit st (d, i) -> victim_ok st v ->
  ouichefs_fblocks_action st d i v = Ret v' -> victim_ok st v'.
Proof.
  intros (Hnz & ind & Hi & Hdir & _) Hv. cbn in Hnz, Hi.
  unfold ouichefs_fblocks_action, get_inode. rewrite Hi.
  cbn [mbind outcome_mbind obind].
  destruct (i_count ind >? 1); [by intros [= <-]|].
  destruct (match victim_inode v with Some _ => _ | None => _ end)
    as [ret| |]; [|done|done].
  cbn [mbind outcome_mbind obind].
  destruct (ret >? 0); intros [= <-]; [|done].
  unfold victim_ok. cbn. eauto.
Qed.

Lemma block_name_free_zeroed name : block_name_free Zeroed name.
Proof.
  exists (repeat zero_file (Z.to_nat OUICHEFS_MAX_SUBFILES)).
  split; [done|]. split; [by rewrite repeat_length|].
  by destruct (Z.to_nat OUICHEFS_MAX_SUBFILES).
Qed.

Lemma name_free_write st bno name b blk :
  name_free st bno name ->
  (b = bno -> block_name_free blk name) ->
  name_free (write_block st b blk) bno name.
Proof.
  intros (bh & Hbh & Hfree) Hblk. unfold name_free. cbn.
  destruct (decide (b = bno)) as [->|Hne].
  - exists blk. split; [apply lookup_insert_eq|by apply Hblk].
  - exists bh. by rewrite lookup_insert_ne.
Qed.

Lemma release_blocks_keeps bno name blks :
  forall scrubbed ib i count st st',
    release_blocks blks scrubbed ib i count st = Ret st' ->
    inodes st' = inodes st
    /\ (name_free st bno name -> name_free st' bno name).
Proof.
  induction blks as [|b0 rest IH]; intros scrubbed ib i count st st'.
  { cbn. destruct (i <? count); [done|]. by intros [= <-]. }
  cbn [release_blocks].
  destruct (i <? count); [|by intros [= <-]].
  destruct ((if scrubbed then 0 else b0) =? 0); [apply IH|].
  set (b := if scrubbed then 0 else b0).
  destruct (sb_bread _ b).
  - intros H. apply IH in H as [-> H]. split; [done|].
    intros Hf. apply H. apply name_free_write; [done|].
    intros _. apply block_name_free_zeroed.
  - intros H. apply IH in H as [-> H]. split; [done|].
    intros Hf. by apply H.
Qed.

Lemma cleanup_blocks_keeps bno name st t ib st' :
  cleanup_blocks st t ib = Ret st' ->
  inodes st' = inodes st
  /\ (name_free st bno name -> name_free st' bno name).
Proof.
  unfold cleanup_blocks.
  destruct (sb_bread st ib) as [bh|]; [|by intros [= <-]].
  destruct (S_ISDIR (i_mode t)).
  - cbn. intros [= <-]. split; [done|]. intros Hf.
    apply name_free_write; [done|]. intros _. apply block_name_free_zeroed.
  - destruct (index_view bh) as [blks| |]; [|done|done].
    cbn [mbind outcome_mbind obind].
    destruct (release_blocks _ _ _ _ _ _) as [st1| |] eqn:Hrel; [|done|done].
    cbn. intros [= <-].
    apply (release_blocks_keeps bno name) in Hrel as [Hi Hn].
    split; [done|]. intros Hf.
    apply name_free_write; [by apply Hn|].
    intros _. apply block_name_free_zeroed.
Qed.

(** Removing a non-zero inode other than [dir] keeps the inode of [dir]
    on its index block and frees no name in that block. *)
Lemma remove_keeps st p v st1 r dir ci name :
  ouichefs_remove st p v = Ret (st1, r) ->
  v <> 0 -> v <> dir ->
  inodes st !! dir = Some ci ->
  name_free st (index_block ci) name ->
  name_free st1 (index_block ci) name
  /\ exists ci1, inodes st1 !! dir = Some ci1
                 /\ index_block ci1 = index_block ci.
Proof.
  intros Hrm Hv Hvd Hci Hfree. revert Hrm. unfold ouichefs_remove.
  destruct (get_inode st p) as [d| |] eqn:Hd; [|done|done].
  destruct (get_inode st v) as [t| |] eqn:Ht; [|done|done].
  apply get_inode_Ret in Hd, Ht.
  cbn [mbind outcome_mbind obind].
  destruct (sb_bread st (index_block d)) as [bh|] eqn:Hbh;
    [|intros [= <- _]; eauto].
  destruct (dir_view bh) as [files| |] eqn:Hfiles; [|done|done].
  cbn [mbind outcome_mbind obind].
  destruct (remove_from_dir files v) as [files'| |] eqn:Hrm; [|done|done].
  cbn [mbind outcome_mbind obind].
  set (d2 := if S_ISDIR (i_mode t) then _ else _).
  set (st2 := set_inode (write_block st (index_block d) (DirBlock files'))
                p d2).
  assert (Hd2 : index_block d2 = index_block d).
  { unfold d2. by destruct (S_ISDIR (i_mode t)). }
  assert (Hfree2 : name_free st2 (index_block ci) name).
  { unfold st2. apply (name_free_write st (index_block ci) name
                         (index_block d) (DirBlock files')); [done|].
    intros Heq. destruct Hfree as (bh0 & Hbh0 & files0 & Hv0 & Hlen0 & Hn0).
    unfold sb_bread in Hbh. rewrite Heq in Hbh.
    assert (bh0 = bh) as -> by congruence.
    assert (files0 = files) as -> by congruence.
    destruct (remove_from_dir_name_free files files' v name Hlen0 Hv Hrm Hn0)
      as [Hl Hn].
    exists files'. done. }
  assert (Hdir2 : exists c2, inodes st2 !! dir = Some c2
                             /\ index_block c2 = index_block ci).
  { unfold st2. cbn. destruct (decide (p = dir)) as [->|Hne].
    - exists d2. rewrite lookup_insert_eq. split; [done|]. congruence.
    - exists ci. by rewrite lookup_insert_ne. }
  destruct (cleanup_blocks st2 t (index_block t)) as [st3| |] eqn:Hcl;
    [|done|done].
  cbn [mbind outcome_mbind obind].
  apply (cleanup_blocks_keeps (index_block ci) name) in Hcl as [Hi3 Hn3].
  unfold get_inode. destruct (inodes st3 !! v) as [t'|]; [|done].
  cbn. intros [= <- _]. split.
  - destruct (Hn3 Hfree2) as (bh3 & Hbh3 & Hf3). exists bh3. done.
  - destruct Hdir2 as (c2 & Hc2 & Hib). exists c2. split; [|done].
    cbn. rewrite lookup_insert_ne by done. by rewrite Hi3.
Qed.

(** The same for the eviction pass on a directory. *)
Lemma fblocks_keeps fuel st start st1 r dir ci name :
  ouichefs_fblocks fuel st start = Ret (st1, r) ->
  inodes st !! dir = Some ci ->
  S_ISDIR (i_mode ci) = true ->
  name_free st (index_block ci) name ->
  name_free st1 (index_block ci) name
  /\ exists ci1, inodes st1 !! dir = Some ci1
                 /\ index_block ci1 = index_block ci.
Proof.
  intros Hfb Hci Hdir Hfree. revert Hfb. unfold ouichefs_fblocks.
  destruct (ouichefs_iterate _ fuel st start _) as [v| |] eqn:Hit;
    [|done|done].
  cbn [mbind outcome_mbind obind].
  assert (Hok : victim_ok st v).
  { apply (iterate_invariant (ouichefs_fblocks_action st) st (victim_ok st)
             (action_victim_ok st) fuel start no_victim v I Hit). }
  unfold victim_ok in Hok.
  destruct (victim_inode v) as [vi|]; [|intros [= <- _]; eauto].
  destruct Hok as (Hnz & [p Hp] & ind & Hind & Hnd).
  unfold get_inode. rewrite Hind. cbn [mbind outcome_mbind obind].
  unfold d_find_any_alias.
  destruct (aliases st !! vi) as [nm|];
    cbn [fmap option_fmap option_map mbind outcome_mbind obind];
    rewrite Hp; cbn [deref mbind outcome_mbind obind];
    unfold vfs_unlink, ouichefs_unlink;
    cbn [d_inode_of d_inode mbind outcome_mbind obind];
    (destruct (ouichefs_remove st p vi) as [[st' r']| |] eqn:Hrm;
       [|done|done]);
    cbn; intros [= <- _];
    (eapply remove_keeps; eauto; intros ->; congruence).
Qed.


(** ** Create, then lookup *)

Lemma iget_inl st ino e : ouichefs_iget st ino = inl e -> e <> 0.
Proof.
  unfold ouichefs_iget.
  destruct (nr_inodes (sbi st) <=? ino); [by intros [= <-]|].
  destruct (inodes st !! ino); [done|by intros [= <-]].
Qed.

Lemma get_free_inode_nr s : nr_inodes (get_free_inode s).2 = nr_inodes s.
Proof. unfold get_free_inode. by destruct (find_first_bit _ _). Qed.

Lemma get_free_block_nr s : nr_inodes (get_free_block s).2 = nr_inodes s.
Proof. unfold get_free_block. by destruct (find_first_bit _ _). Qed.

(** A new inode is a non-zero inode number below [nr_inodes]; allocating
    it writes that inode only and no block. *)
Lemma new_inode_inr st1 dir mode st2 p :
  ouichefs_new_inode st1 dir mode = Ret (st2, inr p) ->
  p <> 0 /\ p < nr_inodes (sbi st2) /\ blocks st2 = blocks st1
  /\ exists ni, inodes st2 = <[p := ni]> (inodes st1).
Proof.
  unfold ouichefs_new_inode.
  destruct (negb (S_ISDIR mode) && negb (S_ISREG mode)); [done|].
  destruct ((nr_free_inodes (sbi st1) =? 0) || _); [done|].
  pose proof (get_free_inode_nr (sbi st1)) as Hnr1.
  destruct (get_free_inode (sbi st1)) as [ino s1]. cbn in Hnr1.
  destruct (Z.eqb_spec ino 0) as [|Hino]; [done|].
  destruct (ouichefs_iget _ ino) as [e|q] eqn:Hget; [done|].
  apply iget_inr in Hget as (-> & Hlt & _). cbn in Hlt.
  pose proof (get_free_block_nr (sbi (set_sbi st1 s1))) as Hnr2.
  destruct (get_free_block (sbi (set_sbi st1 s1))) as [bno s2]. cbn in Hnr2.
  destruct (bno =? 0); [done|].
  destruct (get_inode _ ino) as [i| |]; [|done|done].
  cbn [mbind outcome_mbind obind].
  destruct (get_inode _ dir) as [dd| |]; [|done|done].
  cbn. intros [= <- <-]. cbn.
  repeat split; try done; [lia|eauto].
Qed.

Lemma new_inode_inl st1 dir mode st2 e :
  ouichefs_new_inode st1 dir mode = Ret (st2, inl e) -> e <> 0.
Proof.
  unfold ouichefs_new_inode.
  destruct (negb (S_ISDIR mode) && negb (S_ISREG mode));
    [by intros [= _ <-]|].
  destruct ((nr_free_inodes (sbi st1) =? 0) || _); [by intros [= _ <-]|].
  destruct (get_free_inode (sbi st1)) as [ino s1].
  destruct (ino =? 0); [by intros [= _ <-]|].
  destruct (ouichefs_iget _ ino) as [e'|q] eqn:Hget.
  { intros [= _ <-]. by apply iget_inl in Hget. }
  destruct (get_free_block _) as [bno s2].
  destruct (bno =? 0); [by intros [= _ <-]|].
  destruct (get_inode _ q) as [i| |]; [|done|done].
  cbn [mbind outcome_mbind obind].
  destruct (get_inode _ dir) as [dd| |]; [|done|done].
  done.
Qed.

Lemma used_entries_insert files new :
  (length (used_entries files) < length files)%nat ->
  inode new <> 0 ->
  used_entries (<[length (used_entries files) := new]> files)
  = used_entries files
    ++ new :: used_entries (drop (S (length (used_entries files))) files).
Proof.
  intros Hlt Hnew. induction files as [|f files IH]; [cbn in Hlt; lia|].
  cbn [used_entries] in *.
  destruct (Z.eqb_spec (inode f) 0) as [Hz|Hnz].
  - cbn. destruct (Z.eqb_spec (inode new) 0); [done|]. by rewrite drop_0.
  - cbn [length] in *.
    change (<[S (length (used_entries files)) := new]> (f :: files))
      with (f :: <[length (used_entries files) := new]> files).
    cbn [used_entries drop app].
    destruct (Z.eqb_spec (inode f) 0); [done|].
    rewrite IH by lia. done.
Qed.

(** The insertion step of create, from a state in which the name is free
    in the parent's index. *)
Lemma create_entry_lookup st1 dir dbno d mode st' d' flags ci1 :
  create_entry st1 dir dbno d mode = Ret (st', d', 0) ->
  Z.of_nat (length (d_name d)) <= OUICHEFS_FILENAME_LEN ->
  inodes st1 !! dir = Some ci1 ->
  index_block ci1 = dbno ->
  name_free st1 dbno (d_name d) ->
  exists p ni,
    d' = d_add d (Some p)
    /\ d_inode d' = Some p
    /\ inodes st' !! p = Some ni
    /\ (p <> dir -> index_block ni <> dbno ->
        (forall dn, d_name dn = d_name d ->
           exists st'',
             ouichefs_lookup st' dir dn flags
             = Ret (st'', {| d_name := d_name d; d_inode := Some p |}, 0))
        /\ blocks st' !! index_block ni = Some Zeroed).
Proof.
  intros Hcreate Hlen Hci1 Hib (bh1 & Hbh1 & files1 & Hview1 & Hlen1 & Hfree).
  revert Hcreate. unfold create_entry.
  destruct (ouichefs_new_inode st1 dir mode) as [[st2 [e|p]]| |] eqn:Hnew;
    [| |done|done].
  { cbn. intros [= _ _ ->]. by apply new_inode_inl in Hnew. }
  cbn [mbind outcome_mbind obind].
  apply new_inode_inr in Hnew as (Hp0 & Hpnr & Hblocks2 & ni0 & Hinodes2).
  destruct (get_inode st2 p) as [ni| |] eqn:Hni; [|done|done].
  apply get_inode_Ret in Hni.
  cbn [mbind outcome_mbind obind].
  destruct (sb_bread st2 (index_block ni)) as [bnew|] eqn:Hbnew; [|done].
  destruct (sb_bread (write_block st2 (index_block ni) Zeroed) dbno)
    as [bh'|] eqn:Hbh'; [|done].
  cbn [deref mbind outcome_mbind obind].
  destruct (dir_view bh') as [files'| |] eqn:Hview'; [|done|done].
  cbn [mbind outcome_mbind obind].
  destruct (first_free_slot files' _ 0) as [i| |] eqn:Hslot; [|done|done].
  cbn [mbind outcome_mbind obind].
  unfold set_file.
  destruct (entry files' i) as [fi| |] eqn:Hentry; [|done|done].
  cbn [mbind outcome_mbind obind].
  destruct (get_inode _ dir) as [dir'| |] eqn:Hdir'; [|done|done].
  apply get_inode_Ret in Hdir'. cbn in Hdir'.
  cbn [mbind outcome_mbind obind].
  set (dir2 := if S_ISDIR mode then _ else _).
  intros [= <- <-].
  assert (Hdir2 : index_block dir2 = index_block dir').
  { unfold dir2. by destruct (S_ISDIR mode). }
  exists p.
  destruct (decide (p = dir)) as [->|Hpd].
  { exists dir2. split; [done|]. split; [done|]. split; [|done].
    cbn. apply lookup_insert_eq. }
  exists ni. split; [done|]. split; [done|]. split.
  { cbn. rewrite lookup_insert_ne by done. done. }
  intros _ Hnb.
  (* the parent's index at the insertion is the one of [st1] *)
  assert (bh' = bh1) as ->.
  { unfold sb_bread in Hbh'. cbn in Hbh'.
    rewrite lookup_insert_ne in Hbh' by done.
    rewrite Hblocks2 in Hbh'. congruence. }
  assert (files' = files1) as -> by congruence.
  assert (Hi : i = Z.of_nat (length (used_entries files1))).
  { pose proof (first_free_slot_used files1 files1 0 eq_refl) as Hs.
    rewrite Hlen1 in Hs. change (Z.of_nat 0) with 0 in Hs.
    rewrite Hs in Hslot. injection Hslot as <-. done. }
  subst i. apply entry_Ret in Hentry as [_ Hentry].
  rewrite Nat2Z.id in *.
  assert (Hk : (length (used_entries files1) < length files1)%nat)
    by (by apply lookup_lt_Some in Hentry).
  (* the directory inode at the insertion is the one of [st1] *)
  assert (dir' = ci1) as ->.
  { rewrite Hinodes2, lookup_insert_ne in Hdir' by done. congruence. }
  split.
  - intros dn Hdn. unfold ouichefs_lookup, d_add. rewrite Hdn.
    destruct (Z.gtb_spec (Z.of_nat (length (d_name d))) OUICHEFS_FILENAME_LEN);
      [lia|].
    unfold get_inode, sb_bread.
    cbn [set_inode set_inodes write_block set_blocks inodes blocks].
    rewrite lookup_insert_eq. cbn [mbind outcome_mbind obind].
    rewrite Hdir2, Hib.
    rewrite lookup_insert_eq. cbn [dir_view mbind outcome_mbind obind].
    match goal with
    | |- context [lookup_scan ?fs _ _ _] =>
        pose proof (lookup_scan_used fs (d_name d) fs 0 eq_refl) as Hscan
    end.
    rewrite length_insert, Hlen1 in Hscan. change (Z.of_nat 0) with 0 in Hscan.
    rewrite Hscan. cbn [mbind outcome_mbind obind].
    rewrite used_entries_insert by done.
    rewrite find_name_app, Hfree. cbn [find_name filename inode].
    rewrite strncmp_strncpy. cbn [Z.eqb].
    match goal with
    | |- context [ouichefs_iget ?s p] =>
        assert (Hget : ouichefs_iget s p = inr p)
    end.
    { unfold ouichefs_iget.
      cbn [set_inode set_inodes write_block set_blocks sbi inodes].
      destruct (Z.leb_spec (nr_inodes (sbi st2)) p); [lia|].
      rewrite lookup_insert_ne by done. by rewrite Hni. }
    rewrite Hget. cbn. eauto.
  - cbn. rewrite lookup_insert_ne by done. apply lookup_insert_eq.
Qed.

(** C7.  Let create return 0 for a name within the length limit, in a
    directory [dir] whose index holds [OUICHEFS_MAX_SUBFILES] entries none
    of which, among those in use, carries the name (what the lookup that
    precedes a create establishes).  Then create has bound the dentry to a
    new inode [p]; and unless the allocator handed out the directory's own
    inode or index block, a lookup in the same directory of any dentry
    [dn] that carries the same name, whatever it was bound to before,
    reads the directory and returns [dn] bound to the same inode [p];
    and the index block of [p] is a zeroed block. *)
Theorem create_then_lookup fuel st dir d mode excl st' d' flags ci :
  ouichefs_create fuel st dir d mode excl = Ret (st', d', 0) ->
  Z.of_nat (length (d_name d)) <= OUICHEFS_FILENAME_LEN ->
  inodes st !! dir = Some ci ->
  S_ISDIR (i_mode ci) = true ->
  name_free st (index_block ci) (d_name d) ->
  exists p ni,
    d' = d_add d (Some p)
    /\ d_inode d' = Some p
    /\ inodes st' !! p = Some ni
    /\ (p <> dir -> index_block ni <> index_block ci ->
        (forall dn, d_name dn = d_name d ->
           exists st'',
             ouichefs_lookup st' dir dn flags
             = Ret (st'', {| d_name := d_name d; d_inode := Some p |}, 0))
        /\ blocks st' !! index_block ni = Some Zeroed).
Proof.
  intros Hcreate Hlen Hci Hdir Hfree. revert Hcreate.
  unfold ouichefs_create.
  destruct (strlen (d_name d) >? OUICHEFS_FILENAME_LEN); [done|].
  unfold get_inode. rewrite Hci. cbn [mbind outcome_mbind obind].
  destruct (sb_bread st (index_block ci)) as [bh|]; [|done].
  destruct (dir_view bh) as [files| |]; [|done|done].
  cbn [mbind outcome_mbind obind].
  destruct (entry files _) as [last| |]; [|done|done].
  cbn [mbind outcome_mbind obind].
  destruct (create_evict fuel st dir last) as [[st1 freed]| |] eqn:Hev;
    [|done|done].
  cbn [mbind outcome_mbind obind].
  destruct (freed =? 0); [|done]. cbn [negb].
  assert (Hkeep : name_free st1 (index_block ci) (d_name d)
                  /\ exists ci1, inodes st1 !! dir = Some ci1
                                 /\ index_block ci1 = index_block ci).
  { unfold create_evict in Hev.
    destruct (negb (inode last =? 0)).
    - eapply fblocks_keeps; eauto.
    - injection Hev as <- _. eauto. }
  destruct Hkeep as (Hfree1 & ci1 & Hci1 & Hib).
  intros Hentry.
  eapply create_entry_lookup; eauto.
Qed.

(** ** Termination of the walk *)

Section Fuel.
Context {A : Type} (act : Z -> Z -> A -> outcome A) (st : state)
        (rank : Z -> nat).
Hypothesis Hranked : ranked st rank.
Hypothesis Hact : forall d i data, act d i data <> NoFuel.

Lemma iterate_loop_fuel (rec : Z -> A -> outcome A) dir d bh files :
  inodes st !! dir = Some d ->
  blocks st !! index_block d = Some bh ->
  dir_view bh = Ret files ->
  (forall p data, (rank p < rank dir)%nat -> rec p data <> NoFuel) ->
  forall n fs data,
    fs ⊆ files ->
    iterate_loop (Some act) rec st dir n fs data <> NoFuel.
Proof.
  intros Hd Hbh Hfiles Hrec.
  induction n as [|n IH]; intros fs data Hsub; [done|].
  destruct fs as [|f fs]; [done|]. cbn [iterate_loop].
  destruct (inode f =? 0); [done|].
  destruct (ouichefs_iget st (inode f)) as [e|p] eqn:Hget; [done|].
  apply iget_inr in Hget as (-> & _ & _).
  unfold get_inode.
  destruct (inodes st !! inode f) as [i|] eqn:Hi; [|done].
  cbn [mbind outcome_mbind obind].
  assert (Hsub' : fs ⊆ files).
  { intros x Hx. apply Hsub. by right. }
  destruct (S_ISDIR (i_mode i)) eqn:Hdir.
  - assert (Hlt : (rank (inode f) < rank dir)%nat).
    { eapply Hranked; eauto. apply Hsub. by left. }
    pose proof (Hrec (inode f) data Hlt) as Hr.
    destruct (rec (inode f) data) as [data'| |]; [|done|done].
    cbn. by apply IH.
  - destruct (S_ISREG (i_mode i)).
    + pose proof (Hact dir (inode f) data) as Ha.
      destruct (act dir (inode f) data) as [data'| |]; [|done|done].
      cbn. by apply IH.
    + cbn. by apply IH.
Qed.

(** On a forest, a fuel above the rank of the starting directory is
    enough: the walk returns a result or stops on a fault. *)
Lemma iterate_enough_fuel fuel :
  forall dir data,
    (rank dir < fuel)%nat ->
    ouichefs_iterate (Some act) fuel st dir data <> NoFuel.
Proof.
  induction fuel as [|fuel IH]; intros dir data Hlt; [lia|].
  cbn [ouichefs_iterate].
  unfold get_inode.
  destruct (inodes st !! dir) as [d|] eqn:Hd; [|done].
  cbn [mbind outcome_mbind obind]. unfold sb_bread.
  destruct (blocks st !! index_block d) as [bh|] eqn:Hbh; [|done].
  destruct (dir_view bh) as [files|flt|] eqn:Hfiles; [|done|by destruct bh].
  cbn [mbind outcome_mbind obind].
  eapply iterate_loop_fuel; eauto.
  intros p data' Hp. apply IH. lia.
Qed.

End Fuel.

(** More fuel does not change a result of the walk. *)
Lemma iterate_loop_fuel_mono {A} (act : option (Z -> Z -> A -> outcome A))
    st (rec rec' : Z -> A -> outcome A) dir :
  (forall p data r, rec p data = Ret r -> rec' p data = Ret r) ->
  forall n fs data r,
    iterate_loop act rec st dir n fs data = Ret r ->
    iterate_loop act rec' st dir n fs data = Ret r.
Proof.
  intros Hrec. induction n as [|n IH]; intros fs data r; [done|].
  destruct fs as [|f fs]; [done|]. cbn [iterate_loop].
  destruct (inode f =? 0); [done|].
  destruct (ouichefs_iget st (inode f)) as [e|p]; [done|].
  destruct (get_inode st p) as [i| |]; [|done|done].
  cbn [mbind outcome_mbind obind].
  destruct (S_ISDIR (i_mode i)).
  - intros H. apply obind_Ret_inv in H as (d1 & H1 & H2).
    rewrite (Hrec _ _ _ H1). cbn. by apply IH.
  - intros H. apply obind_Ret_inv in H as (d1 & H1 & H2).
    rewrite H1. cbn. by apply IH.
Qed.

Lemma iterate_fuel_mono {A} (act : option (Z -> Z -> A -> outcome A)) st fuel :
  forall dir data r,
    ouichefs_iterate act fuel st dir data = Ret r ->
    ouichefs_iterate act (S fuel) st dir data = Ret r.
Proof.
  induction fuel as [|fuel IH]; intros dir data r; [done|].
  intros H. cbn [ouichefs_iterate] in *.
  destruct (get_inode st dir) as [d| |]; [|done|done].
  cbn [mbind outcome_mbind obind] in *.
  destruct (sb_bread st (index_block d)) as [bh|]; [|done].
  destruct (dir_view bh) as [files| |]; [|done|done].
  cbn [mbind outcome_mbind obind] in *.
  eapply iterate_loop_fuel_mono; [|exact H].
  intros p data' r'. apply IH.
Qed.

(** ** The premises of create-then-lookup on a consistent volume *)

(** A lookup that binds no inode establishes that the name is free. *)
Lemma lookup_negative_name_free st dir d flags st0 ci bh files :
  inodes st !! dir = Some ci ->
  blocks st !! index_block ci = Some bh ->
  dir_view bh = Ret files ->
  length files = Z.to_nat OUICHEFS_MAX_SUBFILES ->
  ouichefs_lookup st dir d flags = Ret (st0, d_add d None, 0) ->
  name_free st (index_block ci) (d_name d).
Proof.
  intros Hci Hbh Hfiles Hlen. unfold ouichefs_lookup.
  destruct (_ >? OUICHEFS_FILENAME_LEN); [done|].
  unfold get_inode, sb_bread. rewrite Hci. cbn [mbind outcome_mbind obind].
  rewrite Hbh, Hfiles. cbn [mbind outcome_mbind obind].
  pose proof (lookup_scan_used files (d_name d) files 0 eq_refl) as Hscan.
  rewrite Hlen in Hscan. change (Z.of_nat 0) with 0 in Hscan.
  rewrite Hscan. cbn [mbind outcome_mbind obind].
  destruct (find_name (used_entries files) (d_name d)) as [n|] eqn:Hfind.
  - destruct (ouichefs_iget st n); [done|]. cbn. by intros [= _ H].
  - intros _. exists bh. split; [done|]. exists files. done.
Qed.

Lemma find_first_bit_free bm :
  forall i k, find_first_bit bm i = Some k ->
    i <= k /\ bm !! Z.to_nat (k - i) = Some true.
Proof.
  induction bm as [|b bm IH]; intros i k; [done|]. cbn.
  destruct b.
  - intros [= <-]. split; [lia|]. by rewrite Z.sub_diag.
  - intros H. apply IH in H as [Hle Hk]. split; [lia|].
    replace (Z.to_nat (k - i)) with (S (Z.to_nat (k - (i + 1)))) by lia.
    done.
Qed.

(** The inode and the index block that [ouichefs_new_inode] hands out
    were free in the bitmaps. *)
Lemma new_inode_fresh st1 dir mode st2 p :
  ouichefs_new_inode st1 dir mode = Ret (st2, inr p) ->
  0 <= p /\ ifree_bitmap (sbi st1) !! Z.to_nat p = Some true
  /\ exists ni, inodes st2 !! p = Some ni
       /\ 0 <= index_block ni
       /\ bfree_bitmap (sbi st1) !! Z.to_nat (index_block ni) = Some true.
Proof.
  unfold ouichefs_new_inode.
  destruct (negb (S_ISDIR mode) && negb (S_ISREG mode)); [done|].
  destruct ((nr_free_inodes (sbi st1) =? 0) || _); [done|].
  unfold get_free_inode.
  destruct (find_first_bit (ifree_bitmap (sbi st1)) 0) as [ino|] eqn:Hino;
    [|done].
  apply find_first_bit_free in Hino as [Hino0 Hino].
  rewrite Z.sub_0_r in Hino.
  destruct (ino =? 0); [done|].
  destruct (ouichefs_iget _ ino) as [e|q] eqn:Hget; [done|].
  apply iget_inr in Hget as (-> & _ & _).
  unfold get_free_block. cbn [set_sbi sbi bfree_bitmap].
  destruct (find_first_bit (bfree_bitmap (sbi st1)) 0) as [bno|] eqn:Hbno;
    [|done].
  apply find_first_bit_free in Hbno as [Hbno0 Hbno].
  rewrite Z.sub_0_r in Hbno.
  destruct (bno =? 0); [done|].
  destruct (get_inode _ ino) as [i| |]; [|done|done].
  cbn [mbind outcome_mbind obind].
  destruct (get_inode _ dir) as [dd| |]; [|done|done].
  cbn. intros [= <- <-].
  split; [done|]. split; [done|].
  eexists. split; [apply lookup_insert_eq|]. done.
Qed.

Lemma create_entry_fresh st1 dir dbno d mode st' d' :
  create_entry st1 dir dbno d mode = Ret (st', d', 0) ->
  exists p,
    d' = d_add d (Some p) /\ 0 <= p
    /\ ifree_bitmap (sbi st1) !! Z.to_nat p = Some true
    /\ (p <> dir ->
        exists ni, inodes st' !! p = Some ni /\ 0 <= index_block ni
          /\ bfree_bitmap (sbi st1) !! Z.to_nat (index_block ni) = Some true).
Proof.
  unfold create_entry.
  destruct (ouichefs_new_inode st1 dir mode) as [[st2 [e|p]]| |] eqn:Hnew;
    [| |done|done].
  { cbn. intros [= _ _ ->]. by apply new_inode_inl in Hnew. }
  cbn [mbind outcome_mbind obind].
  apply new_inode_fresh in Hnew as (Hp & Hfree & ni0 & Hni0 & Hib0 & Hbfree).
  destruct (get_inode st2 p) as [ni| |] eqn:Hni; [|done|done].
  apply get_inode_Ret in Hni. assert (ni = ni0) as -> by congruence.
  cbn [mbind outcome_mbind obind].
  destruct (sb_bread st2 (index_block ni0)); [|done].
  destruct (sb_bread _ dbno); [|done].
  cbn [deref mbind outcome_mbind obind].
  destruct (dir_view _) as [files'| |]; [|done|done].
  cbn [mbind outcome_mbind obind].
  destruct (first_free_slot files' _ 0) as [i| |]; [|done|done].
  cbn [mbind outcome_mbind obind].
  destruct (set_file files' i p (d_name d)) as [files''| |]; [|done|done].
  cbn [mbind outcome_mbind obind].
  destruct (get_inode _ dir) as [dir'| |]; [|done|done].
  cbn [mbind outcome_mbind obind].
  intros [= <- <-]. exists p. repeat split; try done.
  intros Hne. exists ni0. split; [|done].
  cbn. by rewrite lookup_insert_ne.
Qed.

(** Create-then-lookup without proviso, for a create that needs no
    eviction on a volume whose bitmaps mark the directory's inode and
    index block as used. *)
Lemma create_then_lookup_consistent fuel st dir d mode excl st' d' flags
    ci bh files last :
  ouichefs_create fuel st dir d mode excl = Ret (st', d', 0) ->
  Z.of_nat (length (d_name d)) <= OUICHEFS_FILENAME_LEN ->
  inodes st !! dir = Some ci ->
  blocks st !! index_block ci = Some bh ->
  dir_view bh = Ret files ->
  entry files (OUICHEFS_MAX_SUBFILES - 1) = Ret last ->
  inode last = 0 ->
  name_free st (index_block ci) (d_name d) ->
  0 <= dir -> 0 <= index_block ci ->
  ifree_bitmap (sbi st) !! Z.to_nat dir <> Some true ->
  bfree_bitmap (sbi st) !! Z.to_nat (index_block ci) <> Some true ->
  exists p ni,
    d' = d_add d (Some p)
    /\ inodes st' !! p = Some ni
    /\ (forall dn, d_name dn = d_name d ->
          exists st'',
            ouichefs_lookup st' dir dn flags
            = Ret (st'', {| d_name := d_name d; d_inode := Some p |}, 0))
    /\ blocks st' !! index_block ni = Some Zeroed.
Proof.
  intros Hcreate Hlen Hci Hbh Hfiles Hlast Hz Hfree Hdir0 Hib0 Hiused Hbused.
  revert Hcreate. unfold ouichefs_create.
  destruct (strlen (d_name d) >? OUICHEFS_FILENAME_LEN); [done|].
  unfold get_inode, sb_bread. rewrite Hci. cbn [mbind outcome_mbind obind].
  rewrite Hbh, Hfiles. cbn [mbind outcome_mbind obind].
  rewrite Hlast. cbn [mbind outcome_mbind obind].
  unfold create_evict. rewrite Hz. cbn [Z.eqb negb mbind outcome_mbind obind].
  intros Hentry.
  destruct (create_entry_fresh _ _ _ _ _ _ _ Hentry)
    as (p & Hd' & Hp0 & Hifree & Hni).
  destruct (create_entry_lookup st dir (index_block ci) d mode st' d' flags ci
              Hentry Hlen Hci eq_refl Hfree)
    as (p' & ni & Hd'' & _ & Hni' & Hlook).
  assert (p' = p) as -> by (unfold d_add in *; congruence).
  assert (Hpd : p <> dir) by (intros Heq; rewrite Heq in Hifree; done).
  destruct (Hni Hpd) as (ni2 & Hni2 & Hib2 & Hbfree).
  assert (ni2 = ni) as -> by congruence.
  assert (Hnb : index_block ni <> index_block ci)
    by (intros Heq; rewrite Heq in Hbfree; done).
  destruct (Hlook Hpd Hnb) as [Hl Hb].
  exists p, ni. done.
Qed.

(** * Further properties of the operations *)

(** ** Removal *)

Lemma remove_from_dir_missing (files : list ouichefs_file) ino :
  length files = Z.to_nat OUICHEFS_MAX_SUBFILES ->
  ino <> 0 ->
  Forall (fun f => inode f <> ino) (used_entries files) ->
  remove_from_dir files ino = Oops OutOfBounds.
Proof.
  intros Hlen Hino Hnot.
  destruct (used_entries_split files) as (Hsplit & Hhz & Htake).
  assert (Hk : (length (used_entries files) <= length files)%nat).
  { rewrite <- Htake at 1. rewrite length_take. lia. }
  set (k := length (used_entries files)) in *.
  destruct (scan_entries_packed _ _ ino Hino (used_entries_nonzero files)
              Hhz 0 (-1)) as (f' & Hscan & Hcase).
  rewrite <- Hsplit in Hscan. fold k in Hscan.
  unfold remove_from_dir.
  pose proof (remove_scan_entries files ino files 0 (-1) eq_refl) as Hs.
  rewrite Hlen in Hs. change (Z.of_nat 0) with 0 in Hs. rewrite Hs, Hscan.
  cbn [mbind outcome_mbind obind].
  replace (0 + Z.of_nat k) with (Z.of_nat k) by lia.
  destruct Hcase as [[-> _]|(p' & -> & Hp' & _)].
  - unfold remove_entry, memmove_files, memset_file.
    destruct (-1 =? OUICHEFS_MAX_SUBFILES - 1) eqn:E1.
    + cbn [mbind outcome_mbind obind].
      apply Z.eqb_eq in E1.
      destruct (Z.leb_spec 0 (Z.of_nat k - 1)); [lia|]. done.
    + destruct (Z.eqb_spec (Z.of_nat k - -1 - 1) 0) as [Hz|Hnz].
      * cbn [mbind outcome_mbind obind].
        destruct (Z.leb_spec 0 (Z.of_nat k - 1)); [lia|]. done.
      * done.
  - exfalso. destruct (used_entries files !! p') as [f|] eqn:E; [|done].
    injection Hp' as Hf. eapply Forall_lookup_1 in Hnot; eauto.
Qed.

(** X1.  Removing from a directory an inode that none of its entries in
    use holds is not refused: the search ends with [f_id = -1] and the
    removal step then works on the slot before the entry array
    ([memmove] to [files - 1], or [memset] of [files[-1]] in an empty
    directory), outside the block. *)
Theorem remove_absent_target_out_of_bounds st dir ino d t bh files :
  inodes st !! dir = Some d ->
  inodes st !! ino = Some t ->
  blocks st !! index_block d = Some bh ->
  dir_view bh = Ret files ->
  length files = Z.to_nat OUICHEFS_MAX_SUBFILES ->
  ino <> 0 ->
  Forall (fun f => inode f <> ino) (used_entries files) ->
  ouichefs_remove st dir ino = Oops OutOfBounds.
Proof.
  intros Hd Ht Hbh Hfiles Hlen Hino Hnot.
  unfold ouichefs_remove, get_inode, sb_bread.
  rewrite Hd, Ht. cbn [mbind outcome_mbind obind].
  rewrite Hbh, Hfiles. cbn [mbind outcome_mbind obind].
  by rewrite remove_from_dir_missing.
Qed.

Lemma released_refl st : released st st.
Proof. unfold released. repeat split; auto. Qed.

Lemma released_trans st1 st2 st3 :
  released st1 st2 -> released st2 st3 -> released st1 st3.
Proof.
  intros (A1 & A2 & A3 & A4 & A5 & A6 & A7 & A8)
         (B1 & B2 & B3 & B4 & B5 & B6 & B7 & B8).
  unfold released. repeat split; try congruence; auto.
  - intros H. by apply A6, B6.
  - intros H. by apply B6, A6.
  - intros b. destruct (B7 b) as [->| ->]; auto.
Qed.

Lemma released_put_block st b :
  released st (set_sbi st (put_block (sbi st) b)).
Proof.
  unfold released. cbn. repeat split; auto.
  - unfold put_free_bit. destruct (b <? 0); [done|]. by rewrite length_insert.
  - intros n Hn. unfold put_free_bit. destruct (b <? 0); [done|].
    destruct (decide (n = Z.to_nat b)) as [->|Hne].
    + apply list_lookup_insert_eq. by apply lookup_lt_Some in Hn.
    + by rewrite list_lookup_insert_ne.
Qed.

Lemma released_scrub st b :
  is_Some (blocks st !! b) -> released st (write_block st b Zeroed).
Proof.
  intros Hb. unfold released. cbn. repeat split; auto.
  - destruct (decide (b0 = b)) as [->|Hne]; [done|].
    by rewrite lookup_insert_ne.
  - destruct (decide (b0 = b)) as [->|Hne].
    + by rewrite lookup_insert_eq.
    + by rewrite lookup_insert_ne.
  - intros b0. destruct (decide (b0 = b)) as [->|Hne].
    + right. apply lookup_insert_eq.
    + left. by apply lookup_insert_ne.
Qed.

Lemma release_blocks_released blks :
  forall scrubbed bno i count st st',
    release_blocks blks scrubbed bno i count st = Ret st' ->
    released st st'.
Proof.
  induction blks as [|b0 rest IH]; intros sc bno i count st st'; simpl.
  - destruct (i <? count); [done|]. intros [= <-]. apply released_refl.
  - destruct (i <? count); [|intros [= <-]; apply released_refl].
    destruct ((if sc then 0 else b0) =? 0); [apply IH|].
    set (b := if sc then 0 else b0).
    unfold sb_bread. cbn [blocks set_sbi].
    destruct (blocks st !! b) as [bh|] eqn:Hb; intros Hrel; apply IH in Hrel.
    + eapply released_trans; [|exact Hrel].
      eapply released_trans; [apply released_put_block|].
      apply released_scrub. cbn. by rewrite Hb.
    + eapply released_trans; [apply released_put_block|exact Hrel].
Qed.

Lemma released_zeroed st st' b :
  released st st' -> blocks st !! b = Some Zeroed ->
  blocks st' !! b = Some Zeroed.
Proof.
  intros (_ & _ & _ & _ & _ & _ & H & _) Hb. destruct (H b) as [->| ->]; done.
Qed.

(** The data-block loop on an index block that does not list itself:
    every non-zero block number among the entries read is set free in
    the block bitmap and, where the block can be read, overwritten with
    zeroes; the free count grows by one per non-zero entry. *)
Lemma release_blocks_listed bno blks :
  forall i count st st',
    release_blocks blks false bno i count st = Ret st' ->
    Forall (fun b => b <> bno) (listed_blocks blks (count - i)) ->
    nr_free_blocks (sbi st')
    = nr_free_blocks (sbi st)
      + Z.of_nat (length (listed_blocks blks (count - i)))
    /\ forall b, b ∈ listed_blocks blks (count - i) ->
         (is_Some (blocks st !! b) -> blocks st' !! b = Some Zeroed)
         /\ (0 <= b -> (Z.to_nat b < length (bfree_bitmap (sbi st)))%nat ->
             bfree_bitmap (sbi st') !! Z.to_nat b = Some true).
Proof.
  unfold listed_blocks.
  induction blks as [|b0 rest IH]; intros i count st st'; simpl.
  - destruct (i <? count); [done|]. intros [= <-] _.
    rewrite take_nil. cbn. split; [lia|]. intros b Hb. by apply elem_of_nil in Hb.
  - destruct (Z.ltb_spec i count) as [Hlt|Hge].
    2:{ intros [= <-] _. replace (Z.to_nat (count - i)) with 0%nat by lia.
        cbn. split; [lia|]. intros b Hb. by apply elem_of_nil in Hb. }
    replace (Z.to_nat (count - i)) with (S (Z.to_nat (count - (i + 1)))) by lia.
    cbn [take]. rewrite filter_cons.
    destruct (Z.eqb_spec b0 0) as [->|Hnz].
    + destruct (decide (0 <> 0)); [done|]. apply IH.
    + destruct (decide (b0 <> 0)); [|done].
      unfold sb_bread. cbn [blocks set_sbi].
      intros Hrel Hall. apply Forall_cons in Hall as [Hb0 Hall].
      assert (Hbit : forall s, released (set_sbi st (put_block (sbi st) b0)) s ->
                0 <= b0 -> (Z.to_nat b0 < length (bfree_bitmap (sbi st)))%nat ->
                bfree_bitmap (sbi s) !! Z.to_nat b0 = Some true).
      { intros s (_ & _ & _ & _ & Hm & _) H0 Hlen. apply Hm. cbn.
        by apply put_free_bit_same. }
      destruct (blocks st !! b0) as [bh|] eqn:Hbh.
      * destruct (Z.eqb_spec b0 bno) as [|_]; [done|].
        pose proof (release_blocks_released _ _ _ _ _ _ _ Hrel) as Hr.
        apply IH in Hrel as [Hnr Hin]; [|done].
        split; [rewrite Hnr; cbn; lia|].
        intros b Hb. apply elem_of_cons in Hb as [->|Hb].
        -- split.
           ++ intros _. eapply released_zeroed; [exact Hr|].
              cbn. apply lookup_insert_eq.
           ++ intros H0 Hlen. apply Hbit; [|done|done].
              eapply released_trans; [|exact Hr].
              apply released_scrub. cbn. by rewrite Hbh.
        -- destruct (Hin b Hb) as [Hz Hf]. split.
           ++ intros Hs. apply Hz. cbn.
              destruct (decide (b = b0)) as [->|Hne].
              ** by rewrite lookup_insert_eq.
              ** by rewrite lookup_insert_ne.
           ++ intros H0 Hlen. apply Hf; [done|]. cbn.
              unfold put_free_bit. destruct (b0 <? 0); [done|].
              by rewrite length_insert.
      * pose proof (release_blocks_released _ _ _ _ _ _ _ Hrel) as Hr.
        apply IH in Hrel as [Hnr Hin]; [|done].
        split; [rewrite Hnr; cbn; lia|].
        intros b Hb. apply elem_of_cons in Hb as [->|Hb].
        -- split.
           ++ intros Hs. rewrite Hbh in Hs. by destruct Hs.
           ++ intros H0 Hlen. by apply Hbit.
        -- destruct (Hin b Hb) as [Hz Hf]. split.
           ++ intros Hs. by apply Hz.
           ++ intros H0 Hlen. apply Hf; [done|]. cbn.
              unfold put_free_bit. destruct (b0 <? 0); [done|].
              by rewrite length_insert.
Qed.

Lemma cleanup_blocks_released st t bno st' :
  cleanup_blocks st t bno = Ret st' ->
  released st st'
  /\ (is_Some (blocks st !! bno) -> blocks st' !! bno = Some Zeroed).
Proof.
  unfold cleanup_blocks, sb_bread.
  destruct (blocks st !! bno) as [bh|] eqn:Hbh.
  2:{ intros [= <-]. split; [apply released_refl|]. intros H. by destruct H. }
  destruct (S_ISDIR (i_mode t)).
  - cbn. intros [= <-]. split; [|intros _; cbn; apply lookup_insert_eq].
    apply released_scrub. by rewrite Hbh.
  - destruct (index_view bh) as [blks| |]; [|done|done].
    cbn [mbind outcome_mbind obind].
    destruct (release_blocks _ _ _ _ _ _) as [st1| |] eqn:Hrel; [|done|done].
    cbn. intros [= <-]. split; [|intros _; cbn; apply lookup_insert_eq].
    apply release_blocks_released in Hrel.
    eapply released_trans; [exact Hrel|]. apply released_scrub.
    destruct Hrel as (_ & _ & _ & _ & _ & Hdom & _). apply Hdom.
    by rewrite Hbh.
Qed.

(** The steps of a removal that returns. *)
Lemma remove_steps st dir ino st' r d t :
  ouichefs_remove st dir ino = Ret (st', r) ->
  inodes st !! dir = Some d ->
  inodes st !! ino = Some t ->
  (r = - EIO /\ st' = st /\ blocks st !! index_block d = None)
  \/ (r = 0 /\
      exists bh files files' st3 t',
        blocks st !! index_block d = Some bh
        /\ dir_view bh = Ret files
        /\ remove_from_dir files ino = Ret files'
        /\ cleanup_blocks
             (set_inode (write_block st (index_block d) (DirBlock files')) dir
                (if S_ISDIR (i_mode t)
                 then inode_dec_link_count (touch d (current_time st))
                 else touch d (current_time st)))
             t (index_block t) = Ret st3
        /\ inodes st3 !! ino = Some t'
        /\ st' = set_sbi (set_inode st3 ino (clean_inode t'))
                   (put_inode (put_block (sbi st3) (index_block t)) ino)).
Proof.
  intros Hrm Hd Ht. revert Hrm. unfold ouichefs_remove, get_inode.
  rewrite Hd, Ht. cbn [mbind outcome_mbind obind]. unfold sb_bread at 1.
  destruct (blocks st !! index_block d) as [bh|] eqn:Hbh.
  2:{ intros [= <- <-]. by left. }
  destruct (dir_view bh) as [files| |] eqn:Hfiles; [|done|done].
  cbn [mbind outcome_mbind obind].
  destruct (remove_from_dir files ino) as [files'| |] eqn:Hrf; [|done|done].
  cbn [mbind outcome_mbind obind].
  destruct (cleanup_blocks _ t (index_block t)) as [st3| |] eqn:Hcl;
    [|done|done].
  cbn [mbind outcome_mbind obind].
  destruct (inodes st3 !! ino) as [t'|] eqn:Ht'; [|done].
  cbn [mbind outcome_mbind obind]. intros [= <- <-]. right.
  split; [done|]. by exists bh, files, files', st3, t'.
Qed.

(** X2.  [ouichefs_remove] returns [-EIO] exactly when the index block of
    the parent directory cannot be read, and then it has changed nothing.
    In every other case in which it returns, it returns 0 and the target
    is gone: the mode, owner, group, size, block count, index block
    number and the seconds of the three timestamps of its inode are 0,
    the reference count being the one before; the inode number and the
    number of its index block are free again in the bitmaps, the count of
    free inodes has grown by one and the index block, if it can be read,
    holds zeroes. *)
Theorem remove_result st dir ino st' r d t :
  ouichefs_remove st dir ino = Ret (st', r) ->
  inodes st !! dir = Some d ->
  inodes st !! ino = Some t ->
  (r = - EIO /\ st' = st /\ blocks st !! index_block d = None)
  \/ (r = 0 /\ is_Some (blocks st !! index_block d)
      /\ (exists t',
            inodes st' !! ino = Some t'
            /\ i_mode t' = 0 /\ i_uid t' = 0 /\ i_gid t' = 0
            /\ i_size t' = 0 /\ i_blocks t' = 0 /\ index_block t' = 0
            /\ tv_sec (i_ctime t') = 0 /\ tv_sec (i_atime t') = 0
            /\ tv_sec (i_mtime t') = 0
            /\ i_count t' = i_count t)
      /\ nr_free_inodes (sbi st') = nr_free_inodes (sbi st) + 1
      /\ (0 <= ino -> (Z.to_nat ino < length (ifree_bitmap (sbi st)))%nat ->
          ifree_bitmap (sbi st') !! Z.to_nat ino = Some true)
      /\ (0 <= index_block t ->
          (Z.to_nat (index_block t) < length (bfree_bitmap (sbi st)))%nat ->
          bfree_bitmap (sbi st') !! Z.to_nat (index_block t) = Some true)
      /\ (is_Some (blocks st !! index_block t) ->
          blocks st' !! index_block t = Some Zeroed)).
Proof.
  intros Hrm Hd Ht.
  destruct (remove_steps _ _ _ _ _ _ _ Hrm Hd Ht)
    as [?|(-> & bh & files & files' & st3 & t' & Hbh & _ & _ & Hcl & Ht' & ->)];
    [by left|right].
  apply cleanup_blocks_released in Hcl
    as [(Hi & Hif & Hnf & Hlen & Hbf & Hdom & Hbl) Hz].
  cbn in Hi, Hif, Hnf, Hlen, Hbf, Hdom, Hbl, Hz.
  split; [done|]. split; [by rewrite Hbh|]. cbn.
  split.
  { eexists. split; [apply lookup_insert_eq|]. cbn.
    repeat (split; [reflexivity|]).
    rewrite Hi in Ht'.
    destruct (decide (ino = dir)) as [->|Hne].
    - rewrite lookup_insert_eq in Ht'. injection Ht' as <-.
      rewrite Hd in Ht. injection Ht as <-.
      by destruct (S_ISDIR (i_mode d)).
    - rewrite lookup_insert_ne in Ht' by done. congruence. }
  split; [lia|].
  split; [intros H0 Hl; apply put_free_bit_same; [done|by rewrite Hif]|].
  split; [intros H0 Hl; apply put_free_bit_same; [done|by rewrite Hlen]|].
  intros Hs. apply Hz.
  destruct (decide (index_block t = index_block d)) as [->|Hne].
  - by rewrite lookup_insert_eq.
  - by rewrite lookup_insert_ne.
Qed.

(** X3.  A removal that returns 0 changes two inodes and no other.  The
    target keeps its link count, its reference count and the nanoseconds
    of its timestamps; every other field of it is 0.  The parent
    directory keeps every field but its three timestamps, which become
    the current time, and its link count, which is decremented, modulo
    2^32, when the target is a directory and kept when it is not. *)
Theorem remove_inodes st dir ino st' d t :
  ouichefs_remove st dir ino = Ret (st', 0) ->
  inodes st !! dir = Some d ->
  inodes st !! ino = Some t ->
  dir <> ino ->
  inodes st'
  = <[ino := {| i_mode := 0; i_uid := 0; i_gid := 0; i_size := 0;
                i_ctime := {| tv_sec := 0; tv_nsec := tv_nsec (i_ctime t) |};
                i_atime := {| tv_sec := 0; tv_nsec := tv_nsec (i_atime t) |};
                i_mtime := {| tv_sec := 0; tv_nsec := tv_nsec (i_mtime t) |};
                i_blocks := 0; i_nlink := i_nlink t; i_count := i_count t;
                index_block := 0 |}]>
      (<[dir := {| i_mode := i_mode d; i_uid := i_uid d; i_gid := i_gid d;
                   i_size := i_size d; i_ctime := current_time st;
                   i_atime := current_time st; i_mtime := current_time st;
                   i_blocks := i_blocks d;
                   i_nlink := if S_ISDIR (i_mode t)
                              then to_u32 (i_nlink d - 1) else i_nlink d;
                   i_count := i_count d; index_block := index_block d |}]>
         (inodes st)).
Proof.
  intros Hrm Hd Ht Hne.
  destruct (remove_steps _ _ _ _ _ _ _ Hrm Hd Ht)
    as [[H _]|(_ & bh & files & files' & st3 & t' & _ & _ & _ & Hcl & Ht' & ->)].
  { unfold EIO in H. lia. }
  apply cleanup_blocks_released in Hcl as [(Hi & _) _].
  cbn in Hi. cbn. rewrite Hi in Ht' |- *.
  rewrite lookup_insert_ne in Ht' by done.
  rewrite Ht in Ht'. injection Ht' as <-.
  unfold clean_inode. f_equal. f_equal.
  by destruct (S_ISDIR (i_mode t)).
Qed.

(** X4.  When the removal of a regular file returns 0 and the file's index
    block can be read and does not list itself, every non-zero block
    number among its first [i_blocks - 1] entries is free in the block
    bitmap afterwards and, where that block can be read, the block holds
    zeroes; the count of free blocks has grown by one per such entry,
    counted with repetitions, and by one for the index block. *)
Theorem remove_releases_data_blocks st dir ino st' t bh blks :
  ouichefs_remove st dir ino = Ret (st', 0) ->
  inodes st !! ino = Some t ->
  S_ISDIR (i_mode t) = false ->
  blocks st !! index_block t = Some bh ->
  index_view bh = Ret blks ->
  Forall (fun b => b <> index_block t)
    (listed_blocks blks (to_u64 (i_blocks t - 1))) ->
  nr_free_blocks (sbi st')
  = nr_free_blocks (sbi st)
    + Z.of_nat (length (listed_blocks blks (to_u64 (i_blocks t - 1)))) + 1
  /\ forall b, b ∈ listed_blocks blks (to_u64 (i_blocks t - 1)) ->
       (is_Some (blocks st !! b) -> blocks st' !! b = Some Zeroed)
       /\ (0 <= b -> (Z.to_nat b < length (bfree_bitmap (sbi st)))%nat ->
           bfree_bitmap (sbi st') !! Z.to_nat b = Some true).
Proof.
  intros Hrm Ht Hreg Hbh Hblks Hself.
  destruct (inodes st !! dir) as [d|] eqn:Hd.
  2:{ revert Hrm. unfold ouichefs_remove, get_inode. by rewrite Hd. }
  destruct (remove_steps _ _ _ _ _ _ _ Hrm Hd Ht)
    as [[H _]|(_ & bd & files & files' & st3 & t' & Hbd & _ & _ & Hcl & Ht' & ->)].
  { unfold EIO in H. lia. }
  rewrite Hreg in Hcl. revert Hcl.
  set (st2 := set_inode _ dir _).
  unfold cleanup_blocks, sb_bread.
  destruct (decide (index_block t = index_block d)) as [Heq|Hne].
  { subst st2. cbn. rewrite Heq, lookup_insert_eq. by rewrite Hreg. }
  assert (Hst2 : blocks st2 !! index_block t = Some bh).
  { subst st2. cbn. by rewrite lookup_insert_ne. }
  rewrite Hst2, Hreg, Hblks. cbn [mbind outcome_mbind obind].
  destruct (release_blocks _ _ _ _ _ _) as [st1| |] eqn:Hrel; [|done|done].
  cbn [mbind outcome_mbind obind]. intros [= <-].
  apply release_blocks_listed in Hrel as [Hnr Hin];
    [|by rewrite Z.sub_0_r].
  rewrite Z.sub_0_r in Hnr, Hin.
  split; [cbn; rewrite Hnr; subst st2; cbn; lia|].
  intros b Hb. destruct (Hin b Hb) as [Hz Hf]. cbn. split.
  - intros Hs. destruct (decide (b = index_block t)) as [->|Hnb].
    + apply lookup_insert_eq.
    + rewrite lookup_insert_ne by done. apply Hz. subst st2. cbn.
      destruct (decide (b = index_block d)) as [->|Hnd].
      * by rewrite lookup_insert_eq.
      * by rewrite lookup_insert_ne.
  - intros H0 Hl.
    assert (bfree_bitmap (sbi st1) !! Z.to_nat b = Some true) as Hbit.
    { apply Hf; [exact H0|exact Hl]. }
    unfold put_free_bit. destruct (index_block t <? 0); [done|].
    destruct (decide (Z.to_nat b = Z.to_nat (index_block t))) as [Heq|Hnb].
    + rewrite <- Heq. apply list_lookup_insert_eq.
      exact (lookup_lt_Some _ _ _ Hbit).
    + rewrite list_lookup_insert_ne by done. exact Hbit.
Qed.

(** ** Lookup *)

(** [ouichefs_lookup] on a readable directory, with its search loop read
    as [find_name] on the entries in use. *)
Lemma lookup_unfold st dir d flags ci bh files :
  Z.of_nat (length (d_name d)) <= OUICHEFS_FILENAME_LEN ->
  inodes st !! dir = Some ci ->
  blocks st !! index_block ci = Some bh ->
  dir_view bh = Ret files ->
  length files = Z.to_nat OUICHEFS_MAX_SUBFILES ->
  ouichefs_lookup st dir d flags
  = (ino ← match find_name (used_entries files) (d_name d) with
           | None => Ret None
           | Some n =>
               match ouichefs_iget st n with
               | inl _ => Oops ErrPtrDeref
               | inr p => Ret (Some p)
               end
           end;
     Ret (set_inode st dir (set_atime ci (current_time st)), d_add d ino, 0)).
Proof.
  intros Hlen Hci Hbh Hfiles Hmax.
  unfold ouichefs_lookup, get_inode, sb_bread.
  destruct (Z.gtb_spec (Z.of_nat (length (d_name d))) OUICHEFS_FILENAME_LEN);
    [lia|].
  rewrite Hci. cbn [mbind outcome_mbind obind].
  rewrite Hbh, Hfiles. cbn [mbind outcome_mbind obind].
  rewrite <- Hmax.
  pose proof (lookup_scan_used files (d_name d) files 0 eq_refl) as Hs.
  change (Z.of_nat 0) with 0 in Hs. by rewrite Hs.
Qed.

Lemma find_name_Some us name n :
  find_name us name = Some n ->
  exists (p : nat) f,
    us !! p = Some f /\ inode f = n
    /\ strncmp (filename f) name (Z.to_nat OUICHEFS_FILENAME_LEN) = 0
    /\ forall (q : nat) g, (q < p)%nat -> us !! q = Some g ->
         strncmp (filename g) name (Z.to_nat OUICHEFS_FILENAME_LEN) <> 0.
Proof.
  induction us as [|f us IH]; simpl; [done|].
  destruct (Z.eqb_spec (strncmp (filename f) name
                          (Z.to_nat OUICHEFS_FILENAME_LEN)) 0) as [Heq|Hne].
  - intros [= <-]. exists 0%nat, f. repeat split; [done|]. intros q g Hq. lia.
  - intros Hfind. destruct (IH Hfind) as (p & g & Hp & Hg & Hs & Hbefore).
    exists (S p), g. repeat split; try done.
    intros [|q] g' Hq; simpl.
    + by intros [= <-].
    + apply Hbefore. lia.
Qed.

(** X5.  On a readable directory, [ouichefs_lookup] of a name that fits
    searches the entries before the first free slot only and binds the
    dentry to the first of them that carries the name; it sets the access
    time of the directory and returns 0 also when no entry carries the
    name, the dentry then being negative.  When the entry found holds an
    inode number that [ouichefs_iget] refuses, the error pointer goes to
    [d_add] unchecked. *)
Theorem lookup_binds_first_match st dir d flags ci bh files :
  Z.of_nat (length (d_name d)) <= OUICHEFS_FILENAME_LEN ->
  inodes st !! dir = Some ci ->
  blocks st !! index_block ci = Some bh ->
  dir_view bh = Ret files ->
  length files = Z.to_nat OUICHEFS_MAX_SUBFILES ->
  let st1 :=
    set_inode st dir
      {| i_mode := i_mode ci; i_uid := i_uid ci; i_gid := i_gid ci;
         i_size := i_size ci; i_ctime := i_ctime ci;
         i_atime := current_time st; i_mtime := i_mtime ci;
         i_blocks := i_blocks ci; i_nlink := i_nlink ci;
         i_count := i_count ci; index_block := index_block ci |} in
  match find_name (used_entries files) (d_name d) with
  | None => ouichefs_lookup st dir d flags = Ret (st1, d_add d None, 0)
  | Some n =>
      (exists (p : nat) f,
         files !! p = Some f /\ inode f = n /\ n <> 0
         /\ strncmp (filename f) (d_name d)
              (Z.to_nat OUICHEFS_FILENAME_LEN) = 0
         /\ forall (q : nat) g, (q < p)%nat -> files !! q = Some g ->
              inode g <> 0
              /\ strncmp (filename g) (d_name d)
                   (Z.to_nat OUICHEFS_FILENAME_LEN) <> 0)
      /\ ouichefs_lookup st dir d flags
         = if decide (n < nr_inodes (sbi st) /\ is_Some (inodes st !! n))
           then Ret (st1, d_add d (Some n), 0)
           else Oops ErrPtrDeref
  end.
Proof.
  intros Hlen Hci Hbh Hfiles Hmax st1.
  rewrite (lookup_unfold st dir d flags ci bh files) by done.
  destruct (find_name (used_entries files) (d_name d)) as [n|] eqn:Hfind;
    [|done].
  split.
  - destruct (find_name_Some _ _ _ Hfind) as (p & f & Hp & Hf & Hs & Hbefore).
    destruct (used_entries_split files) as (_ & _ & Htake).
    pose proof (used_entries_nonzero files) as Hnz.
    assert (Hin : forall (q : nat) g, used_entries files !! q = Some g ->
                    files !! q = Some g /\ inode g <> 0).
    { intros q g Hq. split.
      - rewrite <- Htake in Hq. apply lookup_take_Some in Hq. by destruct Hq.
      - by eapply Forall_lookup_1 in Hnz. }
    exists p, f. destruct (Hin p f Hp) as [Hpf Hfz].
    repeat split; [done|done|congruence|done|..];
      assert (Hq : used_entries files !! q = Some g)
        by (rewrite <- Htake; apply lookup_take_Some; split; [done|];
            apply lookup_lt_Some in Hp; lia).
    + by apply (Hin q g).
    + by apply (Hbefore q g).
  - unfold ouichefs_iget.
    destruct (decide (n < nr_inodes (sbi st) /\ is_Some (inodes st !! n)))
      as [[Hlt [i Hi]]|Hno].
    + destruct (Z.leb_spec (nr_inodes (sbi st)) n); [lia|]. by rewrite Hi.
    + destruct (Z.leb_spec (nr_inodes (sbi st)) n); [done|].
      destruct (inodes st !! n) eqn:Hi; [|done].
      exfalso. apply Hno. split; [lia|eauto].
Qed.

Lemma lookup_scan_nonzero files name :
  forall n i k, lookup_scan files name n i = Ret (Some k) -> k <> 0.
Proof.
  induction n as [|n IH]; intros i k; simpl; [done|].
  destruct (entry files i) as [f| |]; [|done|done].
  cbn [mbind outcome_mbind obind].
  destruct (Z.eqb_spec (inode f) 0) as [|Hnz]; [done|].
  destruct (_ =? 0); [by intros [= <-]|apply IH].
Qed.

(** X6.  [ouichefs_lookup] returns [-ENAMETOOLONG] for a name longer than
    [OUICHEFS_FILENAME_LEN], [-EIO] when the index block of the
    directory cannot be read, and 0 otherwise; with an error nothing
    changes.  With 0 the only change is the access time of the directory,
    set to the current time: no block, bitmap or other inode is written,
    and a dentry that comes back bound holds a non-zero inode number
    below [nr_inodes] whose inode exists. *)
Theorem lookup_outcomes st dir d flags st' d' r :
  ouichefs_lookup st dir d flags = Ret (st', d', r) ->
  (r = - ENAMETOOLONG /\ st' = st /\ d' = d
   /\ OUICHEFS_FILENAME_LEN < Z.of_nat (length (d_name d)))
  \/ exists ci,
       inodes st !! dir = Some ci
       /\ Z.of_nat (length (d_name d)) <= OUICHEFS_FILENAME_LEN
       /\ ((r = - EIO /\ st' = st /\ d' = d
            /\ blocks st !! index_block ci = None)
           \/ (r = 0 /\ is_Some (blocks st !! index_block ci)
               /\ st'
                  = set_inode st dir
                      {| i_mode := i_mode ci; i_uid := i_uid ci;
                         i_gid := i_gid ci; i_size := i_size ci;
                         i_ctime := i_ctime ci; i_atime := current_time st;
                         i_mtime := i_mtime ci; i_blocks := i_blocks ci;
                         i_nlink := i_nlink ci; i_count := i_count ci;
                         index_block := index_block ci |}
               /\ d_name d' = d_name d
               /\ forall p, d_inode d' = Some p ->
                    p <> 0 /\ p < nr_inodes (sbi st)
                    /\ is_Some (inodes st !! p))).
Proof.
  unfold ouichefs_lookup.
  destruct (Z.gtb_spec (Z.of_nat (length (d_name d))) OUICHEFS_FILENAME_LEN)
    as [Hlong|Hfit].
  { intros [= <- <- <-]. left. repeat split; lia. }
  destruct (get_inode st dir) as [ci| |] eqn:Hci; [|done|done].
  apply get_inode_Ret in Hci. cbn [mbind outcome_mbind obind].
  intros H. right. exists ci. split; [done|]. split; [lia|]. revert H.
  unfold sb_bread. destruct (blocks st !! index_block ci) as [bh|] eqn:Hbh.
  2:{ intros [= <- <- <-]. by left. }
  destruct (dir_view bh) as [files| |]; [|done|done].
  cbn [mbind outcome_mbind obind].
  destruct (lookup_scan _ _ _ _) as [found| |] eqn:Hscan; [|done|done].
  cbn [mbind outcome_mbind obind].
  destruct found as [n|].
  - apply lookup_scan_nonzero in Hscan.
    destruct (ouichefs_iget st n) as [e|p] eqn:Hget; [done|].
    apply iget_inr in Hget as (-> & Hlt & Hsome).
    cbn [mbind outcome_mbind obind]. intros [= <- <- <-]. right.
    repeat split; try done. all: by injection H as <-.
  - cbn [mbind outcome_mbind obind]. intros [= <- <- <-]. right.
    repeat split; done.
Qed.

(** A removal that succeeds deletes, among the entries in use, the last
    one that holds the inode number. *)
Lemma remove_from_dir_deletes (files files' : list ouichefs_file) ino :
  length files = Z.to_nat OUICHEFS_MAX_SUBFILES ->
  ino <> 0 ->
  remove_from_dir files ino = Ret files' ->
  exists p' : nat,
    inode <$> used_entries files !! p' = Some ino
    /\ Forall (fun f => inode f <> ino) (drop (S p') (used_entries files))
    /\ length files' = length files
    /\ used_entries files'
       = take p' (used_entries files) ++ drop (S p') (used_entries files).
Proof.
  intros Hlen Hino.
  destruct (used_entries_split files) as (Hsplit & Hhz & Htake).
  assert (Hk : (length (used_entries files) <= length files)%nat).
  { rewrite <- Htake at 1. rewrite length_take. lia. }
  pose proof (used_entries_nonzero files) as Hnz.
  destruct (scan_entries_packed _ _ ino Hino Hnz Hhz 0 (-1))
    as (f' & Hscan & Hcase).
  rewrite <- Hsplit in Hscan.
  destruct Hcase as [[-> Hall]|(p' & -> & Hp' & Hlast)].
  { by rewrite remove_from_dir_missing. }
  assert (Hp'k : (p' < length (used_entries files))%nat).
  { destruct (used_entries files !! p') eqn:E; [|done].
    by apply lookup_lt_Some in E. }
  unfold remove_from_dir.
  pose proof (remove_scan_entries files ino files 0 (-1) eq_refl) as Hs.
  rewrite Hlen in Hs. change (Z.of_nat 0) with 0 in Hs. rewrite Hs, Hscan.
  cbn [mbind outcome_mbind obind].
  replace (0 + Z.of_nat p') with (Z.of_nat p') by lia.
  replace (0 + Z.of_nat (length (used_entries files)))
    with (Z.of_nat (length (used_entries files))) by lia.
  rewrite remove_entry_packed by (done || lia).
  intros [= <-]. exists p'. split; [done|]. split; [done|].
  rewrite Htake.
  assert (Htp : take p' files = take p' (used_entries files)).
  { rewrite <- Htake. rewrite take_take. f_equal. lia. }
  rewrite Htp. split.
  - rewrite !length_app, length_take, length_drop. cbn.
    rewrite length_drop. lia.
  - rewrite used_entries_app by by apply Forall_take.
    rewrite used_entries_app by by apply Forall_drop.
    by rewrite used_entries_zero_file, app_nil_r.
Qed.

Lemma find_name_None us name :
  Forall (fun f => strncmp (filename f) name
                     (Z.to_nat OUICHEFS_FILENAME_LEN) <> 0) us ->
  find_name us name = None.
Proof.
  induction 1 as [|f us Hf _ IH]; [done|]. cbn.
  by destruct (Z.eqb_spec (strncmp (filename f) name
                             (Z.to_nat OUICHEFS_FILENAME_LEN)) 0).
Qed.

Lemma find_name_delete_sole us name ino (p' : nat) :
  sole_entry us name ino ->
  inode <$> us !! p' = Some ino ->
  find_name (take p' us ++ drop (S p') us) name = None.
Proof.
  intros (p & f & Hp & Hf & Hs & Honly) Hp'.
  destruct (us !! p') as [g|] eqn:Hg; [|done]. injection Hp' as Hgi.
  assert (p' = p) as -> by (apply (Honly p' g); auto).
  apply find_name_None, Forall_lookup_2. intros q h Hq Hcarry.
  destruct (decide (q < p)%nat) as [Hlt|Hge].
  - rewrite lookup_app_l in Hq
      by (rewrite length_take; apply lookup_lt_Some in Hp; lia).
    apply lookup_take_Some in Hq as [Hq _].
    pose proof (Honly q h Hq (or_intror Hcarry)). lia.
  - apply lookup_lt_Some in Hp as Hpl.
    rewrite lookup_app_r in Hq by (rewrite length_take; lia).
    rewrite length_take, lookup_drop in Hq.
    pose proof (Honly _ h Hq (or_intror Hcarry)). lia.
Qed.

Lemma find_name_delete_other us name ino n :
  forall (p' : nat),
    inode <$> us !! p' = Some ino ->
    find_name us name = Some n -> n <> ino ->
    find_name (take p' us ++ drop (S p') us) name = Some n.
Proof.
  induction us as [|f us IH]; intros p' Hp'; [done|].
  cbn [find_name].
  destruct (Z.eqb_spec (strncmp (filename f) name
                          (Z.to_nat OUICHEFS_FILENAME_LEN)) 0) as [Heq|Hne].
  - intros [= <-] Hn. destruct p' as [|p'].
    + cbn in Hp'. congruence.
    + cbn. rewrite Heq. done.
  - intros Hfind Hn. destruct p' as [|p'].
    + exact Hfind.
    + cbn. destruct (Z.eqb_spec (strncmp (filename f) name
                          (Z.to_nat OUICHEFS_FILENAME_LEN)) 0); [done|].
      by apply IH.
Qed.

(** X7.  After a removal from a readable directory has returned 0, a
    lookup in that directory of the removed entry's name, when no other
    entry carried that name or held that inode number, returns 0 with a
    negative dentry.  A name that resolved to another inode resolves to
    it as before, unless the directory's own index block was among the
    blocks the removal overwrote with zeroes. *)
Theorem remove_then_lookup st dir ino st' d bh files dn flags :
  ouichefs_remove st dir ino = Ret (st', 0) ->
  inodes st !! dir = Some d ->
  blocks st !! index_block d = Some bh ->
  dir_view bh = Ret files ->
  length files = Z.to_nat OUICHEFS_MAX_SUBFILES ->
  ino <> 0 -> dir <> ino ->
  Z.of_nat (length (d_name dn)) <= OUICHEFS_FILENAME_LEN ->
  (sole_entry (used_entries files) (d_name dn) ino ->
   exists st'', ouichefs_lookup st' dir dn flags
                = Ret (st'', d_add dn None, 0))
  /\ (forall n st0,
        n <> ino ->
        ouichefs_lookup st dir dn flags = Ret (st0, d_add dn (Some n), 0) ->
        blocks st' !! index_block d <> Some Zeroed ->
        exists st'', ouichefs_lookup st' dir dn flags
                     = Ret (st'', d_add dn (Some n), 0)).
Proof.
  intros Hrm Hd Hbh Hfiles Hlen Hino Hne Hfit.
  destruct (inodes st !! ino) as [t|] eqn:Ht.
  2:{ revert Hrm. unfold ouichefs_remove, get_inode. by rewrite Hd, Ht. }
  destruct (remove_steps _ _ _ _ _ _ _ Hrm Hd Ht)
    as [[H _]|(_ & bh' & files0 & files' & st3 & t' & Hbh' & Hfiles' & Hrf
               & Hcl & Ht' & ->)].
  { unfold EIO in H. lia. }
  rewrite Hbh in Hbh'. injection Hbh' as <-.
  rewrite Hfiles in Hfiles'. injection Hfiles' as <-.
  destruct (remove_from_dir_deletes _ _ _ Hlen Hino Hrf)
    as (p' & Hp' & _ & Hlen' & Hused').
  apply cleanup_blocks_released in Hcl
    as [(Hi & _ & _ & _ & _ & _ & Hbl & Hnr) _].
  set (d2 := if S_ISDIR (i_mode t) then _ else _) in *.
  assert (Hib : index_block d2 = index_block d) by (subst d2; by destruct (S_ISDIR _)).
  set (stf := set_sbi _ _).
  assert (Hd' : inodes stf !! dir = Some d2).
  { subst stf. cbn. rewrite lookup_insert_ne by done.
    rewrite Hi. cbn. apply lookup_insert_eq. }
  assert (Hblk : blocks stf !! index_block d2 = Some (DirBlock files')
                 \/ blocks stf !! index_block d2 = Some Zeroed).
  { subst stf. cbn. rewrite Hib. destruct (Hbl (index_block d)) as [->| ->];
      [left|by right]. cbn. apply lookup_insert_eq. }
  assert (Hz : forall name,
            find_name (used_entries (repeat zero_file
                         (Z.to_nat OUICHEFS_MAX_SUBFILES))) name = None).
  { intros name. by destruct (Z.to_nat OUICHEFS_MAX_SUBFILES). }
  split.
  - intros Hsole. eexists.
    destruct Hblk as [Hblk|Hblk].
    + rewrite (lookup_unfold stf dir dn flags d2 _ files' Hfit Hd' Hblk eq_refl)
        by lia.
      rewrite Hused', (find_name_delete_sole _ _ ino) by done. reflexivity.
    + rewrite (lookup_unfold stf dir dn flags d2 _ _ Hfit Hd' Hblk eq_refl)
        by by rewrite repeat_length.
      rewrite Hz. reflexivity.
  - intros n st0 Hn Hbefore Hnz. eexists.
    rewrite (lookup_unfold st dir dn flags d bh files) in Hbefore by done.
    destruct (find_name (used_entries files) (d_name dn)) as [n'|] eqn:Hfind;
      [|done].
    destruct (ouichefs_iget st n') as [e|p] eqn:Hget; [done|].
    injection Hbefore as _ ->.
    apply iget_inr in Hget as (<- & Hlt & Hsome).
    destruct Hblk as [Hblk|Hblk]; [|by rewrite <- Hib in Hnz].
    rewrite (lookup_unfold stf dir dn flags d2 _ files' Hfit Hd' Hblk eq_refl)
      by lia.
    rewrite Hused', (find_name_delete_other _ _ ino n) by done.
    assert (Hget' : ouichefs_iget stf n = inr n).
    { unfold ouichefs_iget. subst stf. cbn. rewrite Hnr. cbn.
      destruct (Z.leb_spec (nr_inodes (sbi st)) n); [lia|].
      rewrite lookup_insert_ne by done. rewrite Hi. cbn.
      destruct (decide (n = dir)) as [->|Hnd].
      - by rewrite lookup_insert_eq.
      - rewrite lookup_insert_ne by done. by destruct Hsome as [? ->]. }
    rewrite Hget'. reflexivity.
Qed.

(** ** Creation *)

(** What [ouichefs_new_inode] has done when it returns an inode: it took
    the first free inode number and the first free block number, both
    non-zero, and initialised that inode. *)
Lemma new_inode_steps st dir mode st2 p :
  ouichefs_new_inode st dir mode = Ret (st2, inr p) ->
  exists bno i0 dd,
    find_first_bit (ifree_bitmap (sbi st)) 0 = Some p /\ p <> 0
    /\ find_first_bit (bfree_bitmap (sbi st)) 0 = Some bno /\ bno <> 0
    /\ inodes st !! p = Some i0
    /\ inodes st !! dir = Some dd
    /\ (S_ISDIR mode = true \/ S_ISREG mode = true)
    /\ nr_free_inodes (sbi st) <> 0 /\ nr_free_blocks (sbi st) <> 0
    /\ st2 = set_inode (set_sbi st (allocated (sbi st) p bno)) p
               (init_inode st (inode_init_owner st i0 dd mode) mode bno).
Proof.
  unfold ouichefs_new_inode.
  destruct (S_ISDIR mode) eqn:Hdir, (S_ISREG mode) eqn:Hreg; cbn [negb andb];
    try done.
  all: destruct (Z.eqb_spec (nr_free_inodes (sbi st)) 0) as [|Hfi]; [done|].
  all: destruct (Z.eqb_spec (nr_free_blocks (sbi st)) 0) as [|Hfb]; [done|].
  all: cbn [orb].
  all: unfold get_free_inode, get_free_block.
  all: destruct (find_first_bit (ifree_bitmap (sbi st)) 0) as [ino|] eqn:Hino;
    [|done].
  all: destruct (Z.eqb_spec ino 0) as [|Hino0]; [done|].
  all: destruct (ouichefs_iget _ ino) as [e|q] eqn:Hget; [done|].
  all: apply iget_inr in Hget as (-> & _ & _).
  all: cbn [sbi set_sbi bfree_bitmap].
  all: destruct (find_first_bit (bfree_bitmap (sbi st)) 0) as [bno|] eqn:Hbno;
    [|done].
  all: destruct (Z.eqb_spec bno 0) as [|Hbno0]; [done|].
  all: unfold get_inode; cbn [inodes set_sbi].
  all: destruct (inodes st !! ino) as [i0|] eqn:Hi0; [|done].
  all: cbn [mbind outcome_mbind obind].
  all: destruct (inodes st !! dir) as [dd|] eqn:Hdd; [|done].
  all: cbn [mbind outcome_mbind obind].
  all: intros [= <- <-]; exists bno, i0, dd.
  all: repeat split; auto.
  all: unfold get_first_free_bit; rewrite Hino, Hbno; reflexivity.
Qed.

(** The insertion step of create when it returns 0, from a state in which
    the bitmaps hold the directory's inode and index block as in use. *)
Lemma create_entry_steps st1 dir d mode st' d' ci1 bh files :
  create_entry st1 dir (index_block ci1) d mode = Ret (st', d', 0) ->
  inodes st1 !! dir = Some ci1 ->
  blocks st1 !! index_block ci1 = Some bh ->
  dir_view bh = Ret files ->
  length files = Z.to_nat OUICHEFS_MAX_SUBFILES ->
  ifree_bitmap (sbi st1) !! Z.to_nat dir <> Some true ->
  bfree_bitmap (sbi st1) !! Z.to_nat (index_block ci1) <> Some true ->
  0 <= dir -> 0 <= index_block ci1 ->
  exists p bno i0,
    find_first_bit (ifree_bitmap (sbi st1)) 0 = Some p /\ p <> 0
    /\ find_first_bit (bfree_bitmap (sbi st1)) 0 = Some bno /\ bno <> 0
    /\ p <> dir /\ bno <> index_block ci1
    /\ inodes st1 !! p = Some i0
    /\ (S_ISDIR mode = true \/ S_ISREG mode = true)
    /\ is_Some (blocks st1 !! bno)
    /\ (length (used_entries files) < length files)%nat
    /\ d' = d_add d (Some p)
    /\ st' = set_inode
               (write_block
                  (write_block
                     (set_inode (set_sbi st1 (allocated (sbi st1) p bno)) p
                        (init_inode st1 (inode_init_owner st1 i0 ci1 mode)
                           mode bno))
                     bno Zeroed)
                  (index_block ci1)
                  (DirBlock
                     (<[length (used_entries files) :=
                          {| inode := p;
                             filename := strncpy (d_name d)
                               (Z.to_nat OUICHEFS_FILENAME_LEN) |}]> files)))
               dir
               (if S_ISDIR mode
                then inode_inc_link_count (touch ci1 (current_time st1))
                else touch ci1 (current_time st1)).
Proof.
  intros Hcreate Hci1 Hbh Hview Hlen Hidir Hbdir Hdir0 Hib0.
  revert Hcreate. unfold create_entry.
  destruct (ouichefs_new_inode st1 dir mode) as [[st2 [e|p]]| |] eqn:Hnew;
    [| |done|done].
  { cbn. intros [= _ _ ->]. by apply new_inode_inl in Hnew. }
  cbn [mbind outcome_mbind obind].
  apply new_inode_steps in Hnew
    as (bno & i0 & dd & Hp & Hp0 & Hbno & Hbno0 & Hi0 & Hdd & Hmode & _ & _ & ->).
  rewrite Hci1 in Hdd. injection Hdd as <-.
  apply find_first_bit_free in Hp as Hpfree. destruct Hpfree as [Hp0' Hpfree].
  apply find_first_bit_free in Hbno as Hbfree. destruct Hbfree as [Hb0' Hbfree].
  rewrite Z.sub_0_r in Hpfree, Hbfree.
  assert (Hpd : p <> dir) by (intros ->; done).
  assert (Hbd : bno <> index_block ci1) by (intros ->; done).
  unfold get_inode. cbn [inodes set_inode set_inodes].
  rewrite lookup_insert_eq. cbn [mbind outcome_mbind obind index_block init_inode].
  unfold sb_bread. cbn [blocks set_inode set_inodes set_sbi write_block set_blocks].
  destruct (blocks st1 !! bno) as [bnew|] eqn:Hbnew; [|done].
  rewrite lookup_insert_ne by done. rewrite Hbh.
  cbn [deref mbind outcome_mbind obind]. rewrite Hview.
  cbn [mbind outcome_mbind obind].
  pose proof (first_free_slot_used files files 0 eq_refl) as Hs.
  rewrite Hlen in Hs. change (Z.of_nat 0) with 0 in Hs.
  rewrite Hs. cbn [mbind outcome_mbind obind]. rewrite Nat.add_0_l.
  unfold set_file.
  destruct (entry files _) as [fi| |] eqn:Hentry; [|done|done].
  cbn [mbind outcome_mbind obind].
  apply entry_Ret in Hentry as [_ Hentry]. rewrite Nat2Z.id in *.
  apply lookup_lt_Some in Hentry.
  cbn [inodes set_inode set_inodes set_sbi write_block set_blocks].
  rewrite lookup_insert_ne by done. rewrite Hci1.
  cbn [mbind outcome_mbind obind].
  intros [= <- <-].
  exists p, bno, i0. repeat split; auto.
Qed.

(** In a directory whose last slot is free, create runs no eviction
    pass. *)
Lemma create_not_full fuel st dir d mode excl ci bh files last :
  inodes st !! dir = Some ci ->
  blocks st !! index_block ci = Some bh ->
  dir_view bh = Ret files ->
  entry files (OUICHEFS_MAX_SUBFILES - 1) = Ret last ->
  inode last = 0 ->
  ouichefs_create fuel st dir d mode excl
  = if strlen (d_name d) >? OUICHEFS_FILENAME_LEN
    then Ret (st, d, - ENAMETOOLONG)
    else create_entry st dir (index_block ci) d mode.
Proof.
  intros Hci Hbh Hview Hlast Hzero. unfold ouichefs_create.
  destruct (strlen (d_name d) >? OUICHEFS_FILENAME_LEN); [done|].
  unfold get_inode, sb_bread. rewrite Hci. cbn [mbind outcome_mbind obind].
  rewrite Hbh, Hview. cbn [mbind outcome_mbind obind].
  rewrite Hlast. cbn [mbind outcome_mbind obind].
  unfold create_evict. rewrite Hzero. cbn [Z.eqb negb].
  cbn [mbind outcome_mbind obind]. done.
Qed.

Lemma left_packed_used files (j : nat) :
  left_packed files j -> length (used_entries files) = j.
Proof.
  intros (Hj & Hpre & Hpost).
  rewrite <- (take_drop j files) at 1.
  rewrite used_entries_app by done.
  rewrite length_app, length_take.
  destruct (drop j files) as [|z rest] eqn:Hd; [cbn; lia|].
  apply Forall_cons in Hpost as [Hz _]. cbn. rewrite Hz. cbn. lia.
Qed.

(** X8.  A create that returns 0 in a directory whose last slot is free
    registers the new inode in the first free slot of the index, with the
    name cut to [OUICHEFS_FILENAME_LEN] bytes, and changes no other slot:
    the new inode number is the first free one of the inode bitmap, and
    an index whose entries in use come first, without gaps, stays so with
    one entry more. *)
Theorem create_appends_entry fuel st dir d mode excl st' d' ci bh files last :
  ouichefs_create fuel st dir d mode excl = Ret (st', d', 0) ->
  inodes st !! dir = Some ci ->
  blocks st !! index_block ci = Some bh ->
  dir_view bh = Ret files ->
  length files = Z.to_nat OUICHEFS_MAX_SUBFILES ->
  entry files (OUICHEFS_MAX_SUBFILES - 1) = Ret last ->
  inode last = 0 ->
  0 <= dir -> 0 <= index_block ci ->
  ifree_bitmap (sbi st) !! Z.to_nat dir <> Some true ->
  bfree_bitmap (sbi st) !! Z.to_nat (index_block ci) <> Some true ->
  exists (p : Z) (k : nat) files',
    d' = d_add d (Some p) /\ p <> 0
    /\ find_first_bit (ifree_bitmap (sbi st)) 0 = Some p
    /\ blocks st' !! index_block ci = Some (DirBlock files')
    /\ (k < length files)%nat
    /\ inode <$> files !! k = Some 0
    /\ (forall j, (j < k)%nat -> inode <$> files !! j <> Some 0)
    /\ files' = <[k := {| inode := p;
                          filename := strncpy (d_name d)
                            (Z.to_nat OUICHEFS_FILENAME_LEN) |}]> files
    /\ forall j, left_packed files j -> j = k /\ left_packed files' (S k).
Proof.
  intros Hcreate Hci Hbh Hview Hlen Hlast Hzero Hdir0 Hib0 Hidir Hbdir.
  rewrite (create_not_full fuel st dir d mode excl ci bh files last)
    in Hcreate by done.
  destruct (strlen (d_name d) >? OUICHEFS_FILENAME_LEN); [done|].
  destruct (create_entry_steps _ _ _ _ _ _ _ _ _ Hcreate Hci Hbh Hview Hlen
              Hidir Hbdir Hdir0 Hib0)
    as (p & bno & i0 & Hp & Hp0 & _ & _ & _ & _ & _ & _ & _ & Hk & -> & ->).
  destruct (used_entries_split files) as (Hsplit & Hhz & Htake).
  pose proof (used_entries_nonzero files) as Hnz.
  set (k := length (used_entries files)) in *.
  exists p, k, (<[k := {| inode := p;
                         filename := strncpy (d_name d)
                           (Z.to_nat OUICHEFS_FILENAME_LEN) |}]> files).
  split; [done|]. split; [done|]. split; [done|].
  split; [cbn; apply lookup_insert_eq|]. split; [done|].
  assert (Hkz : inode <$> files !! k = Some 0).
  { destruct (drop k files) as [|z rest] eqn:Hd.
    - apply (f_equal length) in Hd. rewrite length_drop in Hd. cbn in Hd. lia.
    - rewrite <- (take_drop k files), lookup_app_r, length_take
        by (rewrite length_take; lia).
      replace (k - k `min` length files)%nat with 0%nat by lia.
      rewrite Hd. cbn. by rewrite Hhz. }
  split; [done|]. split.
  { intros j Hj Hjz. rewrite <- Htake in Hnz.
    destruct (files !! j) as [f|] eqn:Hf; [|done]. injection Hjz as Hjz.
    eapply Forall_lookup_1 in Hnz; [|apply lookup_take_Some; eauto]. done. }
  split; [done|].
  intros j Hpacked.
  assert (j = k) as ->.
  { symmetry. by apply left_packed_used. }
  split; [done|].
  destruct Hpacked as (_ & Hpre & Hpost).
  split; [rewrite length_insert; exact Hk|]. split.
  - erewrite take_S_r by (apply list_lookup_insert_eq; exact Hk).
    rewrite take_insert_ge by done.
    apply Forall_app. split; [done|]. by constructor.
  - rewrite drop_insert_lt by (apply Nat.lt_succ_diag_r).
    rewrite <- (take_drop 1 (drop k files)) in Hpost.
    apply Forall_app in Hpost as [_ Hpost]. rewrite drop_drop in Hpost.
    by replace (S k) with (k + 1)%nat by lia.
Qed.

(** X9.  A create that returns 0 in a directory whose last slot is free
    takes the first free inode number and the first free block number of
    the bitmaps, marks both as used and decrements both free counts.  The
    new inode has one block, its index block, which holds zeroes; it has
    2 links and the size of a block when it is a directory, 1 link and
    size 0 when it is a regular file.  The parent gets the current time
    as its three timestamps and one link more when the new inode is a
    directory.  No other inode and no block besides the two index blocks
    changes. *)
Theorem create_allocates fuel st dir d mode excl st' d' ci bh files last :
  ouichefs_create fuel st dir d mode excl = Ret (st', d', 0) ->
  inodes st !! dir = Some ci ->
  blocks st !! index_block ci = Some bh ->
  dir_view bh = Ret files ->
  length files = Z.to_nat OUICHEFS_MAX_SUBFILES ->
  entry files (OUICHEFS_MAX_SUBFILES - 1) = Ret last ->
  inode last = 0 ->
  0 <= dir -> 0 <= index_block ci ->
  ifree_bitmap (sbi st) !! Z.to_nat dir <> Some true ->
  bfree_bitmap (sbi st) !! Z.to_nat (index_block ci) <> Some true ->
  exists p bno i0 ni,
    d' = d_add d (Some p)
    /\ find_first_bit (ifree_bitmap (sbi st)) 0 = Some p /\ p <> 0
    /\ find_first_bit (bfree_bitmap (sbi st)) 0 = Some bno /\ bno <> 0
    /\ sbi st' = allocated (sbi st) p bno
    /\ inodes st !! p = Some i0
    /\ ni = init_inode st (inode_init_owner st i0 ci mode) mode bno
    /\ index_block ni = bno /\ i_blocks ni = 1
    /\ i_nlink ni = (if S_ISDIR mode then 2 else 1)
    /\ i_size ni = (if S_ISDIR mode then OUICHEFS_BLOCK_SIZE else 0)
    /\ i_mtime ni = current_time st
    /\ i_ctime ni = current_time st /\ i_atime ni = current_time st
    /\ i_uid ni = fsuid st /\ i_count ni = i_count i0
    /\ inodes st'
       = <[dir := {| i_mode := i_mode ci; i_uid := i_uid ci;
                     i_gid := i_gid ci; i_size := i_size ci;
                     i_ctime := current_time st; i_atime := current_time st;
                     i_mtime := current_time st; i_blocks := i_blocks ci;
                     i_nlink := if S_ISDIR mode
                                then to_u32 (i_nlink ci + 1)
                                else i_nlink ci;
                     i_count := i_count ci;
                     index_block := index_block ci |}]>
           (<[p := ni]> (inodes st))
    /\ blocks st' !! bno = Some Zeroed
    /\ forall b, b <> bno -> b <> index_block ci ->
         blocks st' !! b = blocks st !! b.
Proof.
  intros Hcreate Hci Hbh Hview Hlen Hlast Hzero Hdir0 Hib0 Hidir Hbdir.
  rewrite (create_not_full fuel st dir d mode excl ci bh files last)
    in Hcreate by done.
  destruct (strlen (d_name d) >? OUICHEFS_FILENAME_LEN); [done|].
  destruct (create_entry_steps _ _ _ _ _ _ _ _ _ Hcreate Hci Hbh Hview Hlen
              Hidir Hbdir Hdir0 Hib0)
    as (p & bno & i0 & Hp & Hp0 & Hbno & Hbno0 & Hpd & Hbd & Hi0 & Hmode & _
        & _ & -> & ->).
  exists p, bno, i0, (init_inode st (inode_init_owner st i0 ci mode) mode bno).
  repeat split; try done.
  - cbn. by destruct Hmode as [->| ->], (S_ISDIR mode).
  - cbn. by destruct Hmode as [->| ->], (S_ISDIR mode).
  - cbn. by destruct (S_ISDIR mode).
  - cbn. rewrite lookup_insert_ne by done. apply lookup_insert_eq.
  - intros b Hb1 Hb2. cbn. by rewrite !lookup_insert_ne.
Qed.

(** X10.  Create does not look for the name in the directory: when it
    returns 0 in a directory whose last slot is free, every name that a
    lookup resolved before resolves to the same inode afterwards, the
    created name included.  A create under a name already in use thus
    adds a second entry that no lookup reaches. *)
Theorem create_keeps_resolutions fuel st dir d mode excl st' d' ci bh files
    last dn flags n st0 :
  ouichefs_create fuel st dir d mode excl = Ret (st', d', 0) ->
  inodes st !! dir = Some ci ->
  blocks st !! index_block ci = Some bh ->
  dir_view bh = Ret files ->
  length files = Z.to_nat OUICHEFS_MAX_SUBFILES ->
  entry files (OUICHEFS_MAX_SUBFILES - 1) = Ret last ->
  inode last = 0 ->
  0 <= dir -> 0 <= index_block ci ->
  ifree_bitmap (sbi st) !! Z.to_nat dir <> Some true ->
  bfree_bitmap (sbi st) !! Z.to_nat (index_block ci) <> Some true ->
  Z.of_nat (length (d_name dn)) <= OUICHEFS_FILENAME_LEN ->
  ouichefs_lookup st dir dn flags = Ret (st0, d_add dn (Some n), 0) ->
  (exists st'', ouichefs_lookup st' dir dn flags
                = Ret (st'', d_add dn (Some n), 0))
  /\ (0 <= n -> ifree_bitmap (sbi st) !! Z.to_nat n <> Some true ->
      d' <> d_add d (Some n)).
Proof.
  intros Hcreate Hci Hbh Hview Hlen Hlast Hzero Hdir0 Hib0 Hidir Hbdir
    Hfit Hbefore.
  rewrite (create_not_full fuel st dir d mode excl ci bh files last)
    in Hcreate by done.
  destruct (strlen (d_name d) >? OUICHEFS_FILENAME_LEN); [done|].
  destruct (create_entry_steps _ _ _ _ _ _ _ _ _ Hcreate Hci Hbh Hview Hlen
              Hidir Hbdir Hdir0 Hib0)
    as (p & bno & i0 & Hp & Hp0 & Hbno & Hbno0 & Hpd & Hbd & Hi0 & Hmode & _
        & Hk & -> & ->).
  rewrite (lookup_unfold st dir dn flags ci bh files) in Hbefore by done.
  destruct (find_name (used_entries files) (d_name dn)) as [n'|] eqn:Hfind;
    [|done].
  destruct (ouichefs_iget st n') as [e|q] eqn:Hget; [done|].
  injection Hbefore as _ ->.
  apply iget_inr in Hget as (<- & Hlt & Hsome).
  split.
  - eexists.
    set (dir2 := if S_ISDIR mode then _ else _).
    set (stf := set_inode _ dir dir2).
    assert (Hib : index_block dir2 = index_block ci)
      by (subst dir2; by destruct (S_ISDIR mode)).
    rewrite (lookup_unfold stf dir dn flags dir2
               (DirBlock (<[length (used_entries files) :=
                   {| inode := p;
                      filename := strncpy (d_name d)
                        (Z.to_nat OUICHEFS_FILENAME_LEN) |}]> files))
               (<[length (used_entries files) :=
                   {| inode := p;
                      filename := strncpy (d_name d)
                        (Z.to_nat OUICHEFS_FILENAME_LEN) |}]> files)).
    + rewrite used_entries_insert by done.
      rewrite find_name_app, Hfind.
      assert (Hget' : ouichefs_iget stf n = inr n).
      { unfold ouichefs_iget. subst stf. cbn.
        destruct (Z.leb_spec (nr_inodes (sbi st)) n); [lia|].
        destruct (decide (n = dir)) as [->|Hnd].
        - by rewrite lookup_insert_eq.
        - rewrite lookup_insert_ne by done.
          destruct (decide (n = p)) as [->|Hnp].
          + by rewrite lookup_insert_eq.
          + rewrite lookup_insert_ne by done. by destruct Hsome as [? ->]. }
      rewrite Hget'. reflexivity.
    + done.
    + subst stf. cbn. apply lookup_insert_eq.
    + subst stf. cbn. rewrite Hib. apply lookup_insert_eq.
    + done.
    + by rewrite length_insert.
  - intros Hn0 Hnfree [= ->].
    apply find_first_bit_free in Hp as [_ Hp]. rewrite Z.sub_0_r in Hp. done.
Qed.

Lemma used_entries_all files :
  Forall (fun f => inode f <> 0) files -> used_entries files = files.
Proof.
  intros H. rewrite <- (app_nil_r files) at 1.
  rewrite used_entries_app by done. cbn. apply app_nil_r.
Qed.

(** X11.  Create takes the result 0 of the eviction pass as a free slot in
    the directory.  When the pass has removed its victim from another
    directory, so that every slot of the directory is still in use, the
    search for a free slot ends at [i = OUICHEFS_MAX_SUBFILES], and once
    the new inode is allocated and its index block scrubbed the entry is
    written to [files[OUICHEFS_MAX_SUBFILES]], past the array. *)
Theorem create_still_full_out_of_bounds fuel st dir d mode excl ci bh files
    last st1 files1 st2 p ni :
  strlen (d_name d) <= OUICHEFS_FILENAME_LEN ->
  inodes st !! dir = Some ci ->
  blocks st !! index_block ci = Some bh ->
  dir_view bh = Ret files ->
  entry files (OUICHEFS_MAX_SUBFILES - 1) = Ret last ->
  inode last <> 0 ->
  ouichefs_fblocks fuel st dir = Ret (st1, 0) ->
  blocks st1 !! index_block ci = Some (DirBlock files1) ->
  length files1 = Z.to_nat OUICHEFS_MAX_SUBFILES ->
  Forall (fun f => inode f <> 0) files1 ->
  ouichefs_new_inode st1 dir mode = Ret (st2, inr p) ->
  inodes st2 !! p = Some ni ->
  is_Some (blocks st2 !! index_block ni) ->
  index_block ni <> index_block ci ->
  ouichefs_create fuel st dir d mode excl = Oops OutOfBounds.
Proof.
  intros Hfit Hci Hbh Hview Hlast Hfull Hev Hbh1 Hlen1 Hall Hnew Hni
    [bnew Hbnew] Hnb.
  unfold ouichefs_create.
  destruct (Z.gtb_spec (strlen (d_name d)) OUICHEFS_FILENAME_LEN); [lia|].
  unfold get_inode, sb_bread. rewrite Hci. cbn [mbind outcome_mbind obind].
  rewrite Hbh, Hview. cbn [mbind outcome_mbind obind].
  rewrite Hlast. cbn [mbind outcome_mbind obind].
  unfold create_evict.
  destruct (Z.eqb_spec (inode last) 0) as [|_]; [done|]. cbn [negb].
  rewrite Hev. cbn [mbind outcome_mbind obind Z.eqb negb].
  unfold create_entry. rewrite Hnew. cbn [mbind outcome_mbind obind].
  unfold get_inode, sb_bread. rewrite Hni. cbn [mbind outcome_mbind obind].
  rewrite Hbnew. cbn [blocks write_block set_blocks].
  rewrite lookup_insert_ne by done.
  apply new_inode_inr in Hnew as (_ & _ & -> & _).
  rewrite Hbh1. cbn [deref dir_view mbind outcome_mbind obind].
  pose proof (first_free_slot_used files1 files1 0 eq_refl) as Hs.
  rewrite Hlen1 in Hs. change (Z.of_nat 0) with 0 in Hs.
  rewrite Hs, used_entries_all by done.
  cbn [mbind outcome_mbind obind]. unfold set_file.
  rewrite entry_oob by lia. done.
Qed.

(** The eviction pass returns -1 without a change when it finds no
    victim, and 0 in every other case in which it returns. *)
Lemma fblocks_codes fuel st dir st1 r :
  ouichefs_fblocks fuel st dir = Ret (st1, r) ->
  (r = -1 /\ st1 = st) \/ r = 0.
Proof.
  unfold ouichefs_fblocks.
  destruct (ouichefs_iterate _ fuel st dir _) as [v| |]; [|done|done].
  cbn [mbind outcome_mbind obind].
  destruct (victim_inode v) as [vi|]; [|intros [= <- <-]; by left].
  destruct (get_inode st vi) as [i| |]; [|done|done].
  cbn [mbind outcome_mbind obind].
  destruct (d_find_any_alias st vi) as [dv|];
    (destruct (deref (parent v)) as [p| |]; [|done|done]);
    cbn [mbind outcome_mbind obind].
  - destruct (vfs_unlink st p dv) as [[s c]| |]; [|done|done].
    cbn. intros [= <- <-]. by right.
  - destruct (ouichefs_remove st p vi) as [[s c]| |]; [|done|done].
    cbn. intros [= <- <-]. by right.
Qed.

Lemma state_eta st :
  {| blocks := blocks st; inodes := inodes st; sbi := sbi st;
     aliases := aliases st;
     ouichefs_fblocks_strategy := ouichefs_fblocks_strategy st;
     current_time := current_time st; fsuid := fsuid st; fsgid := fsgid st |}
  = st.
Proof. by destruct st. Qed.

(** Taking the first free bit and putting it back leaves the bitmap as it
    was. *)
Lemma put_free_bit_undo bm p :
  find_first_bit bm 0 = Some p ->
  put_free_bit (<[Z.to_nat p := false]> bm) p = bm.
Proof.
  intros Hp. apply find_first_bit_free in Hp as [Hp0 Hp].
  rewrite Z.sub_0_r in Hp. unfold put_free_bit.
  destruct (Z.ltb_spec p 0); [lia|].
  rewrite list_insert_insert_eq. by apply list_insert_id.
Qed.

(** The ways in which [ouichefs_new_inode] fails: it writes no block and
    no inode, and when bit 0 of neither bitmap is free it leaves the
    bitmaps and the free counts as they were. *)
Lemma new_inode_fails st dir mode st2 e :
  ouichefs_new_inode st dir mode = Ret (st2, inl e) ->
  (e = - EINVAL \/ e = - ENOSPC \/ e = - EIO)
  /\ blocks st2 = blocks st /\ inodes st2 = inodes st
  /\ (find_first_bit (ifree_bitmap (sbi st)) 0 <> Some 0 ->
      find_first_bit (bfree_bitmap (sbi st)) 0 <> Some 0 ->
      st2 = st).
Proof.
  unfold ouichefs_new_inode.
  destruct (negb (S_ISDIR mode) && negb (S_ISREG mode)).
  { intros [= <- <-]. auto. }
  destruct ((nr_free_inodes (sbi st) =? 0) || _).
  { intros [= <- <-]. auto. }
  unfold get_free_inode.
  destruct (find_first_bit (ifree_bitmap (sbi st)) 0) as [ino|] eqn:Hino.
  2:{ cbn. intros [= <- <-]. repeat split; auto. intros _ _.
      destruct st as [? ? []]; reflexivity. }
  destruct (Z.eqb_spec ino 0) as [->|Hino0].
  { intros [= <- <-]. repeat split; auto. intros H. done. }
  assert (Hundo : forall s : ouichefs_sb_info,
            nr_inodes s = nr_inodes (sbi st) ->
            nr_blocks s = nr_blocks (sbi st) ->
            nr_free_inodes s = nr_free_inodes (sbi st) - 1 ->
            nr_free_blocks s = nr_free_blocks (sbi st) ->
            ifree_bitmap s = (get_first_free_bit (ifree_bitmap (sbi st))).2 ->
            bfree_bitmap s = bfree_bitmap (sbi st) ->
            put_inode s ino = sbi st).
  { intros s H1 H2 H3 H4 H5 H6. unfold put_inode.
    rewrite H1, H2, H3, H4, H5, H6. unfold get_first_free_bit.
    rewrite Hino. cbn [snd]. rewrite put_free_bit_undo by done.
    replace (nr_free_inodes (sbi st) - 1 + 1) with (nr_free_inodes (sbi st))
      by lia.
    by destruct (sbi st). }
  destruct (ouichefs_iget _ ino) as [e'|q] eqn:Hget.
  { intros [= <- <-]. cbn [blocks inodes set_sbi sbi].
    unfold ouichefs_iget in Hget. cbn [sbi set_sbi inodes] in Hget.
    split.
    { destruct (_ <=? ino); [injection Hget as <-; auto|].
      destruct (inodes st !! ino); [done|]. injection Hget as <-. auto. }
    repeat split; auto. intros _ _.
    rewrite Hundo by done. unfold set_sbi. cbn. apply state_eta. }
  unfold get_free_block. cbn [sbi set_sbi bfree_bitmap].
  destruct (find_first_bit (bfree_bitmap (sbi st)) 0) as [bno|] eqn:Hbno.
  2:{ cbn [Z.eqb]. intros [= <- <-]. cbn [blocks inodes set_sbi sbi].
      repeat split; auto. intros _ _.
      rewrite Hundo by done. unfold set_sbi. cbn. apply state_eta. }
  destruct (Z.eqb_spec bno 0) as [->|Hbno0].
  { intros [= <- <-]. cbn [blocks inodes set_sbi sbi].
    repeat split; auto. intros _ H. done. }
  destruct (get_inode _ q) as [i| |]; [|done|done].
  cbn [mbind outcome_mbind obind].
  destruct (get_inode _ dir) as [dd| |]; [|done|done].
  done.
Qed.

(** X12.  The codes of [ouichefs_create]: [-ENAMETOOLONG] for a name over
    the limit and [-EMLINK] when the directory is full and the eviction
    pass found no victim, both without any change; 0 with the dentry
    bound to the new inode; and otherwise [-EIO], [-EINVAL] or [-ENOSPC].
    On every error the dentry is left as it was.  The function never
    returns [-EEXIST]. *)
Theorem create_codes fuel st dir d mode excl st' d' r :
  ouichefs_create fuel st dir d mode excl = Ret (st', d', r) ->
  (r = - ENAMETOOLONG /\ st' = st /\ d' = d
   /\ OUICHEFS_FILENAME_LEN < strlen (d_name d))
  \/ (r = - EMLINK /\ st' = st /\ d' = d
      /\ ouichefs_fblocks fuel st dir = Ret (st, -1))
  \/ (r = 0 /\ exists p, d' = d_add d (Some p) /\ is_Some (inodes st' !! p))
  \/ ((r = - EIO \/ r = - EINVAL \/ r = - ENOSPC) /\ d' = d).
Proof.
  unfold ouichefs_create.
  destruct (Z.gtb_spec (strlen (d_name d)) OUICHEFS_FILENAME_LEN).
  { intros [= <- <- <-]. left. repeat split; lia. }
  destruct (get_inode st dir) as [ci| |] eqn:Hci; [|done|done].
  apply get_inode_Ret in Hci.
  cbn [mbind outcome_mbind obind].
  destruct (sb_bread st (index_block ci)) as [bh|].
  2:{ intros [= <- <- <-]. do 3 right. auto. }
  destruct (dir_view bh) as [files| |]; [|done|done].
  cbn [mbind outcome_mbind obind].
  destruct (entry files _) as [last| |]; [|done|done].
  cbn [mbind outcome_mbind obind].
  destruct (create_evict fuel st dir last) as [[st1 freed]| |] eqn:Hev;
    [|done|done].
  cbn [mbind outcome_mbind obind].
  destruct (Z.eqb_spec freed 0) as [->|Hfreed]; cbn [negb].
  2:{ intros [= <- <- <-]. right. left.
      unfold create_evict in Hev.
      destruct (negb (inode last =? 0)); [|by simplify_eq].
      destruct (fblocks_codes _ _ _ _ _ Hev) as [[-> ->]|]; done. }
  unfold create_entry.
  destruct (ouichefs_new_inode st1 dir mode) as [[st2 [e|p]]| |] eqn:Hnew;
    [| |done|done].
  { cbn. intros [= <- <- <-]. do 3 right. split; [|done].
    apply new_inode_fails in Hnew as [[->|[->| ->]] _]; auto. }
  cbn [mbind outcome_mbind obind].
  destruct (get_inode st2 p) as [ni| |] eqn:Hni; [|done|done].
  apply get_inode_Ret in Hni.
  cbn [mbind outcome_mbind obind].
  destruct (sb_bread st2 (index_block ni)) as [bnew|].
  2:{ intros [= <- <- <-]. do 3 right. auto. }
  destruct (deref _) as [bh'| |]; [|done|done].
  cbn [mbind outcome_mbind obind].
  destruct (dir_view bh') as [files'| |]; [|done|done].
  cbn [mbind outcome_mbind obind].
  destruct (first_free_slot files' _ 0) as [i| |]; [|done|done].
  cbn [mbind outcome_mbind obind].
  destruct (set_file files' i p (d_name d)) as [files''| |]; [|done|done].
  cbn [mbind outcome_mbind obind].
  destruct (get_inode _ dir) as [dir'| |]; [|done|done].
  cbn [mbind outcome_mbind obind].
  intros [= <- <- <-]. right. right. left. split; [done|].
  exists p. split; [done|]. cbn.
  destruct (decide (p = dir)) as [->|Hne].
  - rewrite lookup_insert_eq. eauto.
  - rewrite lookup_insert_ne by done. by rewrite Hni.
Qed.

(** X13.  A create that fails in a directory whose last slot is free
    undoes its allocations: provided bit 0 of neither bitmap is free, the
    bitmaps and the free counts are what they were, and no block has been
    written.  The only trace is in the inode that had been allocated,
    which stays initialised when the failure is the read of its index
    block. *)
Theorem create_failure_rolls_back fuel st dir d mode excl st' d' r ci bh files
    last :
  ouichefs_create fuel st dir d mode excl = Ret (st', d', r) ->
  r <> 0 ->
  inodes st !! dir = Some ci ->
  blocks st !! index_block ci = Some bh ->
  dir_view bh = Ret files ->
  entry files (OUICHEFS_MAX_SUBFILES - 1) = Ret last ->
  inode last = 0 ->
  find_first_bit (ifree_bitmap (sbi st)) 0 <> Some 0 ->
  find_first_bit (bfree_bitmap (sbi st)) 0 <> Some 0 ->
  sbi st' = sbi st /\ blocks st' = blocks st /\ d' = d
  /\ (st' = st
      \/ exists p bno i0,
           r = - EIO
           /\ find_first_bit (ifree_bitmap (sbi st)) 0 = Some p
           /\ find_first_bit (bfree_bitmap (sbi st)) 0 = Some bno
           /\ blocks st !! bno = None
           /\ inodes st !! p = Some i0
           /\ inodes st'
              = <[p := init_inode st (inode_init_owner st i0 ci mode)
                         mode bno]> (inodes st)).
Proof.
  intros Hcreate Hr Hci Hbh Hview Hlast Hzero Hi0 Hb0.
  rewrite (create_not_full fuel st dir d mode excl ci bh files last)
    in Hcreate by done.
  destruct (strlen (d_name d) >? OUICHEFS_FILENAME_LEN).
  { injection Hcreate as <- <- <-. auto. }
  revert Hcreate. unfold create_entry.
  destruct (ouichefs_new_inode st dir mode) as [[st2 [e|p]]| |] eqn:Hnew;
    [| |done|done].
  { cbn. intros [= <- <- <-].
    apply new_inode_fails in Hnew as (_ & _ & _ & Heq).
    rewrite Heq by done. auto. }
  cbn [mbind outcome_mbind obind].
  apply new_inode_steps in Hnew
    as (bno & i0 & dd & Hp & Hp0 & Hbno & Hbno0 & Hi & Hdd & _ & _ & _ & ->).
  rewrite Hci in Hdd. injection Hdd as <-.
  unfold get_inode. cbn [inodes set_inode set_inodes].
  rewrite lookup_insert_eq.
  cbn [mbind outcome_mbind obind index_block init_inode].
  unfold sb_bread.
  cbn [blocks set_inode set_inodes set_sbi write_block set_blocks].
  destruct (blocks st !! bno) as [bnew|] eqn:Hbnew.
  - destruct (deref _) as [bh'| |]; [|done|done].
    cbn [mbind outcome_mbind obind].
    destruct (dir_view bh') as [files'| |]; [|done|done].
    cbn [mbind outcome_mbind obind].
    destruct (first_free_slot files' _ 0) as [i| |]; [|done|done].
    cbn [mbind outcome_mbind obind].
    destruct (set_file files' i p (d_name d)) as [files''| |]; [|done|done].
    cbn [mbind outcome_mbind obind].
    match goal with
    | |- context [match ?x with Some _ => _ | None => Oops BadPointer end] =>
        destruct x as [dir'|]
    end; [|done].
    cbn [mbind outcome_mbind obind].
    by intros [= <- <- <-].
  - intros [= <- <- <-]. cbn [sbi set_sbi set_inode set_inodes blocks inodes].
    split.
    { unfold put_inode, put_block, allocated. cbn.
      rewrite !put_free_bit_undo by done.
      replace (nr_free_inodes (sbi st) - 1 + 1) with (nr_free_inodes (sbi st))
        by lia.
      replace (nr_free_blocks (sbi st) - 1 + 1) with (nr_free_blocks (sbi st))
        by lia.
      by destruct (sbi st). }
    split; [done|]. split; [done|]. right.
    exists p, bno, i0. repeat split; auto.
Qed.

(** ** Rename *)

(** The first loop of [ouichefs_rename] stops with [-EEXIST] at the first
    slot, in use or not, whose name field compares equal to the new
    name. *)
Lemma rename_check_exists files same old_name new_name (q : nat) f :
  files !! q = Some f ->
  strncmp (filename f) new_name (Z.to_nat OUICHEFS_FILENAME_LEN) = 0 ->
  forall (n i : nat) f_pos new_pos,
    (i <= q < i + n)%nat ->
    rename_check files same old_name new_name n (Z.of_nat i) f_pos new_pos
    = Ret (inl (- EEXIST)).
Proof.
  intros Hq Hcarry. induction n as [|n IH]; intros i f_pos new_pos Hi; [lia|].
  destruct (lookup_lt_is_Some_2 files i) as [g Hg].
  { apply lookup_lt_Some in Hq. lia. }
  cbn [rename_check]. rewrite (entry_lookup _ _ _ Hg).
  cbn [mbind outcome_mbind obind].
  destruct (Z.eqb_spec (strncmp (filename g) new_name
                          (Z.to_nat OUICHEFS_FILENAME_LEN)) 0) as [|Hne];
    [done|].
  assert (i <> q) by (intros ->; congruence).
  replace (Z.of_nat i + 1) with (Z.of_nat (S i)) by lia.
  apply IH. lia.
Qed.

(** The first loop when no slot carries the new name and, within one
    directory, none carries the old name: [f_pos] is untouched and
    [new_pos], if not yet set, becomes the first free slot. *)
Lemma rename_check_positions files same old_name new_name :
  forall rest (i : nat) f_pos new_pos,
    drop i files = rest ->
    Forall (fun f => strncmp (filename f) new_name
                       (Z.to_nat OUICHEFS_FILENAME_LEN) <> 0) rest ->
    (same = true ->
     Forall (fun f => strncmp (filename f) old_name
                        (Z.to_nat OUICHEFS_FILENAME_LEN) <> 0) rest) ->
    rename_check files same old_name new_name (length rest) (Z.of_nat i)
      f_pos new_pos
    = Ret (inr (f_pos,
                if new_pos <? 0
                then if (length (used_entries rest) <? length rest)%nat
                     then Z.of_nat (i + length (used_entries rest))
                     else new_pos
                else new_pos)).
Proof.
  induction rest as [|f rest IH]; intros i f_pos new_pos Hdrop Hnew Hold.
  { cbn. by destruct (new_pos <? 0). }
  assert (Hf : files !! i = Some f).
  { rewrite <- (Nat.add_0_r i), <- lookup_drop, Hdrop. done. }
  assert (Hrest : drop (S i) files = rest).
  { rewrite (drop_S _ _ _ Hf) in Hdrop. congruence. }
  apply Forall_cons in Hnew as [Hfn Hnew].
  cbn [rename_check length used_entries].
  rewrite (entry_lookup _ _ _ Hf). cbn [mbind outcome_mbind obind].
  destruct (Z.eqb_spec (strncmp (filename f) new_name
                          (Z.to_nat OUICHEFS_FILENAME_LEN)) 0); [done|].
  assert (Hfo : same && (strncmp (filename f) old_name
                           (Z.to_nat OUICHEFS_FILENAME_LEN) =? 0) = false).
  { destruct same; [|done]. cbn. specialize (Hold eq_refl).
    apply Forall_cons in Hold as [Hfo _]. by apply Z.eqb_neq. }
  rewrite Hfo.
  replace (Z.of_nat i + 1) with (Z.of_nat (S i)) by lia.
  rewrite (IH (S i)); [|done|done|].
  2:{ intros Hs. specialize (Hold Hs). by apply Forall_cons in Hold as [_ ?]. }
  f_equal. f_equal. f_equal.
  destruct (Z.ltb_spec new_pos 0) as [Hneg|Hpos]; cbn [andb].
  - destruct (Z.eqb_spec (inode f) 0) as [Hz|Hnz].
    + destruct (Z.ltb_spec (Z.of_nat i) 0); [lia|].
      cbn [length]. destruct (Nat.ltb_spec 0 (S (length rest))); [|lia].
      f_equal. lia.
    + destruct (Z.ltb_spec new_pos 0); [|lia]. cbn [length].
      destruct (Nat.ltb_spec (length (used_entries rest)) (length rest)),
               (Nat.ltb_spec (S (length (used_entries rest)))
                  (S (length rest))); try lia; try done.
  - destruct (Z.ltb_spec new_pos 0); [lia|done].
Qed.

(** The unbounded scan of [ouichefs_rename] stops at the first free slot
    when there is one, and is then the scan of [ouichefs_remove]. *)
Lemma rename_scan_from_entries ino :
  ino <> 0 ->
  forall rest i f_id,
    (length (used_entries rest) < length rest)%nat ->
    rename_scan_from rest ino i f_id = Ret (scan_entries rest ino i f_id).
Proof.
  intros Hino. induction rest as [|f rest IH]; intros i f_id Hlt.
  { cbn in Hlt. lia. }
  cbn [rename_scan_from scan_entries]. cbn [used_entries length] in Hlt.
  destruct (Z.eqb_spec (inode f) ino) as [Heq|Hne].
  - destruct (Z.eqb_spec (inode f) 0) as [|_]; [congruence|].
    apply IH. cbn in Hlt. lia.
  - destruct (Z.eqb_spec (inode f) 0) as [|_]; [done|].
    apply IH. cbn in Hlt. lia.
Qed.

Lemma rename_scan_as_remove (files : list ouichefs_file) ino :
  length files = Z.to_nat OUICHEFS_MAX_SUBFILES ->
  ino <> 0 ->
  (length (used_entries files) < length files)%nat ->
  ('(f_id, nr_subs) ← rename_scan files ino; remove_entry files f_id nr_subs)
  = remove_from_dir files ino.
Proof.
  intros Hlen Hino Hlt. unfold rename_scan, remove_from_dir.
  destruct (Z.eqb_spec OUICHEFS_MAX_SUBFILES 0) as [Hz|_].
  { rewrite Hz in Hlen. cbn in Hlen. lia. }
  rewrite rename_scan_from_entries by done.
  pose proof (remove_scan_entries files ino files 0 (-1) eq_refl) as Hs.
  rewrite Hlen in Hs. change (Z.of_nat 0) with 0 in Hs. by rewrite Hs.
Qed.

(** A removal finds every inode number that an entry in use holds. *)
Lemma remove_from_dir_present (files : list ouichefs_file) ino (p : nat) :
  length files = Z.to_nat OUICHEFS_MAX_SUBFILES ->
  ino <> 0 ->
  inode <$> used_entries files !! p = Some ino ->
  exists files', remove_from_dir files ino = Ret files'.
Proof.
  intros Hlen Hino Hp.
  destruct (used_entries_split files) as (Hsplit & Hhz & Htake).
  assert (Hk : (length (used_entries files) <= length files)%nat).
  { rewrite <- Htake at 1. rewrite length_take. lia. }
  pose proof (used_entries_nonzero files) as Hnz.
  destruct (scan_entries_packed _ _ ino Hino Hnz Hhz 0 (-1))
    as (f' & Hscan & Hcase).
  rewrite <- Hsplit in Hscan.
  destruct Hcase as [[-> Hall]|(p' & -> & Hp' & Hlast)].
  { destruct (used_entries files !! p) as [f|] eqn:Hf; [|done].
    injection Hp as Hp. by eapply Forall_lookup_1 in Hall. }
  assert (Hp'k : (p' < length (used_entries files))%nat).
  { destruct (used_entries files !! p') eqn:E; [|done].
    by apply lookup_lt_Some in E. }
  unfold remove_from_dir.
  pose proof (remove_scan_entries files ino files 0 (-1) eq_refl) as Hs.
  rewrite Hlen in Hs. change (Z.of_nat 0) with 0 in Hs. rewrite Hs, Hscan.
  cbn [mbind outcome_mbind obind].
  replace (0 + Z.of_nat p') with (Z.of_nat p') by lia.
  replace (0 + Z.of_nat (length (used_entries files)))
    with (Z.of_nat (length (used_entries files))) by lia.
  rewrite remove_entry_packed by (done || lia). eauto.
Qed.

(** The start of [ouichefs_rename] up to the first loop. *)
Lemma rename_unfold st old_dir old_dentry new_dir new_dentry flags ci_old
    ci_new bh files :
  Z.land flags (Z.lor RENAME_EXCHANGE RENAME_WHITEOUT) = 0 ->
  strlen (d_name new_dentry) <= OUICHEFS_FILENAME_LEN ->
  inodes st !! old_dir = Some ci_old ->
  inodes st !! new_dir = Some ci_new ->
  blocks st !! index_block ci_new = Some bh ->
  dir_view bh = Ret files ->
  ouichefs_rename st old_dir old_dentry new_dir new_dentry flags
  = (r ← rename_check files (new_dir =? old_dir)
           (d_name old_dentry) (d_name new_dentry)
           (Z.to_nat OUICHEFS_MAX_SUBFILES) 0 (-1) (-1);
     match r with
     | inl e => Ret (st, e)
     | inr (f_pos, new_pos) =>
         if old_dir =? new_dir then
           files' ← set_filename files f_pos (d_name new_dentry);
           Ret (write_block st (index_block ci_new) (DirBlock files'), 0)
         else if new_pos <? 0 then Ret (st, - EMLINK)
         else
           src ← d_inode_of old_dentry;
           s ← get_inode st src;
           files' ← set_file files new_pos src (d_name new_dentry);
           let st1 := write_block st (index_block ci_new) (DirBlock files') in
           let n1 := touch ci_new (current_time st) in
           let n2 := if S_ISDIR (i_mode s) then inode_inc_link_count n1
                     else n1 in
           let st2 := set_inode st1 new_dir n2 in
           match sb_bread st2 (index_block ci_old) with
           | None => Ret (st2, - EIO)
           | Some bh_old =>
               ofiles ← dir_view bh_old;
               '(f_id, nr_subs) ← rename_scan ofiles src;
               ofiles' ← remove_entry ofiles f_id nr_subs;
               let st3 := write_block st2 (index_block ci_old)
                            (DirBlock ofiles') in
               o ← get_inode st3 old_dir;
               s' ← get_inode st3 src;
               let o1 := touch o (current_time st3) in
               let o2 := if S_ISDIR (i_mode s') then inode_dec_link_count o1
                         else o1 in
               Ret (set_inode st3 old_dir o2, 0)
           end
     end).
Proof.
  intros Hflags Hfit Hold Hnew Hbh Hview. unfold ouichefs_rename.
  rewrite Hflags. cbn [Z.eqb negb].
  destruct (Z.gtb_spec (strlen (d_name new_dentry)) OUICHEFS_FILENAME_LEN);
    [lia|].
  assert (Hgo : get_inode st old_dir = Ret ci_old)
    by (unfold get_inode; by rewrite Hold).
  assert (Hgn : get_inode st new_dir = Ret ci_new)
    by (unfold get_inode; by rewrite Hnew).
  assert (Hrd : sb_bread st (index_block ci_new) = Some bh) by done.
  rewrite Hgo. cbn [mbind outcome_mbind obind].
  rewrite Hgn. cbn [mbind outcome_mbind obind].
  rewrite Hrd, Hview. done.
Qed.

(** X14.  [ouichefs_rename] returns [-EEXIST], and changes nothing, as
    soon as one of the [OUICHEFS_MAX_SUBFILES] slots of the target
    directory, in use or not, has a name field that compares equal to the
    new name; renaming an entry to the name it already has is such a
    case. *)
Theorem rename_existing_name st old_dir old_dentry new_dir new_dentry flags
    ci_old ci_new bh files (q : nat) f :
  Z.land flags (Z.lor RENAME_EXCHANGE RENAME_WHITEOUT) = 0 ->
  strlen (d_name new_dentry) <= OUICHEFS_FILENAME_LEN ->
  inodes st !! old_dir = Some ci_old ->
  inodes st !! new_dir = Some ci_new ->
  blocks st !! index_block ci_new = Some bh ->
  dir_view bh = Ret files ->
  length files = Z.to_nat OUICHEFS_MAX_SUBFILES ->
  files !! q = Some f ->
  strncmp (filename f) (d_name new_dentry)
    (Z.to_nat OUICHEFS_FILENAME_LEN) = 0 ->
  ouichefs_rename st old_dir old_dentry new_dir new_dentry flags
  = Ret (st, - EEXIST).
Proof.
  intros Hflags Hfit Hold Hnew Hbh Hview Hlen Hq Hcarry.
  rewrite (rename_unfold _ _ _ _ _ _ _ _ _ _ Hflags Hfit Hold Hnew Hbh Hview).
  pose proof (rename_check_exists files (new_dir =? old_dir)
                (d_name old_dentry) _ _ _ Hq Hcarry
                (Z.to_nat OUICHEFS_MAX_SUBFILES) 0 (-1) (-1)) as Hc.
  change (Z.of_nat 0) with 0 in Hc. rewrite Hc; [done|].
  apply lookup_lt_Some in Hq. lia.
Qed.

(** X15.  A rename into another directory all of whose slots are in use
    returns [-EMLINK] and changes nothing: unlike create, rename runs no
    eviction pass to make room. *)
Theorem rename_full_target st old_dir old_dentry new_dir new_dentry flags
    ci_old ci_new bh files :
  Z.land flags (Z.lor RENAME_EXCHANGE RENAME_WHITEOUT) = 0 ->
  strlen (d_name new_dentry) <= OUICHEFS_FILENAME_LEN ->
  old_dir <> new_dir ->
  inodes st !! old_dir = Some ci_old ->
  inodes st !! new_dir = Some ci_new ->
  blocks st !! index_block ci_new = Some bh ->
  dir_view bh = Ret files ->
  length files = Z.to_nat OUICHEFS_MAX_SUBFILES ->
  Forall (fun f => strncmp (filename f) (d_name new_dentry)
                     (Z.to_nat OUICHEFS_FILENAME_LEN) <> 0) files ->
  Forall (fun f => inode f <> 0) files ->
  ouichefs_rename st old_dir old_dentry new_dir new_dentry flags
  = Ret (st, - EMLINK).
Proof.
  intros Hflags Hfit Hne Hold Hnew Hbh Hview Hlen Hfree Hfull.
  rewrite (rename_unfold _ _ _ _ _ _ _ _ _ _ Hflags Hfit Hold Hnew Hbh Hview).
  destruct (Z.eqb_spec new_dir old_dir) as [|_]; [congruence|].
  destruct (Z.eqb_spec old_dir new_dir) as [|_]; [congruence|].
  pose proof (rename_check_positions files false (d_name old_dentry)
                (d_name new_dentry) files 0 (-1) (-1) eq_refl Hfree) as Hc.
  rewrite Hlen in Hc at 1. change (Z.of_nat 0) with 0 in Hc.
  rewrite Hc by done. cbn [mbind outcome_mbind obind].
  rewrite used_entries_all by done.
  change (-1 <? 0) with true. cbn iota.
  rewrite Nat.ltb_irrefl. done.
Qed.

(** The insertion half of a rename into another directory that has a free
    slot and no slot under the new name. *)
Lemma rename_insert st old_dir old_dentry new_dir new_dentry flags ci_old
    ci_new bh files src s :
  Z.land flags (Z.lor RENAME_EXCHANGE RENAME_WHITEOUT) = 0 ->
  strlen (d_name new_dentry) <= OUICHEFS_FILENAME_LEN ->
  old_dir <> new_dir ->
  inodes st !! old_dir = Some ci_old ->
  inodes st !! new_dir = Some ci_new ->
  blocks st !! index_block ci_new = Some bh ->
  dir_view bh = Ret files ->
  length files = Z.to_nat OUICHEFS_MAX_SUBFILES ->
  Forall (fun f => strncmp (filename f) (d_name new_dentry)
                     (Z.to_nat OUICHEFS_FILENAME_LEN) <> 0) files ->
  (length (used_entries files) < length files)%nat ->
  d_inode old_dentry = Some src ->
  inodes st !! src = Some s ->
  ouichefs_rename st old_dir old_dentry new_dir new_dentry flags
  = let st2 :=
      set_inode
        (write_block st (index_block ci_new)
           (DirBlock
              (<[length (used_entries files) :=
                   {| inode := src;
                      filename := strncpy (d_name new_dentry)
                        (Z.to_nat OUICHEFS_FILENAME_LEN) |}]> files)))
        new_dir
        (if S_ISDIR (i_mode s)
         then inode_inc_link_count (touch ci_new (current_time st))
         else touch ci_new (current_time st)) in
    match sb_bread st2 (index_block ci_old) with
    | None => Ret (st2, - EIO)
    | Some bh_old =>
        ofiles ← dir_view bh_old;
        '(f_id, nr_subs) ← rename_scan ofiles src;
        ofiles' ← remove_entry ofiles f_id nr_subs;
        let st3 := write_block st2 (index_block ci_old) (DirBlock ofiles') in
        o ← get_inode st3 old_dir;
        s' ← get_inode st3 src;
        let o1 := touch o (current_time st3) in
        let o2 := if S_ISDIR (i_mode s') then inode_dec_link_count o1
                  else o1 in
        Ret (set_inode st3 old_dir o2, 0)
    end.
Proof.
  intros Hflags Hfit Hne Hold Hnew Hbh Hview Hlen Hfree Hslot Hsrc Hs.
  rewrite (rename_unfold _ _ _ _ _ _ _ _ _ _ Hflags Hfit Hold Hnew Hbh Hview).
  destruct (Z.eqb_spec new_dir old_dir) as [|_]; [congruence|].
  destruct (Z.eqb_spec old_dir new_dir) as [|_]; [congruence|].
  pose proof (rename_check_positions files false (d_name old_dentry)
                (d_name new_dentry) files 0 (-1) (-1) eq_refl Hfree) as Hc.
  rewrite Hlen in Hc at 1. change (Z.of_nat 0) with 0 in Hc.
  rewrite Hc by done. cbn [mbind outcome_mbind obind].
  change (-1 <? 0) with true. cbn iota.
  apply Nat.ltb_lt in Hslot as Hslot'. rewrite Hslot'. rewrite Nat.add_0_l.
  destruct (Z.ltb_spec (Z.of_nat (length (used_entries files))) 0); [lia|].
  unfold d_inode_of. rewrite Hsrc. cbn [mbind outcome_mbind obind].
  assert (Hgs : get_inode st src = Ret s)
    by (unfold get_inode; by rewrite Hs).
  rewrite Hgs. cbn [mbind outcome_mbind obind].
  unfold set_file.
  destruct (lookup_lt_is_Some_2 files (length (used_entries files)) Hslot)
    as [z Hz].
  rewrite (entry_lookup _ _ _ Hz). cbn [mbind outcome_mbind obind].
  rewrite Nat2Z.id. done.
Qed.

(** X16.  A rename into another directory, not full and without a slot
    under the new name, out of a source directory that is not full and
    holds the inode among its entries in use: the inode number goes, under
    the new name, into the first free slot of the target, and the source
    index undergoes the removal that [ouichefs_remove] performs on a
    directory.  Both directories get the current time as timestamps; when
    the renamed inode is a directory the target gains a link and the
    source loses one.  The renamed inode, the bitmaps and the counts are
    untouched, and the function returns 0.  The source entry is found by
    inode number, not by the old name. *)
Theorem rename_moves_entry st old_dir old_dentry new_dir new_dentry flags
    ci_old ci_new bh files src s bh_old ofiles (p : nat) :
  Z.land flags (Z.lor RENAME_EXCHANGE RENAME_WHITEOUT) = 0 ->
  strlen (d_name new_dentry) <= OUICHEFS_FILENAME_LEN ->
  old_dir <> new_dir ->
  inodes st !! old_dir = Some ci_old ->
  inodes st !! new_dir = Some ci_new ->
  index_block ci_old <> index_block ci_new ->
  blocks st !! index_block ci_new = Some bh ->
  dir_view bh = Ret files ->
  length files = Z.to_nat OUICHEFS_MAX_SUBFILES ->
  Forall (fun f => strncmp (filename f) (d_name new_dentry)
                     (Z.to_nat OUICHEFS_FILENAME_LEN) <> 0) files ->
  (length (used_entries files) < length files)%nat ->
  d_inode old_dentry = Some src ->
  inodes st !! src = Some s ->
  src <> 0 -> src <> new_dir -> src <> old_dir ->
  blocks st !! index_block ci_old = Some bh_old ->
  dir_view bh_old = Ret ofiles ->
  length ofiles = Z.to_nat OUICHEFS_MAX_SUBFILES ->
  (length (used_entries ofiles) < length ofiles)%nat ->
  inode <$> used_entries ofiles !! p = Some src ->
  exists ofiles' st',
    remove_from_dir ofiles src = Ret ofiles'
    /\ ouichefs_rename st old_dir old_dentry new_dir new_dentry flags
       = Ret (st', 0)
    /\ blocks st'
       = <[index_block ci_old := DirBlock ofiles']>
           (<[index_block ci_new :=
                DirBlock
                  (<[length (used_entries files) :=
                       {| inode := src;
                          filename := strncpy (d_name new_dentry)
                            (Z.to_nat OUICHEFS_FILENAME_LEN) |}]> files)]>
              (blocks st))
    /\ inodes st'
       = <[old_dir :=
             {| i_mode := i_mode ci_old; i_uid := i_uid ci_old;
                i_gid := i_gid ci_old; i_size := i_size ci_old;
                i_ctime := current_time st; i_atime := current_time st;
                i_mtime := current_time st; i_blocks := i_blocks ci_old;
                i_nlink := if S_ISDIR (i_mode s)
                           then to_u32 (i_nlink ci_old - 1)
                           else i_nlink ci_old;
                i_count := i_count ci_old;
                index_block := index_block ci_old |}]>
           (<[new_dir :=
                {| i_mode := i_mode ci_new; i_uid := i_uid ci_new;
                   i_gid := i_gid ci_new; i_size := i_size ci_new;
                   i_ctime := current_time st; i_atime := current_time st;
                   i_mtime := current_time st; i_blocks := i_blocks ci_new;
                   i_nlink := if S_ISDIR (i_mode s)
                              then to_u32 (i_nlink ci_new + 1)
                              else i_nlink ci_new;
                   i_count := i_count ci_new;
                   index_block := index_block ci_new |}]>
              (inodes st))
    /\ inodes st' !! src = Some s
    /\ sbi st' = sbi st.
Proof.
  intros Hflags Hfit Hne Hold Hnew Hib Hbh Hview Hlen Hfree Hslot Hsrc Hs
    Hsrc0 Hsn Hso Hbo Hoview Holen Hoslot Hp.
  destruct (remove_from_dir_present ofiles src p Holen Hsrc0 Hp)
    as [ofiles' Hrm].
  rewrite (rename_insert st old_dir old_dentry new_dir new_dentry flags ci_old
             ci_new bh files src s) by done.
  cbn zeta. unfold sb_bread.
  cbn [blocks set_inode set_inodes write_block set_blocks].
  rewrite lookup_insert_ne by done. rewrite Hbo, Hoview.
  cbn [mbind outcome_mbind obind].
  pose proof (rename_scan_as_remove ofiles src Holen Hsrc0 Hoslot) as Hscan.
  rewrite Hrm in Hscan.
  destruct (rename_scan ofiles src) as [[f_id nr_subs]| |]; [|done|done].
  cbn [mbind outcome_mbind obind] in Hscan |- *. rewrite Hscan.
  cbn [mbind outcome_mbind obind].
  unfold get_inode.
  cbn [inodes set_inode set_inodes write_block set_blocks].
  rewrite (lookup_insert_ne _ new_dir old_dir) by done. rewrite Hold.
  cbn [mbind outcome_mbind obind].
  rewrite (lookup_insert_ne _ new_dir src) by done. rewrite Hs.
  cbn [mbind outcome_mbind obind].
  exists ofiles'. eexists. split; [done|]. split; [reflexivity|].
  cbn. split; [done|]. split; [by destruct (S_ISDIR (i_mode s))|].
  split; [by rewrite !lookup_insert_ne|done].
Qed.

(** X17.  A rename into another directory reads the index block of the
    source directory only after it has written the new entry.  When that
    read fails the function returns [-EIO] with the insertion in place:
    the inode is then listed in the target directory, whose timestamps
    and link count are already updated, and still in the source. *)
Theorem rename_unreadable_source st old_dir old_dentry new_dir new_dentry flags
    ci_old ci_new bh files src s :
  Z.land flags (Z.lor RENAME_EXCHANGE RENAME_WHITEOUT) = 0 ->
  strlen (d_name new_dentry) <= OUICHEFS_FILENAME_LEN ->
  old_dir <> new_dir ->
  inodes st !! old_dir = Some ci_old ->
  inodes st !! new_dir = Some ci_new ->
  blocks st !! index_block ci_new = Some bh ->
  dir_view bh = Ret files ->
  length files = Z.to_nat OUICHEFS_MAX_SUBFILES ->
  Forall (fun f => strncmp (filename f) (d_name new_dentry)
                     (Z.to_nat OUICHEFS_FILENAME_LEN) <> 0) files ->
  (length (used_entries files) < length files)%nat ->
  d_inode old_dentry = Some src ->
  inodes st !! src = Some s ->
  blocks st !! index_block ci_old = None ->
  ouichefs_rename st old_dir old_dentry new_dir new_dentry flags
  = Ret (set_inode
           (write_block st (index_block ci_new)
              (DirBlock
                 (<[length (used_entries files) :=
                      {| inode := src;
                         filename := strncpy (d_name new_dentry)
                           (Z.to_nat OUICHEFS_FILENAME_LEN) |}]> files)))
           new_dir
           {| i_mode := i_mode ci_new; i_uid := i_uid ci_new;
              i_gid := i_gid ci_new; i_size := i_size ci_new;
              i_ctime := current_time st; i_atime := current_time st;
              i_mtime := current_time st; i_blocks := i_blocks ci_new;
              i_nlink := if S_ISDIR (i_mode s)
                         then to_u32 (i_nlink ci_new + 1)
                         else i_nlink ci_new;
              i_count := i_count ci_new;
              index_block := index_block ci_new |},
         - EIO).
Proof.
  intros Hflags Hfit Hne Hold Hnew Hbh Hview Hlen Hfree Hslot Hsrc Hs Hbo.
  rewrite (rename_insert st old_dir old_dentry new_dir new_dentry flags ci_old
             ci_new bh files src s) by done.
  cbn zeta. unfold sb_bread.
  cbn [blocks set_inode set_inodes write_block set_blocks].
  assert (Hib : index_block ci_old <> index_block ci_new).
  { intros Heq. rewrite Heq, Hbh in Hbo. done. }
  rewrite lookup_insert_ne by done. rewrite Hbo.
  by destruct (S_ISDIR (i_mode s)).
Qed.

(** X18.  A rename within one directory in which no slot carries the old
    name, nor the new one, keeps [f_pos = -1] and copies the new name
    into [files[-1]], before the array. *)
Theorem rename_same_dir_missing_name st dir old_dentry new_dentry flags ci bh
    files :
  Z.land flags (Z.lor RENAME_EXCHANGE RENAME_WHITEOUT) = 0 ->
  strlen (d_name new_dentry) <= OUICHEFS_FILENAME_LEN ->
  inodes st !! dir = Some ci ->
  blocks st !! index_block ci = Some bh ->
  dir_view bh = Ret files ->
  length files = Z.to_nat OUICHEFS_MAX_SUBFILES ->
  Forall (fun f => strncmp (filename f) (d_name new_dentry)
                     (Z.to_nat OUICHEFS_FILENAME_LEN) <> 0) files ->
  Forall (fun f => strncmp (filename f) (d_name old_dentry)
                     (Z.to_nat OUICHEFS_FILENAME_LEN) <> 0) files ->
  ouichefs_rename st dir old_dentry dir new_dentry flags = Oops OutOfBounds.
Proof.
  intros Hflags Hfit Hci Hbh Hview Hlen Hnew Hold.
  rewrite (rename_unfold _ _ _ _ _ _ _ _ _ _ Hflags Hfit Hci Hci Hbh Hview).
  rewrite Z.eqb_refl.
  pose proof (rename_check_positions files true (d_name old_dentry)
                (d_name new_dentry) files 0 (-1) (-1) eq_refl Hnew
                (fun _ => Hold)) as Hc.
  rewrite Hlen in Hc at 1. change (Z.of_nat 0) with 0 in Hc.
  rewrite Hc. cbn [mbind outcome_mbind obind]. done.
Qed.

(** ** The walk and the eviction pass *)

(** More fuel changes no outcome of the walk other than the lack of
    fuel. *)
Lemma iterate_loop_more_fuel {A} (act : option (Z -> Z -> A -> outcome A))
    st (rec rec' : Z -> A -> outcome A) dir :
  (forall p data, rec p data <> NoFuel -> rec' p data = rec p data) ->
  forall n fs data,
    iterate_loop act rec st dir n fs data <> NoFuel ->
    iterate_loop act rec' st dir n fs data
    = iterate_loop act rec st dir n fs data.
Proof.
  intros Hrec. induction n as [|n IH]; intros fs data; [done|].
  destruct fs as [|f fs]; [done|]. cbn [iterate_loop].
  destruct (inode f =? 0); [done|].
  destruct (ouichefs_iget st (inode f)) as [e|p]; [done|].
  destruct (get_inode st p) as [i| |]; [|done|done].
  cbn [mbind outcome_mbind obind].
  destruct (S_ISDIR (i_mode i)).
  - intros H.
    assert (Hr : rec p data <> NoFuel)
      by (intros Hn; apply H; by rewrite Hn).
    rewrite (Hrec _ _ Hr).
    destruct (rec p data) as [d1| |]; [|done|done].
    cbn in *. by apply IH.
  - intros H.
    match goal with
    | |- (?m ≫= _) = _ => destruct m as [d1| |]
    end; [|done|done].
    cbn in *. by apply IH.
Qed.

Lemma iterate_more_fuel {A} (act : option (Z -> Z -> A -> outcome A)) st fuel :
  forall dir data,
    ouichefs_iterate act fuel st dir data <> NoFuel ->
    ouichefs_iterate act (S fuel) st dir data
    = ouichefs_iterate act fuel st dir data.
Proof.
  induction fuel as [|fuel IH]; intros dir data; [done|].
  intros H.
  change (ouichefs_iterate act (S (S fuel)) st dir data)
    with (d ← get_inode st dir;
          match sb_bread st (index_block d) with
          | None => Ret data
          | Some bh =>
              files ← dir_view bh;
              iterate_loop act (ouichefs_iterate act (S fuel) st) st dir
                (Z.to_nat OUICHEFS_MAX_SUBFILES) files data
          end).
  cbn [ouichefs_iterate] in H |- *.
  destruct (get_inode st dir) as [d| |]; [|done|done].
  cbn [mbind outcome_mbind obind] in *.
  destruct (sb_bread st (index_block d)) as [bh|]; [|done].
  destruct (dir_view bh) as [files| |]; [|done|done].
  cbn [mbind outcome_mbind obind] in *.
  apply iterate_loop_more_fuel; [|done].
  intros p data' Hp. by apply IH.
Qed.


(** X20.  A directory whose first entry is the directory itself sends the
    walk into a recursion without end: whatever the bound on its depth,
    the walk reaches it. *)
Theorem walk_self_entry_never_ends {A}
    (action : option (Z -> Z -> A -> outcome A)) st dir d bh f rest :
  inodes st !! dir = Some d ->
  S_ISDIR (i_mode d) = true ->
  blocks st !! index_block d = Some bh ->
  dir_view bh = Ret (f :: rest) ->
  inode f = dir ->
  dir <> 0 ->
  dir < nr_inodes (sbi st) ->
  0 < OUICHEFS_MAX_SUBFILES ->
  forall fuel data, ouichefs_iterate action fuel st dir data = NoFuel.
Proof.
  intros Hd Hdir Hbh Hview Hf Hnz Hlt Hmax.
  induction fuel as [|fuel IH]; intros data; [done|].
  cbn [ouichefs_iterate]. unfold get_inode at 1, sb_bread.
  rewrite Hd. cbn [mbind outcome_mbind obind]. rewrite Hbh, Hview.
  cbn [mbind outcome_mbind obind].
  destruct (Z.to_nat OUICHEFS_MAX_SUBFILES) as [|n] eqn:Hn; [lia|].
  cbn [iterate_loop]. rewrite Hf.
  destruct (Z.eqb_spec dir 0) as [|_]; [done|].
  unfold ouichefs_iget.
  destruct (Z.leb_spec (nr_inodes (sbi st)) dir); [lia|].
  rewrite Hd. unfold get_inode. rewrite Hd.
  cbn [mbind outcome_mbind obind]. rewrite Hdir.
  by rewrite IH.
Qed.

(** X24.  The eviction pass as a whole, for a comparator that ranks by
    [key]: with no eligible file among those the walk visits it returns
    -1 and changes nothing; otherwise its victim is the first eligible
    file of least key, and the pass is the removal of that file from the
    directory that lists it, followed by the result 0 whatever the
    removal returned.  This is so whether or not the dentry cache has an
    alias for the victim: with an alias the removal goes through
    [vfs_unlink] on it, without one it is called directly. *)
Theorem fblocks_evicts_first_best st strategy key fuel dir vs :
  ouichefs_fblocks_strategy st = Some strategy ->
  visits fuel st dir = Ret vs ->
  ranks_by st strategy key vs ->
  exists v,
    first_best st key vs v
    /\ match victim_inode v, parent v with
       | None, _ => ouichefs_fblocks fuel st dir = Ret (st, -1)
       | Some vi, Some p =>
           ouichefs_fblocks fuel st dir
           = ('(st', _) ← ouichefs_remove st p vi; Ret (st', 0))
           /\ match d_find_any_alias st vi with
              | Some d =>
                  d_inode d = Some vi
                  /\ vfs_unlink st p d = ouichefs_remove st p vi
              | None => aliases st !! vi = None
              end
       | Some _, None => False
       end.
Proof.
  intros Hs Hvs Hr.
  destruct (eviction_selects_first_best st strategy key fuel dir vs Hs Hvs Hr)
    as (v & Hit & Hbest).
  exists v. split; [done|].
  unfold ouichefs_fblocks.
  change {| parent := None; victim_inode := None |} with no_victim.
  rewrite Hit. cbn [mbind outcome_mbind obind].
  unfold first_best in Hbest.
  destruct (victim_inode v) as [vi|]; [|done].
  destruct (parent v) as [p|]; [|done].
  destruct Hbest as (pre & post & _ & Hel & _).
  apply eligible_inode in Hel as (i & Hi & _).
  unfold get_inode. rewrite Hi. cbn [mbind outcome_mbind obind].
  unfold d_find_any_alias.
  destruct (aliases st !! vi) as [name|];
    cbn [fmap option_fmap option_map deref mbind outcome_mbind obind];
    unfold vfs_unlink, ouichefs_unlink; cbn [d_inode_of d_inode];
    cbn [mbind outcome_mbind obind]; done.
Qed.

(** ** The ioctl entry point and the strategy modules *)

(** X25.  [unlocked_ioctl] has no successful result.  A command whose
    type byte is not [IOC_MAGIC] gets [-EINVAL], every command of the
    right type other than [QUICK_CLEAN] gets [-ENOTTY], both without any
    change; [QUICK_CLEAN] runs the eviction pass from the root directory
    and then returns [-EINVAL] as well, whether the pass removed a file
    (result 0) or found none (result -1, nothing changed). *)
Theorem ioctl_codes `{ioctl_abi} fuel st root_inode cmd arg st' r :
  unlocked_ioctl fuel st root_inode cmd arg = Ret (st', r) ->
  r <> 0
  /\ ((r = - EINVAL /\ _IOC_TYPE cmd <> IOC_MAGIC /\ st' = st)
      \/ (r = - ENOTTY /\ _IOC_TYPE cmd = IOC_MAGIC /\ cmd <> QUICK_CLEAN
          /\ st' = st)
      \/ (r = - EINVAL /\ _IOC_TYPE cmd = IOC_MAGIC /\ cmd = QUICK_CLEAN
          /\ exists c, ouichefs_fblocks fuel st root_inode = Ret (st', c)
                       /\ ((c = -1 /\ st' = st) \/ c = 0))).
Proof.
  unfold unlocked_ioctl.
  destruct (Z.eqb_spec (_IOC_TYPE cmd) IOC_MAGIC) as [Hty|Hty]; cbn [negb].
  2:{ intros [= <- <-]. split; [done|]. by left. }
  destruct (Z.eqb_spec cmd QUICK_CLEAN) as [Hcmd|Hcmd].
  2:{ intros [= <- <-]. split; [done|]. right. by left. }
  destruct (ouichefs_fblocks fuel st root_inode) as [[s c]| |] eqn:Hfb;
    [|done|done].
  cbn. intros [= <- <-]. split; [done|]. right. right.
  repeat split; try done. exists c. split; [done|].
  by apply fblocks_codes in Hfb.
Qed.

(** X26.  Each strategy module saves the comparator it finds and puts the
    saved one back when it is unloaded.  Loaded and unloaded one inside
    the other, the two modules leave the comparator that was installed
    before.  Unloaded in the order in which they were loaded, they leave
    [ouichefs_strategy_size] installed, the comparator of the module that
    was unloaded first. *)
Theorem strategy_modules_unload_order st :
  let '(st1, default_strategy) := ouichefs_strategy_changer_init st in
  let '(st2, saved_strategy) := uname_init st1 in
  ouichefs_fblocks_strategy st1 = Some ouichefs_strategy_size
  /\ ouichefs_fblocks_strategy st2 = Some strategy_by_size
  /\ ouichefs_strategy_changer_exit (uname_exit st2 saved_strategy)
       default_strategy = st
  /\ ouichefs_fblocks_strategy
       (uname_exit (ouichefs_strategy_changer_exit st2 default_strategy)
          saved_strategy)
     = Some ouichefs_strategy_size
  /\ ouichefs_strategy_changer_exit st1 default_strategy = st.
Proof.
  cbn. repeat split; by destruct st.
Qed.

(** ** Create, then remove *)

Lemma S_ISDIR_setgid m : S_ISDIR (Z.lor m S_ISGID) = S_ISDIR m.
Proof.
  unfold S_ISDIR. rewrite Z.land_lor_distr_l.
  change (Z.land S_ISGID S_IFMT) with 0. by rewrite Z.lor_0_r.
Qed.

Lemma left_packed_insert files (k : nat) new :
  left_packed files k -> (k < length files)%nat -> inode new <> 0 ->
  left_packed (<[k := new]> files) (S k).
Proof.
  intros (_ & Hpre & Hpost) Hk Hnew.
  split; [rewrite length_insert; exact Hk|]. split.
  - erewrite take_S_r by (apply list_lookup_insert_eq; exact Hk).
    rewrite take_insert_ge by done.
    apply Forall_app. split; [done|]. by constructor.
  - rewrite drop_insert_lt by (apply Nat.lt_succ_diag_r).
    rewrite <- (take_drop 1 (drop k files)) in Hpost.
    apply Forall_app in Hpost as [_ Hpost]. rewrite drop_drop in Hpost.
    by replace (S k) with (k + 1)%nat by lia.
Qed.

(** Removing the entry that was appended to a left-packed index gives
    the index back, with the slot zeroed. *)
Lemma remove_from_dir_appended files (k : nat) new :
  length files = Z.to_nat OUICHEFS_MAX_SUBFILES ->
  left_packed files k -> (k < length files)%nat -> inode new <> 0 ->
  remove_from_dir (<[k := new]> files) (inode new)
  = Ret (<[k := zero_file]> files).
Proof.
  intros Hlen Hpacked Hk Hnew.
  destruct (remove_from_dir_closed (<[k := new]> files) (S k) k (inode new))
    as (p' & Hp' & _ & _ & ->).
  - by rewrite length_insert.
  - by apply left_packed_insert.
  - lia.
  - by rewrite list_lookup_insert_eq.
  - assert (p' = k) as -> by lia. f_equal.
    rewrite take_insert_ge by done.
    erewrite take_S_r by (apply list_lookup_insert_eq; exact Hk).
    rewrite take_insert_ge by done.
    rewrite drop_ge by (rewrite length_app, length_take; cbn; lia).
    rewrite drop_insert_lt by (apply Nat.lt_succ_diag_r).
    cbn [app]. symmetry. by apply insert_take_drop.
Qed.

(** The state after a create that returned 0 in a left-packed directory
    that is not full, and the removal of the new inode from it. *)
Lemma create_then_remove_steps fuel st dir d mode excl st' d' ci bh files
    (k : nat) :
  ouichefs_create fuel st dir d mode excl = Ret (st', d', 0) ->
  inodes st !! dir = Some ci ->
  blocks st !! index_block ci = Some bh ->
  dir_view bh = Ret files ->
  length files = Z.to_nat OUICHEFS_MAX_SUBFILES ->
  left_packed files k ->
  (k < length files)%nat ->
  0 <= dir -> 0 <= index_block ci ->
  ifree_bitmap (sbi st) !! Z.to_nat dir <> Some true ->
  bfree_bitmap (sbi st) !! Z.to_nat (index_block ci) <> Some true ->
  exists p bno i0 st'',
    d' = d_add d (Some p)
    /\ find_first_bit (ifree_bitmap (sbi st)) 0 = Some p
    /\ find_first_bit (bfree_bitmap (sbi st)) 0 = Some bno
    /\ p <> 0 /\ p <> dir /\ bno <> index_block ci
    /\ inodes st !! p = Some i0
    /\ (S_ISDIR mode = true \/ S_ISREG mode = true)
    /\ inodes st' !! p
       = Some (init_inode st (inode_init_owner st i0 ci mode) mode bno)
    /\ blocks st' !! bno = Some Zeroed
    /\ blocks st'
       = <[index_block ci :=
             DirBlock (<[k := {| inode := p;
                                 filename := strncpy (d_name d)
                                   (Z.to_nat OUICHEFS_FILENAME_LEN) |}]>
                         files)]>
           (<[bno := Zeroed]> (blocks st))
    /\ inodes st'
       = <[dir := if S_ISDIR mode
                  then set_nlink (touch ci (current_time st))
                         (to_u32 (i_nlink ci + 1))
                  else touch ci (current_time st)]>
           (<[p := init_inode st (inode_init_owner st i0 ci mode) mode bno]>
              (inodes st))
    /\ ouichefs_remove st' dir p = Ret (st'', 0)
    /\ sbi st'' = sbi st
    /\ blocks st''
       = <[bno := Zeroed]>
           (<[index_block ci := DirBlock (<[k := zero_file]> files)]>
              (blocks st'))
    /\ inodes st''
       = <[p := clean_inode
                  (init_inode st (inode_init_owner st i0 ci mode) mode bno)]>
           (<[dir := if S_ISDIR mode
                     then set_nlink (touch ci (current_time st))
                            (to_u32 (to_u32 (i_nlink ci + 1) - 1))
                     else touch ci (current_time st)]> (inodes st')).
Proof.
  intros Hcreate Hci Hbh Hview Hlen Hpacked Hk Hdir0 Hib0 Hidir Hbdir.
  assert (Hused : length (used_entries files) = k)
    by by apply left_packed_used.
  assert (Hlast : exists last, entry files (OUICHEFS_MAX_SUBFILES - 1)
                               = Ret last /\ inode last = 0).
  { destruct (lookup_lt_is_Some_2 files (length files - 1)) as [last Hl];
      [lia|].
    exists last. split.
    - apply entry_at; [lia|].
      by replace (Z.to_nat (OUICHEFS_MAX_SUBFILES - 1))
        with (length files - 1)%nat by lia.
    - destruct Hpacked as (_ & _ & Hpost).
      eapply (Forall_lookup_1 _ _ (length files - 1 - k)) in Hpost; [done|].
      rewrite lookup_drop. by replace (k + (length files - 1 - k))%nat
        with (length files - 1)%nat by lia. }
  destruct Hlast as (last & Hlast & Hzero).
  rewrite (create_not_full fuel st dir d mode excl ci bh files last)
    in Hcreate by done.
  destruct (strlen (d_name d) >? OUICHEFS_FILENAME_LEN); [done|].
  destruct (create_entry_steps _ _ _ _ _ _ _ _ _ Hcreate Hci Hbh Hview Hlen
              Hidir Hbdir Hdir0 Hib0)
    as (p & bno & i0 & Hp & Hp0 & Hbno & Hbno0 & Hpd & Hbd & Hi0 & Hmode & _
        & _ & -> & ->).
  rewrite Hused.
  set (ni := init_inode st (inode_init_owner st i0 ci mode) mode bno).
  set (new := {| inode := p;
                 filename := strncpy (d_name d)
                               (Z.to_nat OUICHEFS_FILENAME_LEN) |}).
  set (dir2 := if S_ISDIR mode
               then inode_inc_link_count (touch ci (current_time st))
               else touch ci (current_time st)).
  set (stc := set_inode _ dir dir2).
  assert (Hsd : S_ISDIR (i_mode ni) = S_ISDIR mode).
  { subst ni. cbn.
    destruct (negb (_ =? 0) && S_ISDIR mode); [apply S_ISDIR_setgid|done]. }
  assert (Hcd : inodes stc !! dir = Some dir2)
    by (subst stc; cbn; apply lookup_insert_eq).
  assert (Hcp : inodes stc !! p = Some ni).
  { subst stc. cbn. rewrite lookup_insert_ne by done. apply lookup_insert_eq. }
  assert (Hcb : blocks stc !! index_block dir2
                = Some (DirBlock (<[k := new]> files))).
  { replace (index_block dir2) with (index_block ci)
      by (subst dir2; by destruct (S_ISDIR mode)).
    subst stc. cbn. apply lookup_insert_eq. }
  assert (Hcz : blocks stc !! bno = Some Zeroed).
  { subst stc. cbn. rewrite lookup_insert_ne by done. apply lookup_insert_eq. }
  exists p, bno, i0.
  assert (Hrm : remove_from_dir (<[k := new]> files) p
                = Ret (<[k := zero_file]> files)).
  { apply (remove_from_dir_appended files k new); done. }
  eexists. split; [done|]. split; [done|]. split; [done|].
  split; [done|]. split; [done|]. split; [done|].
  split; [done|]. split; [done|]. split; [done|]. split; [done|].
  split; [done|].
  split; [subst stc dir2; cbn; by destruct (S_ISDIR mode)|].
  unfold ouichefs_remove, get_inode, sb_bread.
  rewrite Hcd, Hcp. cbn [mbind outcome_mbind obind].
  rewrite Hcb. cbn [dir_view mbind outcome_mbind obind].
  rewrite Hrm. cbn [mbind outcome_mbind obind].
  unfold cleanup_blocks, sb_bread.
  cbn [blocks set_inode set_inodes write_block set_blocks].
  replace (index_block ni) with bno by done.
  replace (index_block dir2) with (index_block ci)
    by (subst dir2; by destruct (S_ISDIR mode)).
  rewrite lookup_insert_ne by done. rewrite Hcz.
  rewrite Hsd.
  assert (Hrel : forall s : state,
            (blks ← index_view Zeroed;
             release_blocks blks false bno 0 (to_u64 (i_blocks ni - 1)) s)
            = Ret s).
  { intros s. cbn [index_view mbind outcome_mbind obind].
    change (to_u64 (i_blocks ni - 1)) with 0.
    by destruct (repeat 0 _). }
  assert (Hst1 : forall s : state,
            (if S_ISDIR mode then Ret s
             else blks ← index_view Zeroed;
                  release_blocks blks false bno 0 (to_u64 (i_blocks ni - 1)) s)
            = Ret s).
  { intros s. destruct (S_ISDIR mode); [done|apply Hrel]. }
  rewrite Hst1. cbn [mbind outcome_mbind obind].
  cbn [inodes set_inode set_inodes write_block set_blocks].
  rewrite lookup_insert_ne by done. rewrite Hcp.
  cbn [mbind outcome_mbind obind].
  split; [reflexivity|].
  cbn [sbi blocks inodes set_sbi set_inode set_inodes write_block set_blocks].
  split.
  { subst stc. cbn [sbi set_sbi set_inode set_inodes write_block set_blocks].
    unfold put_inode, put_block, allocated. cbn.
    rewrite !put_free_bit_undo by done.
    replace (nr_free_inodes (sbi st) - 1 + 1) with (nr_free_inodes (sbi st))
      by lia.
    replace (nr_free_blocks (sbi st) - 1 + 1) with (nr_free_blocks (sbi st))
      by lia.
    by destruct (sbi st). }
  split; [done|].
  f_equal. f_equal. subst dir2. by destruct (S_ISDIR mode).
Qed.

(** X27.  Create followed by unlink is a round trip on the directory and
    on the allocator.  After a create that returned 0 in a directory that
    is not full and whose entries in use come first, unlinking the new
    dentry returns 0; the index of the directory is the one before the
    create with the slot that had been taken zeroed, the bitmaps and the
    free counts are exactly those before the create, and no block other
    than the directory index and the index block that had been handed
    out, which is left zeroed, differs from before.  What remains of the
    two operations is in the inodes.  The parent has the current time as
    its three timestamps, its link count incremented then decremented
    modulo 2^32 when a directory was made, and its other fields as
    before.  The inode [c] that had been allocated keeps its link count,
    its reference count and the nanoseconds of its timestamps; every
    other field of it is 0. *)
Theorem create_then_unlink fuel st dir d mode excl st' d' ci bh files
    (k : nat) :
  ouichefs_create fuel st dir d mode excl = Ret (st', d', 0) ->
  inodes st !! dir = Some ci ->
  blocks st !! index_block ci = Some bh ->
  dir_view bh = Ret files ->
  length files = Z.to_nat OUICHEFS_MAX_SUBFILES ->
  left_packed files k ->
  (k < length files)%nat ->
  0 <= dir -> 0 <= index_block ci ->
  ifree_bitmap (sbi st) !! Z.to_nat dir <> Some true ->
  bfree_bitmap (sbi st) !! Z.to_nat (index_block ci) <> Some true ->
  exists p bno c st'',
    d' = d_add d (Some p)
    /\ find_first_bit (bfree_bitmap (sbi st)) 0 = Some bno
    /\ inodes st' !! p = Some c
    /\ index_block c = bno
    /\ ouichefs_unlink st' dir d' = Ret (st'', 0)
    /\ sbi st'' = sbi st
    /\ blocks st''
       = <[bno := Zeroed]>
           (<[index_block ci := DirBlock (<[k := zero_file]> files)]>
              (blocks st))
    /\ (files !! k = Some zero_file ->
        blocks st'' !! index_block ci = Some (DirBlock files))
    /\ inodes st''
       = <[p := {| i_mode := 0; i_uid := 0; i_gid := 0; i_size := 0;
                   i_ctime := {| tv_sec := 0;
                                 tv_nsec := tv_nsec (i_ctime c) |};
                   i_atime := {| tv_sec := 0;
                                 tv_nsec := tv_nsec (i_atime c) |};
                   i_mtime := {| tv_sec := 0;
                                 tv_nsec := tv_nsec (i_mtime c) |};
                   i_blocks := 0; i_nlink := i_nlink c;
                   i_count := i_count c; index_block := 0 |}]>
           (<[dir := {| i_mode := i_mode ci; i_uid := i_uid ci;
                        i_gid := i_gid ci; i_size := i_size ci;
                        i_ctime := current_time st;
                        i_atime := current_time st;
                        i_mtime := current_time st;
                        i_blocks := i_blocks ci;
                        i_nlink := if S_ISDIR mode
                                   then to_u32 (to_u32 (i_nlink ci + 1) - 1)
                                   else i_nlink ci;
                        i_count := i_count ci;
                        index_block := index_block ci |}]> (inodes st)).
Proof.
  intros Hcreate Hci Hbh Hview Hlen Hpacked Hk Hdir0 Hib0 Hidir Hbdir.
  destruct (create_then_remove_steps _ _ _ _ _ _ _ _ _ _ _ _ Hcreate Hci Hbh
              Hview Hlen Hpacked Hk Hdir0 Hib0 Hidir Hbdir)
    as (p & bno & i0 & st'' & -> & Hp & Hbno & Hp0 & Hpd & Hbd & Hi0 & Hmode
        & Hni & Hz & Hblk' & Hino' & Hrm & Hsbi & Hblk & Hino).
  exists p, bno,
    (init_inode st (inode_init_owner st i0 ci mode) mode bno), st''.
  split; [done|]. split; [done|]. split; [done|]. split; [done|].
  split; [unfold ouichefs_unlink; cbn; exact Hrm|].
  split; [done|].
  assert (Hb : blocks st''
               = <[bno := Zeroed]>
                   (<[index_block ci := DirBlock (<[k := zero_file]> files)]>
                      (blocks st))).
  { rewrite Hblk, Hblk'. apply map_eq. intros b.
    destruct (decide (b = bno)) as [->|Hb1].
    { by rewrite !lookup_insert_eq. }
    rewrite !(lookup_insert_ne _ bno b) by done.
    destruct (decide (b = index_block ci)) as [->|Hb2].
    { by rewrite !lookup_insert_eq. }
    rewrite !(lookup_insert_ne _ (index_block ci) b) by done.
    by rewrite lookup_insert_ne. }
  split; [done|]. split.
  { intros Hzero. rewrite Hb, lookup_insert_ne by done.
    rewrite lookup_insert_eq. by rewrite list_insert_id. }
  rewrite Hino, Hino'. apply map_eq. intros q.
  destruct (decide (q = p)) as [->|Hq1].
  { by rewrite !lookup_insert_eq. }
  rewrite !(lookup_insert_ne _ p q) by done.
  destruct (decide (q = dir)) as [->|Hq2].
  { rewrite !lookup_insert_eq. by destruct (S_ISDIR mode). }
  rewrite !(lookup_insert_ne _ dir q) by done.
  by rewrite lookup_insert_ne.
Qed.

Lemma S_ISDIR_mkdir mode :
  Z.land mode S_IFMT = 0 -> S_ISDIR (Z.lor mode S_IFDIR) = true.
Proof.
  intros H. unfold S_ISDIR. rewrite Z.land_lor_distr_l, H.
  by change (Z.land S_IFDIR S_IFMT) with S_IFDIR.
Qed.

(** X28.  [ouichefs_mkdir] with permission bits only as mode makes a
    directory: when it returns 0 in a directory that is not full and
    whose entries in use come first, the new inode is a directory with 2
    links and an empty index, and the parent has gained a link.
    [ouichefs_rmdir] of the new dentry then returns 0 and takes the link
    back: the parent's link count is the one before the mkdir as long as
    it was below 2^32 - 1, its index is the one before with the slot
    zeroed, and the bitmaps and free counts are those before the
    mkdir. *)
Theorem mkdir_then_rmdir fuel st dir d mode st' d' ci bh files (k : nat) :
  ouichefs_mkdir fuel st dir d mode = Ret (st', d', 0) ->
  Z.land mode S_IFMT = 0 ->
  inodes st !! dir = Some ci ->
  blocks st !! index_block ci = Some bh ->
  dir_view bh = Ret files ->
  length files = Z.to_nat OUICHEFS_MAX_SUBFILES ->
  left_packed files k ->
  (k < length files)%nat ->
  0 <= dir -> 0 <= index_block ci ->
  ifree_bitmap (sbi st) !! Z.to_nat dir <> Some true ->
  bfree_bitmap (sbi st) !! Z.to_nat (index_block ci) <> Some true ->
  exists p ni pd st'' pd'',
    d' = d_add d (Some p)
    /\ inodes st' !! p = Some ni
    /\ S_ISDIR (i_mode ni) = true /\ i_nlink ni = 2
    /\ i_size ni = OUICHEFS_BLOCK_SIZE
    /\ first_slot_free st' ni
    /\ inodes st' !! dir = Some pd
    /\ i_nlink pd = to_u32 (i_nlink ci + 1)
    /\ ouichefs_rmdir st' dir d' = Ret (st'', 0)
    /\ inodes st'' !! dir = Some pd''
    /\ (0 <= i_nlink ci < 2 ^ 32 - 1 -> i_nlink pd'' = i_nlink ci)
    /\ blocks st'' !! index_block ci
       = Some (DirBlock (<[k := zero_file]> files))
    /\ sbi st'' = sbi st.
Proof.
  intros Hmk Hperm Hci Hbh Hview Hlen Hpacked Hk Hdir0 Hib0 Hidir Hbdir.
  unfold ouichefs_mkdir in Hmk.
  pose proof (S_ISDIR_mkdir mode Hperm) as Hisdir.
  destruct (create_then_remove_steps _ _ _ _ _ _ _ _ _ _ _ _ Hmk Hci Hbh
              Hview Hlen Hpacked Hk Hdir0 Hib0 Hidir Hbdir)
    as (p & bno & i0 & st'' & -> & Hp & Hbno & Hp0 & Hpd & Hbd & Hi0 & _
        & Hni & Hz & Hblk' & Hino' & Hrm & Hsbi & Hblk & Hino).
  rewrite Hisdir in Hino, Hino'.
  set (ni := init_inode st
               (inode_init_owner st i0 ci (Z.lor mode S_IFDIR))
               (Z.lor mode S_IFDIR) bno) in *.
  assert (Hsd : S_ISDIR (i_mode ni) = true).
  { subst ni. cbn. rewrite Hisdir.
    destruct (negb (_ =? 0) && true); [|done].
    by rewrite S_ISDIR_setgid. }
  assert (Hnl : i_nlink ni = 2) by (subst ni; cbn; by rewrite Hisdir).
  assert (Hmax : (0 < Z.to_nat OUICHEFS_MAX_SUBFILES)%nat) by lia.
  assert (Hfree : first_slot_free st' ni).
  { exists Zeroed, (repeat zero_file (Z.to_nat OUICHEFS_MAX_SUBFILES)),
      zero_file.
    split; [exact Hz|]. split; [done|]. split; [|done].
    destruct (Z.to_nat OUICHEFS_MAX_SUBFILES); [lia|done]. }
  exists p, ni,
    (set_nlink (touch ci (current_time st)) (to_u32 (i_nlink ci + 1))), st'',
    (set_nlink (touch ci (current_time st))
       (to_u32 (to_u32 (i_nlink ci + 1) - 1))).
  split; [done|]. split; [done|]. split; [done|]. split; [done|].
  split; [subst ni; cbn; by rewrite Hisdir|].
  split; [done|].
  split; [rewrite Hino'; apply lookup_insert_eq|].
  split; [done|].
  split.
  { unfold ouichefs_rmdir, get_inode, sb_bread.
    cbn [d_inode_of d_add d_inode mbind outcome_mbind obind].
    rewrite Hni. cbn [mbind outcome_mbind obind].
    fold ni. rewrite Hnl. change (2 >? 2) with false. cbn iota.
    replace (index_block ni) with bno by done.
    rewrite Hz. cbn [dir_view mbind outcome_mbind obind].
    destruct (Z.to_nat OUICHEFS_MAX_SUBFILES) as [|n]; [lia|].
    cbn [repeat]. rewrite (entry_first _ zero_file) by done.
    cbn [mbind outcome_mbind obind]. exact Hrm. }
  split.
  { rewrite Hino, lookup_insert_ne by done. apply lookup_insert_eq. }
  split.
  { intros Hrange. cbn. unfold to_u32.
    rewrite (Z.mod_small (i_nlink ci + 1)) by lia.
    rewrite Z.mod_small by lia. lia. }
  split; [|done].
  rewrite Hblk, lookup_insert_ne by done. apply lookup_insert_eq.
Qed.

(** ** Rename, then lookup; what the pass never evicts *)

Lemma used_entries_lookup files (i : nat) g :
  used_entries files !! i = Some g -> files !! i = Some g.
Proof.
  destruct (used_entries_split files) as (_ & _ & Htake).
  rewrite <- Htake. intros H. apply lookup_take_Some in H. by destruct H.
Qed.

(** Rewriting the name of an entry leaves the entries in use in place. *)
Lemma used_entries_rename files (q : nat) f new :
  files !! q = Some f -> inode new = inode f ->
  used_entries (<[q := new]> files) = <[q := new]> (used_entries files).
Proof.
  revert q. induction files as [|g files IH]; intros q Hq Hnew; [done|].
  destruct q as [|q].
  - injection Hq as ->. cbn. rewrite Hnew.
    by destruct (inode f =? 0).
  - cbn in Hq |- *. destruct (inode g =? 0); [done|].
    cbn. f_equal. by apply IH.
Qed.

Lemma find_name_renamed us (q : nat) f new name :
  us !! q = Some f ->
  strncmp (filename new) name (Z.to_nat OUICHEFS_FILENAME_LEN) = 0 ->
  (forall (i : nat) g, (i < q)%nat -> us !! i = Some g ->
     strncmp (filename g) name (Z.to_nat OUICHEFS_FILENAME_LEN) <> 0) ->
  find_name (<[q := new]> us) name = Some (inode new).
Proof.
  revert q. induction us as [|g us IH]; intros q Hq Hnew Hbefore; [done|].
  destruct q as [|q]; cbn.
  - by rewrite Hnew.
  - destruct (Z.eqb_spec (strncmp (filename g) name
                            (Z.to_nat OUICHEFS_FILENAME_LEN)) 0) as [He|_].
    { by apply (Hbefore 0%nat g) in He; [|lia|]. }
    apply IH; [done|done|].
    intros i h Hi Hh. apply (Hbefore (S i) h); [lia|done].
Qed.

(** X29.  Rename within a directory, then lookup.  When one entry in use
    carries the old name, no other slot does, no slot carries the new
    name, and the two names differ, the rename returns 0; a lookup of the
    new name in the directory then binds the inode of that entry, and a
    lookup of the old name returns 0 with a negative dentry. *)
Theorem rename_then_lookup st dir old_dentry new_dentry flags lflags ci bh
    files (q : nat) f :
  Z.land flags (Z.lor RENAME_EXCHANGE RENAME_WHITEOUT) = 0 ->
  strlen (d_name new_dentry) <= OUICHEFS_FILENAME_LEN ->
  Z.of_nat (length (d_name new_dentry)) <= OUICHEFS_FILENAME_LEN ->
  Z.of_nat (length (d_name old_dentry)) <= OUICHEFS_FILENAME_LEN ->
  inodes st !! dir = Some ci ->
  blocks st !! index_block ci = Some bh ->
  dir_view bh = Ret files ->
  length files = Z.to_nat OUICHEFS_MAX_SUBFILES ->
  used_entries files !! q = Some f ->
  strncmp (filename f) (d_name old_dentry)
    (Z.to_nat OUICHEFS_FILENAME_LEN) = 0 ->
  (forall (q' : nat) g, files !! q' = Some g ->
     strncmp (filename g) (d_name old_dentry)
       (Z.to_nat OUICHEFS_FILENAME_LEN) = 0 -> q' = q) ->
  Forall (fun g => strncmp (filename g) (d_name new_dentry)
                     (Z.to_nat OUICHEFS_FILENAME_LEN) <> 0) files ->
  strncmp (strncpy (d_name new_dentry) (Z.to_nat OUICHEFS_FILENAME_LEN))
    (d_name old_dentry) (Z.to_nat OUICHEFS_FILENAME_LEN) <> 0 ->
  inode f < nr_inodes (sbi st) ->
  is_Some (inodes st !! inode f) ->
  exists st',
    ouichefs_rename st dir old_dentry dir new_dentry flags = Ret (st', 0)
    /\ (exists s1, ouichefs_lookup st' dir new_dentry lflags
                   = Ret (s1, d_add new_dentry (Some (inode f)), 0))
    /\ (exists s2, ouichefs_lookup st' dir old_dentry lflags
                   = Ret (s2, d_add old_dentry None, 0)).
Proof.
  intros Hflags Hfit Hnlen Holen Hci Hbh Hview Hlen Hq Hold Huniq Hnew Hdiff
    Hnr Hsome.
  pose proof (used_entries_lookup _ _ _ Hq) as Hfq.
  rewrite (rename_unfold _ _ _ _ _ _ _ _ _ _ Hflags Hfit Hci Hci Hbh Hview).
  rewrite Z.eqb_refl.
  destruct (rename_check_total files (d_name old_dentry) (d_name new_dentry)
              Hnew (Z.to_nat OUICHEFS_MAX_SUBFILES) 0%nat (-1) (-1))
    as (f_pos & new_pos & Hcheck & _ & Hfound); [lia|].
  change (Z.of_nat 0) with 0 in Hcheck.
  pose proof (rename_check_f_pos _ _ _ _ _ _ _ _ _ Hcheck) as Hpos.
  rewrite Hcheck. cbn [mbind outcome_mbind obind].
  assert (Hrange : 0 <= f_pos < Z.of_nat (0 + Z.to_nat OUICHEFS_MAX_SUBFILES)).
  { apply Hfound. exists q, f. split; [|done].
    apply lookup_lt_Some in Hfq. lia. }
  destruct Hpos as [->|(g & Hg & _ & Hgold)]; [lia|].
  assert (Z.to_nat f_pos = q) as Hfp by (by apply (Huniq _ g)).
  rewrite Hfp in Hg. rewrite Hfq in Hg. injection Hg as <-.
  unfold set_filename.
  rewrite (entry_at _ _ f) by (lia || by rewrite Hfp).
  cbn [mbind outcome_mbind obind]. rewrite Hfp.
  set (new := {| inode := inode f;
                 filename := strncpy (d_name new_dentry)
                               (Z.to_nat OUICHEFS_FILENAME_LEN) |}).
  set (st' := write_block st (index_block ci) (DirBlock (<[q := new]> files))).
  exists st'. split; [done|].
  assert (Hci' : inodes st' !! dir = Some ci) by done.
  assert (Hbh' : blocks st' !! index_block ci
                 = Some (DirBlock (<[q := new]> files)))
    by (subst st'; cbn; apply lookup_insert_eq).
  assert (Hlen' : length (<[q := new]> files)
                  = Z.to_nat OUICHEFS_MAX_SUBFILES)
    by by rewrite length_insert.
  assert (Hused : used_entries (<[q := new]> files)
                  = <[q := new]> (used_entries files))
    by by apply (used_entries_rename files q f new).
  split.
  - eexists.
    rewrite (lookup_unfold st' dir new_dentry lflags ci _ _ Hnlen Hci' Hbh'
               eq_refl Hlen').
    rewrite Hused.
    rewrite (find_name_renamed _ q f new); [| done | apply strncmp_strncpy |].
    2:{ intros i h _ Hh. apply used_entries_lookup in Hh.
        by eapply Forall_lookup_1 in Hnew. }
    assert (Hget : ouichefs_iget st' (inode new) = inr (inode f)).
    { unfold ouichefs_iget. subst st' new. cbn.
      destruct (Z.leb_spec (nr_inodes (sbi st)) (inode f)); [lia|].
      by destruct Hsome as [? ->]. }
    rewrite Hget. reflexivity.
  - eexists.
    rewrite (lookup_unfold st' dir old_dentry lflags ci _ _ Holen Hci' Hbh'
               eq_refl Hlen').
    rewrite Hused, find_name_None; [reflexivity|].
    apply Forall_lookup_2. intros i h Hh Hcarry.
    destruct (decide (i = q)) as [->|Hne].
    + rewrite list_lookup_insert_eq in Hh by (by apply lookup_lt_Some in Hq).
      injection Hh as <-. done.
    + rewrite list_lookup_insert_ne in Hh by done.
      apply used_entries_lookup in Hh. by apply Hne, (Huniq i h).
Qed.

Lemma action_evictable st d i v v' :
  regular_visit st (d, i) -> evictable st v ->
  ouichefs_fblocks_action st d i v = Ret v' -> evictable st v'.
Proof.
  intros (Hnz & ind & Hi & Hdir & Hreg) Hv. cbn in Hnz, Hi.
  unfold ouichefs_fblocks_action, get_inode. rewrite Hi.
  cbn [mbind outcome_mbind obind].
  destruct (Z.gtb_spec (i_count ind) 1) as [|Hcount]; [by intros [= <-]|].
  destruct (match victim_inode v with Some _ => _ | None => _ end)
    as [ret| |]; [|done|done].
  cbn [mbind outcome_mbind obind].
  destruct (ret >? 0); intros [= <-]; [|done].
  unfold evictable. cbn. split; [done|]. split; [eauto|].
  exists ind. done.
Qed.

(** X30.  Whatever comparator is installed, also none, the eviction pass
    removes nothing but a regular file that nobody else holds: when it
    returns 0 it has run the removal of an inode that is a regular file,
    not a directory, with [i_count] at most 1, whether or not the dentry
    cache had an alias for it.  Otherwise it returns -1 and has changed
    nothing. *)
Theorem eviction_spares_files_in_use fuel st dir st' r :
  ouichefs_fblocks fuel st dir = Ret (st', r) ->
  (r = -1 /\ st' = st)
  \/ (r = 0 /\
      exists p vi ind c,
        vi <> 0 /\ inodes st !! vi = Some ind
        /\ S_ISREG (i_mode ind) = true /\ S_ISDIR (i_mode ind) = false
        /\ i_count ind <= 1
        /\ ouichefs_remove st p vi = Ret (st', c)).
Proof.
  unfold ouichefs_fblocks.
  destruct (ouichefs_iterate _ fuel st dir _) as [v| |] eqn:Hit; [|done|done].
  cbn [mbind outcome_mbind obind].
  assert (Hok : evictable st v).
  { eapply (iterate_invariant (ouichefs_fblocks_action st) st (evictable st)
              (action_evictable st) fuel dir); [|exact Hit]. done. }
  unfold evictable in Hok.
  destruct (victim_inode v) as [vi|]; [|intros [= <- <-]; by left].
  destruct Hok as (Hnz & [p Hp] & ind & Hi & Hdir & Hreg & Hcount).
  unfold get_inode. rewrite Hi. cbn [mbind outcome_mbind obind].
  unfold d_find_any_alias.
  destruct (aliases st !! vi) as [name|] eqn:Hal;
    cbn [fmap option_fmap option_map deref mbind outcome_mbind obind];
    rewrite Hp; cbn [deref mbind outcome_mbind obind];
    unfold vfs_unlink, ouichefs_unlink; cbn [d_inode_of d_inode];
    cbn [mbind outcome_mbind obind];
    (destruct (ouichefs_remove st p vi) as [[s c]| |] eqn:Hrm; [|done|done]);
    cbn; intros [= <- <-]; right; (split; [done|]);
    exists p, vi, ind, c; repeat split; done.
Qed.

End Properties.

(** * Evaluations on the concrete volumes *)



(** C1 (defect of the code).  On [vol_mtime] the walk visits file 2 then
    file 3, both eligible; file 3 has the older modification time, yet the
    pass under the default strategy ends with file 2 as victim: the
    difference of the two times, 2^31, is negative once returned as [int].
    The victim is not the first eligible file of oldest modification
    time. *)
Theorem mtime_pass_keeps_newer_file :
  ouichefs_fblocks_strategy vol_mtime = Some ouichefs_fblocks_strategy_mtime
  /\ visits 2 vol_mtime 1 = Ret [(1, 2); (1, 3)]
  /\ eligible vol_mtime 2 = true /\ eligible vol_mtime 3 = true
  /\ key_of vol_mtime mtime_key 3 < key_of vol_mtime mtime_key 2
  /\ ouichefs_iterate (Some (ouichefs_fblocks_action vol_mtime)) 2
       vol_mtime 1 no_victim
     = Ret {| parent := Some 1; victim_inode := Some 2 |}
  /\ ~ first_best vol_mtime mtime_key [(1, 2); (1, 3)]
         {| parent := Some 1; victim_inode := Some 2 |}.
Proof.
  repeat split; try (vm_compute; reflexivity).
  intros (pre & post & Heq & _ & _ & Hpost).
  destruct pre as [|x pre].
  - injection Heq as <-. apply Forall_cons in Hpost as [H3 _].
    specialize (H3 eq_refl). vm_compute in H3. by apply H3.
  - injection Heq as _ Heq.
    destruct pre as [|y pre]; [discriminate|].
    injection Heq as _ Heq. by destruct pre.
Qed.

(** C3 (defect of the code).  On [vol_sizes] (file 2 of 10 bytes, file 3
    of 20 bytes, both eligible) the comparator installed by
    strategy_changer.c makes the pass select file 2, the smallest file,
    where the one installed by ouichefs_strategy_changer.c makes it select
    file 3, the largest. *)
Theorem by_size_pass_selects_smallest :
  ouichefs_fblocks_strategy (uname_init vol_sizes).1 = Some strategy_by_size
  /\ ouichefs_fblocks_strategy (ouichefs_strategy_changer_init vol_sizes).1
     = Some ouichefs_strategy_size
  /\ visits 2 (uname_init vol_sizes).1 1 = Ret [(1, 2); (1, 3)]
  /\ eligible (uname_init vol_sizes).1 2 = true
  /\ eligible (uname_init vol_sizes).1 3 = true
  /\ key_of (uname_init vol_sizes).1 size_key 2 = 10
  /\ key_of (uname_init vol_sizes).1 size_key 3 = 20
  /\ ouichefs_iterate
       (Some (ouichefs_fblocks_action (uname_init vol_sizes).1)) 2
       (uname_init vol_sizes).1 1 no_victim
     = Ret {| parent := Some 1; victim_inode := Some 2 |}
  /\ ouichefs_iterate
       (Some (ouichefs_fblocks_action
                (ouichefs_strategy_changer_init vol_sizes).1)) 2
       (ouichefs_strategy_changer_init vol_sizes).1 1 no_victim
     = Ret {| parent := Some 1; victim_inode := Some 3 |}.
Proof. repeat split; vm_compute; reflexivity. Qed.



Lemma create_full_without_victim_witness :
  ouichefs_create 2 vol_busy 1 dentry_e 33188 false
  = Ret (vol_busy, dentry_e, - EMLINK).
Proof.
  apply (create_full_without_victim 2 vol_busy 1 dentry_e 33188 false
           (directory 2 10)
           (DirBlock [file_entry 2 name_a; file_entry 3 name_b;
                      file_entry 4 name_c; file_entry 5 name_d])
           [file_entry 2 name_a; file_entry 3 name_b;
            file_entry 4 name_c; file_entry 5 name_d]
           (file_entry 5 name_d)
           [(1, 2); (1, 3); (1, 4); (1, 5)]).
  - vm_compute. discriminate.
  - vm_compute. reflexivity.
  - vm_compute. reflexivity.
  - reflexivity.
  - vm_compute. reflexivity.
  - vm_compute. discriminate.
  - vm_compute. reflexivity.
  - repeat constructor.
Defined.




(** C5 (defect of the code).  Moving file 2 out of the full directory 1
    of [vol_full_src] into the empty directory 6: the scan of the source
    directory, whose loop condition is the constant
    [OUICHEFS_MAX_SUBFILES], reads [files[4]] of an array of 4 entries,
    where the bounded scan of [ouichefs_remove] stops at [i = 4]. *)
Theorem rename_scans_past_full_directory :
  Forall (fun f => inode f <> 0) full_dir
  /\ remove_scan full_dir 2 (Z.to_nat OUICHEFS_MAX_SUBFILES) 0 (-1) = Ret (0, 4)
  /\ rename_scan full_dir 2 = Oops OutOfBounds
  /\ ouichefs_rename vol_full_src 1 dentry_a 6
       {| d_name := name_e; d_inode := None |} 0
     = Oops OutOfBounds.
Proof.
  split; [repeat constructor; vm_compute; discriminate|].
  split; [vm_compute; reflexivity|].
  split; [|vm_compute; reflexivity].
  apply rename_scan_full; [vm_compute; discriminate|].
  repeat constructor; vm_compute; discriminate.
Qed.



(** C8 as stated fails: directory 6 of [vol_unreadable_dir] has link
    count 2 and no entry that could be read, yet [rmdir] neither succeeds
    nor fails with [-ENOTEMPTY]: it fails with [-EIO]. *)
Lemma rmdir_unreadable_index_eio :
  (exists t, inodes vol_unreadable_dir !! 6 = Some t /\ i_nlink t <= 2
             /\ ~ first_slot_used vol_unreadable_dir t)
  /\ ouichefs_rmdir vol_unreadable_dir 1 dentry_sub
     = Ret (vol_unreadable_dir, - EIO)
  /\ - EIO <> 0 /\ - EIO <> - ENOTEMPTY.
Proof.
  split.
  - exists (directory 2 15). split; [vm_compute; reflexivity|].
    split; [vm_compute; discriminate|].
    intros (bh & files & f0 & Hbh & _). vm_compute in Hbh. discriminate.
  - split; [reflexivity|]. split; vm_compute; discriminate.
Qed.

Lemma rmdir_cases_witness :
  ouichefs_rmdir vol_empty_dir 1 dentry_sub
  = ouichefs_unlink vol_empty_dir 1 dentry_sub.
Proof.
  apply (rmdir_cases vol_empty_dir 1 dentry_sub 6 (directory 2 15)).
  - reflexivity.
  - vm_compute. reflexivity.
  - vm_compute. discriminate.
  - exists Zeroed, (repeat zero_file 4), zero_file.
    repeat split; vm_compute; reflexivity.
Defined.



Lemma remove_unreadable_index_witness :
  exists (p' : nat) st',
    ouichefs_remove vol_unreadable_file 1 3 = Ret (st', 0)
    /\ (1 <= p' < 3)%nat
    /\ inode <$> three_files !! p' = Some 3
    /\ blocks st'
       = <[10 := DirBlock (take p' three_files
                           ++ drop (S p') (take 3 three_files)
                           ++ zero_file :: drop 3 three_files)]>
           (blocks vol_unreadable_file)
    /\ inodes st' !! 3
       = Some {| i_mode := 0; i_uid := 0; i_gid := 0; i_size := 0;
                 i_ctime := at_time 0; i_atime := at_time 0;
                 i_mtime := at_time 0; i_blocks := 0; i_nlink := 1;
                 i_count := 1; index_block := 0 |}
    /\ inodes st' !! 1
       = Some {| i_mode := 16877; i_uid := 0; i_gid := 0; i_size := 64;
                 i_ctime := at_time 2000; i_atime := at_time 2000;
                 i_mtime := at_time 2000; i_blocks := 1; i_nlink := 2;
                 i_count := 1; index_block := 10 |}
    /\ (forall q, q <> 3 -> q <> 1 ->
        inodes st' !! q = inodes vol_unreadable_file !! q)
    /\ sbi st' = put_inode (put_block (sbi vol_unreadable_file) 12) 3
    /\ nr_free_inodes (sbi st') = 4
    /\ nr_free_blocks (sbi st') = 18
    /\ ifree_bitmap (sbi st') !! 3%nat = Some true
    /\ bfree_bitmap (sbi st') !! 12%nat = Some true
    /\ bfree_bitmap (sbi st') !! 20%nat = Some false
    /\ bfree_bitmap (sbi st') !! 21%nat = Some false
    /\ blocks st' !! 20 = Some (DataBlock [1; 2; 3])
    /\ blocks st' !! 21 = Some (DataBlock [4; 5; 6]).
Proof.
  destruct (remove_unreadable_index vol_unreadable_file 1 3
              (directory 2 10) lost_file (DirBlock three_files) three_files
              3%nat 1%nat)
    as (p' & st' & Hrm & Hp & Hino & Hblk & Hi & Hd & Hq & Hsbi & Hni & Hnb
        & Hib & Hbb & Hbo & Hbl).
  - vm_compute. reflexivity.
  - vm_compute. reflexivity.
  - vm_compute. reflexivity.
  - reflexivity.
  - reflexivity.
  - split; [cbn; lia|].
    split; repeat constructor; vm_compute; discriminate.
  - lia.
  - reflexivity.
  - vm_compute. reflexivity.
  - exists p', st'.
    split; [exact Hrm|]. split; [exact Hp|]. split; [exact Hino|].
    split; [exact Hblk|]. split; [exact Hi|]. split; [exact Hd|].
    split; [exact Hq|]. split; [exact Hsbi|].
    split; [rewrite Hni; reflexivity|]. split; [rewrite Hnb; reflexivity|].
    split; [apply Hib; [lia|vm_compute; lia]|].
    split; [apply Hbb; [cbn; lia|vm_compute; lia]|].
    split.
    { transitivity (bfree_bitmap (sbi vol_unreadable_file) !! 20%nat);
        [apply (Hbo 20); cbn; lia|vm_compute; reflexivity]. }
    split.
    { transitivity (bfree_bitmap (sbi vol_unreadable_file) !! 21%nat);
        [apply (Hbo 21); cbn; lia|vm_compute; reflexivity]. }
    split.
    { transitivity (blocks vol_unreadable_file !! 20);
        [apply (Hbl 20); cbn; lia|vm_compute; reflexivity]. }
    transitivity (blocks vol_unreadable_file !! 21);
      [apply (Hbl 21); cbn; lia|vm_compute; reflexivity].
Defined.

Lemma rename_same_dir_witness :
  ouichefs_rename vol_three 1 dentry_3b 1 dentry_e 0
  = Ret (vol_three_renamed, 0)
  /\ exists ci bh files (p : nat) f,
    inodes vol_three !! 1 = Some ci
    /\ blocks vol_three !! index_block ci = Some bh
    /\ dir_view bh = Ret files
    /\ files !! p = Some f
    /\ strncmp (filename f) (d_name dentry_3b)
         (Z.to_nat OUICHEFS_FILENAME_LEN) = 0
    /\ blocks vol_three_renamed
       = <[index_block ci :=
             DirBlock (<[p := {| inode := inode f;
                                 filename := strncpy (d_name dentry_e)
                                   (Z.to_nat OUICHEFS_FILENAME_LEN) |}]>
                         files)]> (blocks vol_three)
    /\ inodes vol_three_renamed = inodes vol_three
    /\ sbi vol_three_renamed = sbi vol_three
    /\ aliases vol_three_renamed = aliases vol_three.
Proof.
  assert (H : ouichefs_rename vol_three 1 dentry_3b 1 dentry_e 0
              = Ret (vol_three_renamed, 0)) by reflexivity.
  split; [exact H|].
  exact (rename_same_dir vol_three 1 dentry_3b dentry_e 0
           vol_three_renamed H).
Defined.

Lemma remove_from_dir_compacts_witness :
  exists (p' : nat) files',
    remove_from_dir three_files 3 = Ret files'
    /\ (1 <= p' < 3)%nat
    /\ inode <$> three_files !! p' = Some 3
    /\ (forall q, (p' < q < 3)%nat -> inode <$> three_files !! q <> Some 3)
    /\ length files' = length three_files
    /\ (forall j, (j < p')%nat -> files' !! j = three_files !! j)
    /\ (forall j, (p' <= j < 3 - 1)%nat -> files' !! j = three_files !! S j)
    /\ files' !! (3 - 1)%nat = Some zero_file
    /\ (forall j, (3 <= j)%nat -> files' !! j = three_files !! j)
    /\ take (3 - 1) files' = take p' three_files ++ drop (S p') (take 3 three_files)
    /\ left_packed files' (3 - 1).
Proof.
  apply (remove_from_dir_compacts three_files 3 1 3).
  - reflexivity.
  - split; [cbn; lia|].
    split; repeat constructor; vm_compute; discriminate.
  - lia.
  - reflexivity.
Defined.



Lemma create_then_lookup_witness :
  d_inode dentry_e = None
  /\ exists st',
       ouichefs_create 1 vol_create 1 dentry_e 33188 false
       = Ret (st', dentry_e3, 0)
       /\ (exists st'',
             ouichefs_lookup st' 1 dentry_e 0 = Ret (st'', dentry_e3, 0))
       /\ blocks st' !! 12 = Some Zeroed.
Proof.
  split; [reflexivity|].
  assert (H : match ouichefs_create 1 vol_create 1 dentry_e 33188 false with
              | Ret (st', d', r) =>
                  Some (d', r, index_block <$> inodes st' !! 3)
              | _ => None
              end = Some (dentry_e3, 0, Some 12))
    by (vm_compute; reflexivity).
  destruct (ouichefs_create 1 vol_create 1 dentry_e 33188 false)
    as [[[st' d'] r]| |] eqn:Hcreate; [|discriminate H|discriminate H].
  injection H as -> -> Hib.
  exists st'. split; [reflexivity|].
  destruct (create_then_lookup 1 vol_create 1 dentry_e 33188 false st'
              dentry_e3 0 (directory 2 10) Hcreate)
    as (p & ni & Hd & _ & Hni & Hlook).
  - vm_compute. discriminate.
  - vm_compute. reflexivity.
  - reflexivity.
  - exists (DirBlock [file_entry 2 name_a; zero_file; zero_file; zero_file]).
    split; [vm_compute; reflexivity|].
    eexists. split; [reflexivity|]. split; reflexivity.
  - injection Hd as <-. rewrite Hni in Hib. injection Hib as Hib.
    rewrite <- Hib.
    destruct Hlook as [Hl Hz]; [lia|rewrite Hib; cbn; lia|].
    split; [exact (Hl dentry_e eq_refl)|exact Hz].
Defined.

Lemma remove_absent_target_out_of_bounds_witness :
  ouichefs_remove vol_full_src 6 2 = Oops OutOfBounds.
Proof.
  apply (remove_absent_target_out_of_bounds vol_full_src 6 2
           (directory 2 15) (reg_file 0 1000 1 11)
           (DirBlock [zero_file; zero_file; zero_file; zero_file])
           [zero_file; zero_file; zero_file; zero_file]).
  - vm_compute. reflexivity.
  - vm_compute. reflexivity.
  - vm_compute. reflexivity.
  - reflexivity.
  - reflexivity.
  - lia.
  - constructor.
Defined.

Lemma remove_result_witness :
  exists st',
    ouichefs_remove vol_data 1 2 = Ret (st', 0)
    /\ (exists t',
          inodes st' !! 2 = Some t'
          /\ i_mode t' = 0 /\ i_uid t' = 0 /\ i_gid t' = 0
          /\ i_size t' = 0 /\ i_blocks t' = 0 /\ index_block t' = 0
          /\ tv_sec (i_ctime t') = 0 /\ tv_sec (i_atime t') = 0
          /\ tv_sec (i_mtime t') = 0
          /\ i_count t' = 1)
    /\ nr_free_inodes (sbi st') = 5
    /\ ifree_bitmap (sbi st') !! 2%nat = Some true
    /\ bfree_bitmap (sbi st') !! 11%nat = Some true
    /\ blocks st' !! 11 = Some Zeroed.
Proof.
  assert (H : match ouichefs_remove vol_data 1 2 with
              | Ret (_, r) => r =? 0
              | _ => false
              end = true) by (vm_compute; reflexivity).
  destruct (ouichefs_remove vol_data 1 2) as [[st' r]| |] eqn:Hrm;
    [|discriminate H|discriminate H].
  apply Z.eqb_eq in H. subst r.
  exists st'. split; [reflexivity|].
  destruct (remove_result vol_data 1 2 st' 0 (directory 2 10) data_file Hrm)
    as [[He _]|(_ & _ & Ht & Hn & Hi & Hb & Hz)].
  - vm_compute. reflexivity.
  - vm_compute. reflexivity.
  - vm_compute in He. discriminate He.
  - split; [exact Ht|].
    split; [rewrite Hn; reflexivity|].
    split; [apply Hi; [lia|vm_compute; lia]|].
    split; [apply Hb; [cbn; lia|vm_compute; lia]|].
    apply Hz. vm_compute. eauto.
Defined.

Lemma remove_inodes_witness :
  exists st',
    ouichefs_remove vol_empty_dir 1 6 = Ret (st', 0)
    /\ inodes st'
       = <[6 := {| i_mode := 0; i_uid := 0; i_gid := 0; i_size := 0;
                   i_ctime := at_time 0; i_atime := at_time 0;
                   i_mtime := at_time 0; i_blocks := 0; i_nlink := 2;
                   i_count := 1; index_block := 0 |}]>
           (<[1 := {| i_mode := 16877; i_uid := 0; i_gid := 0; i_size := 64;
                      i_ctime := at_time 2000; i_atime := at_time 2000;
                      i_mtime := at_time 2000; i_blocks := 1; i_nlink := 2;
                      i_count := 1; index_block := 10 |}]>
              (inodes vol_empty_dir)).
Proof.
  assert (H : match ouichefs_remove vol_empty_dir 1 6 with
              | Ret (_, r) => r =? 0
              | _ => false
              end = true) by (vm_compute; reflexivity).
  destruct (ouichefs_remove vol_empty_dir 1 6) as [[st' r]| |] eqn:Hrm;
    [|discriminate H|discriminate H].
  apply Z.eqb_eq in H. subst r.
  exists st'. split; [reflexivity|].
  rewrite (remove_inodes vol_empty_dir 1 6 st' (directory 3 10)
             (directory 2 15) Hrm).
  - reflexivity.
  - vm_compute. reflexivity.
  - vm_compute. reflexivity.
  - lia.
Defined.

Lemma remove_releases_data_blocks_witness :
  exists st',
    ouichefs_remove vol_data 1 2 = Ret (st', 0)
    /\ nr_free_blocks (sbi st') = nr_free_blocks (sbi vol_data) + 2 + 1
    /\ forall b, b ∈ [20; 21] ->
         (is_Some (blocks vol_data !! b) -> blocks st' !! b = Some Zeroed)
         /\ (0 <= b ->
             (Z.to_nat b < length (bfree_bitmap (sbi vol_data)))%nat ->
             bfree_bitmap (sbi st') !! Z.to_nat b = Some true).
Proof.
  assert (H : match ouichefs_remove vol_data 1 2 with
              | Ret (_, r) => r =? 0
              | _ => false
              end = true) by (vm_compute; reflexivity).
  destruct (ouichefs_remove vol_data 1 2) as [[st' r]| |] eqn:Hrm;
    [|done|done].
  apply Z.eqb_eq in H. subst r.
  exists st'. split; [done|].
  apply (remove_releases_data_blocks vol_data 1 2 st' data_file
           (FileIndexBlock data_index) data_index Hrm).
  - vm_compute. reflexivity.
  - reflexivity.
  - vm_compute. reflexivity.
  - reflexivity.
  - repeat constructor; discriminate.
Defined.

Lemma lookup_binds_first_match_witness :
  let st1 :=
    set_inode vol_three 1
      {| i_mode := 16877; i_uid := 0; i_gid := 0; i_size := 64;
         i_ctime := at_time 500; i_atime := at_time 2000;
         i_mtime := at_time 500; i_blocks := 1; i_nlink := 2;
         i_count := 1; index_block := 10 |} in
  match find_name (used_entries three_files) (d_name (probe name_b)) with
  | None => ouichefs_lookup vol_three 1 (probe name_b) 0
            = Ret (st1, d_add (probe name_b) None, 0)
  | Some n =>
      (exists (p : nat) f,
         three_files !! p = Some f /\ inode f = n /\ n <> 0
         /\ strncmp (filename f) (d_name (probe name_b))
              (Z.to_nat OUICHEFS_FILENAME_LEN) = 0
         /\ forall (q : nat) g, (q < p)%nat -> three_files !! q = Some g ->
              inode g <> 0
              /\ strncmp (filename g) (d_name (probe name_b))
                   (Z.to_nat OUICHEFS_FILENAME_LEN) <> 0)
      /\ ouichefs_lookup vol_three 1 (probe name_b) 0
         = if decide (n < nr_inodes (sbi vol_three)
                      /\ is_Some (inodes vol_three !! n))
           then Ret (st1, d_add (probe name_b) (Some n), 0)
           else Oops ErrPtrDeref
  end.
Proof.
  apply (lookup_binds_first_match vol_three 1 (probe name_b) 0
           (directory 2 10) (DirBlock three_files) three_files).
  - vm_compute. discriminate.
  - vm_compute. reflexivity.
  - vm_compute. reflexivity.
  - reflexivity.
  - reflexivity.
Defined.

Lemma lookup_outcomes_witness :
  exists st' d' r,
    ouichefs_lookup vol_three 1 (probe name_c) 0 = Ret (st', d', r)
    /\ ((r = - ENAMETOOLONG /\ st' = vol_three /\ d' = probe name_c
         /\ OUICHEFS_FILENAME_LEN < Z.of_nat (length (d_name (probe name_c))))
        \/ exists ci,
             inodes vol_three !! 1 = Some ci
             /\ Z.of_nat (length (d_name (probe name_c)))
                <= OUICHEFS_FILENAME_LEN
             /\ ((r = - EIO /\ st' = vol_three /\ d' = probe name_c
                  /\ blocks vol_three !! index_block ci = None)
                 \/ (r = 0 /\ is_Some (blocks vol_three !! index_block ci)
                     /\ st'
                        = set_inode vol_three 1
                            {| i_mode := i_mode ci; i_uid := i_uid ci;
                               i_gid := i_gid ci; i_size := i_size ci;
                               i_ctime := i_ctime ci;
                               i_atime := at_time 2000;
                               i_mtime := i_mtime ci;
                               i_blocks := i_blocks ci;
                               i_nlink := i_nlink ci; i_count := i_count ci;
                               index_block := index_block ci |}
                     /\ d_name d' = d_name (probe name_c)
                     /\ forall p, d_inode d' = Some p ->
                          p <> 0 /\ p < nr_inodes (sbi vol_three)
                          /\ is_Some (inodes vol_three !! p)))).
Proof.
  assert (H : match ouichefs_lookup vol_three 1 (probe name_c) 0 with
              | Ret _ => true
              | _ => false
              end = true) by (vm_compute; reflexivity).
  destruct (ouichefs_lookup vol_three 1 (probe name_c) 0)
    as [[[st' d'] r]| |] eqn:Hlook; [|done|done].
  exists st', d', r. split; [done|].
  exact (lookup_outcomes vol_three 1 (probe name_c) 0 st' d' r Hlook).
Defined.

Lemma remove_then_lookup_witness :
  exists st',
    ouichefs_remove vol_three 1 3 = Ret (st', 0)
    /\ (sole_entry (used_entries three_files) (d_name (probe name_b)) 3 ->
        exists st'', ouichefs_lookup st' 1 (probe name_b) 0
                     = Ret (st'', d_add (probe name_b) None, 0))
    /\ (forall n st0,
          n <> 3 ->
          ouichefs_lookup vol_three 1 (probe name_b) 0
          = Ret (st0, d_add (probe name_b) (Some n), 0) ->
          blocks st' !! index_block (directory 2 10) <> Some Zeroed ->
          exists st'', ouichefs_lookup st' 1 (probe name_b) 0
                       = Ret (st'', d_add (probe name_b) (Some n), 0)).
Proof.
  assert (H : match ouichefs_remove vol_three 1 3 with
              | Ret (_, r) => r =? 0
              | _ => false
              end = true) by (vm_compute; reflexivity).
  destruct (ouichefs_remove vol_three 1 3) as [[st' r]| |] eqn:Hrm;
    [|done|done].
  apply Z.eqb_eq in H. subst r.
  exists st'. split; [done|].
  apply (remove_then_lookup vol_three 1 3 st' (directory 2 10)
           (DirBlock three_files) three_files (probe name_b) 0 Hrm).
  - vm_compute. reflexivity.
  - vm_compute. reflexivity.
  - reflexivity.
  - reflexivity.
  - lia.
  - lia.
  - vm_compute. discriminate.
Defined.

Lemma create_appends_entry_witness :
  exists st' (p : Z) (k : nat) files',
    ouichefs_create 1 vol_create 1 dentry_e 33188 false
    = Ret (st', d_add dentry_e (Some p), 0)
    /\ p <> 0
    /\ find_first_bit (ifree_bitmap (sbi vol_create)) 0 = Some p
    /\ blocks st' !! 10 = Some (DirBlock files')
    /\ (k < 4)%nat
    /\ files'
       = <[k := {| inode := p; filename := strncpy name_e 4 |}]>
           [file_entry 2 name_a; zero_file; zero_file; zero_file]
    /\ left_packed files' (S k).
Proof.
  assert (H : match ouichefs_create 1 vol_create 1 dentry_e 33188 false with
              | Ret (_, _, r) => r =? 0
              | _ => false
              end = true) by (vm_compute; reflexivity).
  destruct (ouichefs_create 1 vol_create 1 dentry_e 33188 false)
    as [[[st' d'] r]| |] eqn:Hcreate; [|done|done].
  apply Z.eqb_eq in H. subst r.
  destruct (create_appends_entry 1 vol_create 1 dentry_e 33188 false st' d'
              (directory 2 10)
              (DirBlock [file_entry 2 name_a; zero_file; zero_file; zero_file])
              [file_entry 2 name_a; zero_file; zero_file; zero_file]
              zero_file Hcreate)
    as (p & k & files' & -> & Hp0 & Hp & Hblk & Hk & _ & _ & Hfiles' & Hpacked).
  - vm_compute. reflexivity.
  - vm_compute. reflexivity.
  - reflexivity.
  - reflexivity.
  - reflexivity.
  - reflexivity.
  - lia.
  - cbn. lia.
  - vm_compute. discriminate.
  - vm_compute. discriminate.
  - exists st', p, k, files'. split_and!; try done.
    assert (Hone : left_packed
                     [file_entry 2 name_a; zero_file; zero_file; zero_file] 1).
    { split; [cbn; lia|]. split; repeat constructor; vm_compute; discriminate. }
    destruct (Hpacked 1%nat Hone) as [<- Hp']. exact Hp'.
Defined.

Lemma create_allocates_witness :
  exists st' i0 ni,
    ouichefs_create 1 vol_create 1 dentry_e 33188 false
    = Ret (st', d_add dentry_e (Some 3), 0)
    /\ sbi st' = allocated (sbi vol_create) 3 12
    /\ inodes vol_create !! 3 = Some i0
    /\ index_block ni = 12 /\ i_blocks ni = 1
    /\ i_nlink ni = 1 /\ i_size ni = 0
    /\ i_mtime ni = at_time 2000 /\ i_ctime ni = at_time 2000
    /\ i_atime ni = at_time 2000
    /\ i_uid ni = 1000 /\ i_count ni = i_count i0
    /\ inodes st'
       = <[1 := {| i_mode := 16877; i_uid := 0; i_gid := 0; i_size := 64;
                   i_ctime := at_time 2000; i_atime := at_time 2000;
                   i_mtime := at_time 2000; i_blocks := 1; i_nlink := 2;
                   i_count := 1; index_block := 10 |}]>
           (<[3 := ni]> (inodes vol_create))
    /\ blocks st' !! 12 = Some Zeroed.
Proof.
  assert (H : match ouichefs_create 1 vol_create 1 dentry_e 33188 false with
              | Ret (_, _, r) => r =? 0
              | _ => false
              end = true) by (vm_compute; reflexivity).
  destruct (ouichefs_create 1 vol_create 1 dentry_e 33188 false)
    as [[[st' d'] r]| |] eqn:Hcreate; [|discriminate H|discriminate H].
  apply Z.eqb_eq in H. subst r.
  destruct (create_allocates 1 vol_create 1 dentry_e 33188 false st' d'
              (directory 2 10)
              (DirBlock [file_entry 2 name_a; zero_file; zero_file; zero_file])
              [file_entry 2 name_a; zero_file; zero_file; zero_file]
              zero_file Hcreate)
    as (p & bno & i0 & ni & -> & Hp & _ & Hbno & _ & Hsbi & Hi0 & Hni & Hib
        & Hbl & Hnl & Hsz & Hmt & Hct & Hat & Huid & Hcnt & Hin & Hz & _).
  - vm_compute. reflexivity.
  - vm_compute. reflexivity.
  - reflexivity.
  - reflexivity.
  - reflexivity.
  - reflexivity.
  - lia.
  - cbn. lia.
  - vm_compute. discriminate.
  - vm_compute. discriminate.
  - assert (p = 3) as -> by (vm_compute in Hp; congruence).
    assert (bno = 12) as -> by (vm_compute in Hbno; congruence).
    exists st', i0, ni.
    split; [reflexivity|]. split; [exact Hsbi|]. split; [exact Hi0|].
    split; [exact Hib|]. split; [exact Hbl|]. split; [exact Hnl|].
    split; [exact Hsz|]. split; [exact Hmt|]. split; [exact Hct|].
    split; [exact Hat|]. split; [exact Huid|]. split; [exact Hcnt|].
    split; [exact Hin|exact Hz].
Defined.

Lemma create_keeps_resolutions_witness :
  exists st',
    ouichefs_create 1 vol_create 1 (probe name_a) 33188 false
    = Ret (st', d_add (probe name_a) (Some 3), 0)
    /\ (exists st'', ouichefs_lookup st' 1 (probe name_a) 0
                     = Ret (st'', d_add (probe name_a) (Some 2), 0)).
Proof.
  assert (H : match ouichefs_create 1 vol_create 1 (probe name_a) 33188 false
              with
              | Ret (_, d', r) =>
                  (r =? 0) && bool_decide (d_inode d' = Some 3)
                  && bool_decide (d_name d' = name_a)
              | _ => false
              end = true) by (vm_compute; reflexivity).
  destruct (ouichefs_create 1 vol_create 1 (probe name_a) 33188 false)
    as [[[st' d'] r]| |] eqn:Hcreate; [|done|done].
  apply andb_true_iff in H as [H Hname].
  apply andb_true_iff in H as [Hr Hd']. apply Z.eqb_eq in Hr. subst r.
  apply bool_decide_eq_true in Hd', Hname.
  destruct (create_keeps_resolutions 1 vol_create 1 (probe name_a) 33188 false
              st' d' (directory 2 10)
              (DirBlock [file_entry 2 name_a; zero_file; zero_file; zero_file])
              [file_entry 2 name_a; zero_file; zero_file; zero_file]
              zero_file (probe name_a) 0 2
              (set_inode vol_create 1
                 (set_atime (directory 2 10) (at_time 2000))) Hcreate)
    as [Hlook _].
  - vm_compute. reflexivity.
  - vm_compute. reflexivity.
  - reflexivity.
  - reflexivity.
  - reflexivity.
  - reflexivity.
  - lia.
  - cbn. lia.
  - vm_compute. discriminate.
  - vm_compute. discriminate.
  - vm_compute. discriminate.
  - reflexivity.
  - exists st'. split; [|exact Hlook].
    destruct d' as [nm ino]. cbn in Hname, Hd'. by subst.
Defined.

Lemma create_still_full_out_of_bounds_witness :
  ouichefs_create 2 vol_nested 1 (probe name_e) 33188 false
  = Oops OutOfBounds.
Proof.
  assert (H : match ouichefs_fblocks 2 vol_nested 1 with
              | Ret (st1, r) =>
                  (r =? 0)
                  && match blocks st1 !! 10 with
                     | Some (DirBlock fs) =>
                         (length fs =? 4)%nat
                         && forallb (fun f => negb (inode f =? 0)) fs
                     | _ => false
                     end
                  && match ouichefs_new_inode st1 1 33188 with
                     | Ret (st2, inr p) =>
                         match inodes st2 !! p with
                         | Some ni =>
                             (index_block ni =? 15)
                             && match blocks st2 !! 15 with
                                | Some _ => true
                                | None => false
                                end
                         | None => false
                         end
                     | _ => false
                     end
              | _ => false
              end = true) by (vm_compute; reflexivity).
  destruct (ouichefs_fblocks 2 vol_nested 1) as [[st1 r]| |] eqn:Hev;
    [|discriminate H|discriminate H].
  apply andb_true_iff in H as [H Hnew].
  apply andb_true_iff in H as [Hr Hblk]. apply Z.eqb_eq in Hr. subst r.
  destruct (blocks st1 !! 10) as [[|fs| |]|] eqn:Hfs;
    try discriminate Hblk.
  apply andb_true_iff in Hblk as [Hlen Hall].
  apply Nat.eqb_eq in Hlen.
  destruct (ouichefs_new_inode st1 1 33188) as [[st2 [e|p]]| |] eqn:Halloc;
    try discriminate Hnew.
  destruct (inodes st2 !! p) as [ni|] eqn:Hni; [|discriminate Hnew].
  apply andb_true_iff in Hnew as [Hib Hz]. apply Z.eqb_eq in Hib.
  apply (create_still_full_out_of_bounds 2 vol_nested 1 (probe name_e) 33188
           false (directory 3 10)
           (DirBlock [file_entry 2 name_a; file_entry 3 name_b;
                      file_entry 4 name_c; file_entry 5 name_d])
           [file_entry 2 name_a; file_entry 3 name_b;
            file_entry 4 name_c; file_entry 5 name_d]
           (file_entry 5 name_d) st1 fs st2 p ni).
  - vm_compute. discriminate.
  - vm_compute. reflexivity.
  - vm_compute. reflexivity.
  - reflexivity.
  - reflexivity.
  - vm_compute. discriminate.
  - exact Hev.
  - exact Hfs.
  - exact Hlen.
  - clear -Hall. induction fs as [|f fs IH]; [constructor|].
    cbn in Hall. apply andb_true_iff in Hall as [Hf Hall].
    constructor; [|by apply IH].
    by apply negb_true_iff, Z.eqb_neq in Hf.
  - exact Halloc.
  - exact Hni.
  - rewrite Hib. destruct (blocks st2 !! 15); [eauto|done].
  - rewrite Hib. cbn. lia.
Defined.

Lemma create_codes_witness :
  exists st' d' r,
    ouichefs_create 1 vol_busy 1 dentry_e 33188 false = Ret (st', d', r)
    /\ ((r = - ENAMETOOLONG /\ st' = vol_busy /\ d' = dentry_e
         /\ OUICHEFS_FILENAME_LEN < strlen (d_name dentry_e))
        \/ (r = - EMLINK /\ st' = vol_busy /\ d' = dentry_e
            /\ ouichefs_fblocks 1 vol_busy 1 = Ret (vol_busy, -1))
        \/ (r = 0 /\ exists p, d' = d_add dentry_e (Some p)
                               /\ is_Some (inodes st' !! p))
        \/ ((r = - EIO \/ r = - EINVAL \/ r = - ENOSPC) /\ d' = dentry_e)).
Proof.
  assert (H : match ouichefs_create 1 vol_busy 1 dentry_e 33188 false with
              | Ret _ => true
              | _ => false
              end = true) by (vm_compute; reflexivity).
  destruct (ouichefs_create 1 vol_busy 1 dentry_e 33188 false)
    as [[[st' d'] r]| |] eqn:Hcreate; [|discriminate H|discriminate H].
  exists st', d', r. split; [reflexivity|].
  exact (create_codes 1 vol_busy 1 dentry_e 33188 false st' d' r Hcreate).
Defined.

Lemma create_failure_rolls_back_witness :
  exists st' d' r,
    ouichefs_create 1 vol_create_lost 1 dentry_e 33188 false
    = Ret (st', d', r)
    /\ r <> 0
    /\ sbi st' = sbi vol_create_lost
    /\ blocks st' = blocks vol_create_lost
    /\ d' = dentry_e.
Proof.
  assert (H : match ouichefs_create 1 vol_create_lost 1 dentry_e 33188 false
              with
              | Ret (_, _, r) => negb (r =? 0)
              | _ => false
              end = true) by (vm_compute; reflexivity).
  destruct (ouichefs_create 1 vol_create_lost 1 dentry_e 33188 false)
    as [[[st' d'] r]| |] eqn:Hcreate; [|discriminate H|discriminate H].
  apply negb_true_iff, Z.eqb_neq in H.
  exists st', d', r. split; [reflexivity|]. split; [exact H|].
  destruct (create_failure_rolls_back 1 vol_create_lost 1 dentry_e 33188 false
              st' d' r (directory 2 10)
              (DirBlock [file_entry 2 name_a; zero_file; zero_file; zero_file])
              [file_entry 2 name_a; zero_file; zero_file; zero_file]
              zero_file Hcreate H)
    as (Hsbi & Hblk & Hd & _).
  - vm_compute. reflexivity.
  - vm_compute. reflexivity.
  - reflexivity.
  - reflexivity.
  - reflexivity.
  - vm_compute. discriminate.
  - vm_compute. discriminate.
  - auto.
Defined.

Lemma rename_existing_name_witness :
  ouichefs_rename vol_three 1 dentry_3b 1 (probe name_c) 0
  = Ret (vol_three, - EEXIST).
Proof.
  apply (rename_existing_name vol_three 1 dentry_3b 1 (probe name_c) 0
           (directory 2 10) (directory 2 10) (DirBlock three_files)
           three_files 2%nat (file_entry 4 name_c)).
  - reflexivity.
  - vm_compute. discriminate.
  - vm_compute. reflexivity.
  - vm_compute. reflexivity.
  - vm_compute. reflexivity.
  - reflexivity.
  - reflexivity.
  - reflexivity.
  - vm_compute. reflexivity.
Defined.

Lemma rename_full_target_witness :
  ouichefs_rename vol_full_src 6 dentry_a 1 (probe name_e) 0
  = Ret (vol_full_src, - EMLINK).
Proof.
  apply (rename_full_target vol_full_src 6 dentry_a 1 (probe name_e) 0
           (directory 2 15) (directory 2 10) (DirBlock full_dir) full_dir).
  - reflexivity.
  - vm_compute. discriminate.
  - lia.
  - vm_compute. reflexivity.
  - vm_compute. reflexivity.
  - vm_compute. reflexivity.
  - reflexivity.
  - reflexivity.
  - repeat constructor; vm_compute; discriminate.
  - repeat constructor; vm_compute; discriminate.
Defined.

Lemma rename_moves_entry_witness :
  exists ofiles' st',
    remove_from_dir
      [file_entry 2 name_a; file_entry 3 name_b; zero_file; zero_file] 2
    = Ret ofiles'
    /\ ouichefs_rename vol_two_dirs 1 dentry_a 3 (probe name_e) 0
       = Ret (st', 0)
    /\ blocks st'
       = <[10 := DirBlock ofiles']>
           (<[12 := DirBlock
                      (<[1%nat := {| inode := 2;
                                     filename := strncpy name_e 4 |}]>
                         [file_entry 4 name_c; zero_file; zero_file;
                          zero_file])]>
              (blocks vol_two_dirs))
    /\ inodes st'
       = <[1 := {| i_mode := 16877; i_uid := 0; i_gid := 0; i_size := 64;
                   i_ctime := at_time 2000; i_atime := at_time 2000;
                   i_mtime := at_time 2000; i_blocks := 1; i_nlink := 3;
                   i_count := 1; index_block := 10 |}]>
           (<[3 := {| i_mode := 16877; i_uid := 0; i_gid := 0; i_size := 64;
                      i_ctime := at_time 2000; i_atime := at_time 2000;
                      i_mtime := at_time 2000; i_blocks := 1; i_nlink := 2;
                      i_count := 1; index_block := 12 |}]>
              (inodes vol_two_dirs))
    /\ inodes st' !! 2 = Some (reg_file 0 1000 1 11)
    /\ sbi st' = sbi vol_two_dirs.
Proof.
  destruct (rename_moves_entry vol_two_dirs 1 dentry_a 3 (probe name_e) 0
           (directory 3 10) (directory 2 12)
           (DirBlock [file_entry 4 name_c; zero_file; zero_file; zero_file])
           [file_entry 4 name_c; zero_file; zero_file; zero_file]
           2 (reg_file 0 1000 1 11)
           (DirBlock [file_entry 2 name_a; file_entry 3 name_b;
                      zero_file; zero_file])
           [file_entry 2 name_a; file_entry 3 name_b; zero_file; zero_file]
           0%nat) as (ofiles' & st' & H1 & H2 & H3 & H4 & H5 & H6);
    [..|exists ofiles', st'; split_and!;
        [exact H1|exact H2|rewrite H3; reflexivity|rewrite H4; reflexivity
        |exact H5|exact H6]].
  - reflexivity.
  - vm_compute. discriminate.
  - lia.
  - vm_compute. reflexivity.
  - vm_compute. reflexivity.
  - cbn. lia.
  - vm_compute. reflexivity.
  - reflexivity.
  - reflexivity.
  - repeat constructor; vm_compute; discriminate.
  - cbn. lia.
  - reflexivity.
  - vm_compute. reflexivity.
  - lia.
  - lia.
  - lia.
  - vm_compute. reflexivity.
  - reflexivity.
  - reflexivity.
  - cbn. lia.
  - reflexivity.
Defined.

Lemma rename_unreadable_source_witness :
  ouichefs_rename vol_two_dirs_lost 1 dentry_a 3 (probe name_e) 0
  = Ret (set_inode
           (write_block vol_two_dirs_lost 12
              (DirBlock
                 (<[1%nat := {| inode := 2; filename := strncpy name_e 4 |}]>
                    [file_entry 4 name_c; zero_file; zero_file; zero_file])))
           3 {| i_mode := 16877; i_uid := 0; i_gid := 0; i_size := 64;
                i_ctime := at_time 2000; i_atime := at_time 2000;
                i_mtime := at_time 2000; i_blocks := 1; i_nlink := 2;
                i_count := 1; index_block := 12 |},
         - EIO).
Proof.
  rewrite (rename_unreadable_source vol_two_dirs_lost 1 dentry_a 3
           (probe name_e) 0 (directory 3 10) (directory 2 12)
           (DirBlock [file_entry 4 name_c; zero_file; zero_file; zero_file])
           [file_entry 4 name_c; zero_file; zero_file; zero_file]
           2 (reg_file 0 1000 1 11)); [reflexivity|..].
  - reflexivity.
  - vm_compute. discriminate.
  - lia.
  - vm_compute. reflexivity.
  - vm_compute. reflexivity.
  - vm_compute. reflexivity.
  - reflexivity.
  - reflexivity.
  - repeat constructor; vm_compute; discriminate.
  - cbn. lia.
  - reflexivity.
  - vm_compute. reflexivity.
  - vm_compute. reflexivity.
Defined.

Lemma rename_same_dir_missing_name_witness :
  ouichefs_rename vol_three 1 (probe name_d) 1 (probe name_e) 0
  = Oops OutOfBounds.
Proof.
  apply (rename_same_dir_missing_name vol_three 1 (probe name_d)
           (probe name_e) 0 (directory 2 10) (DirBlock three_files)
           three_files).
  - reflexivity.
  - vm_compute. discriminate.
  - vm_compute. reflexivity.
  - vm_compute. reflexivity.
  - reflexivity.
  - reflexivity.
  - repeat constructor; vm_compute; discriminate.
  - repeat constructor; vm_compute; discriminate.
Defined.

Lemma vol_nested_ranked : ranked vol_nested nested_rank.
Proof.
  intros dir d bh files f i Hd Hbh Hview Hf Hi Hdir.
  apply elem_of_list_to_map_2 in Hd.
  repeat (apply elem_of_cons in Hd as [Hd|Hd]);
    try (by apply elem_of_nil in Hd);
    injection Hd as -> ->;
    vm_compute in Hbh; injection Hbh as <-;
    injection Hview as <-;
    repeat (apply elem_of_cons in Hf as [->|Hf]);
    try (by apply elem_of_nil in Hf);
    vm_compute in Hi; try discriminate Hi; injection Hi as <-;
    vm_compute in Hdir; try discriminate Hdir;
    vm_compute; lia.
Qed.


Lemma walk_self_entry_never_ends_witness :
  ouichefs_iterate (Some (ouichefs_fblocks_action vol_loop)) 1000 vol_loop 1
    no_victim = NoFuel.
Proof.
  apply (walk_self_entry_never_ends (Some (ouichefs_fblocks_action vol_loop))
           vol_loop 1 (directory 2 10)
           (DirBlock [file_entry 1 name_a; zero_file; zero_file; zero_file])
           (file_entry 1 name_a) [zero_file; zero_file; zero_file]).
  - vm_compute. reflexivity.
  - reflexivity.
  - vm_compute. reflexivity.
  - reflexivity.
  - reflexivity.
  - lia.
  - cbn. lia.
  - cbn. lia.
Defined.

Lemma vol_sizes_visits : visits 1 vol_sizes 1 = Ret [(1, 2); (1, 3)].
Proof. vm_compute. reflexivity. Qed.

Lemma vol_sizes_window (strategy : option (vfs_inode -> vfs_inode -> Z))
    (key : vfs_inode -> Z) :
  (forall size mtime count bno,
     0 <= size < 100 -> 0 <= mtime < 2000 ->
     0 <= key (reg_file size mtime count bno) < 2 ^ 31) ->
  within_int_window (set_strategy vol_sizes strategy) key
    [(1, 2); (1, 3)] 0.
Proof.
  intros Hkey x a Hx _ Ha.
  repeat (apply elem_of_cons in Hx as [->|Hx]);
    try (by apply elem_of_nil in Hx);
    vm_compute in Ha; injection Ha as <-; apply Hkey; lia.
Qed.

Lemma mtime_selects_first_oldest_witness :
  exists v,
    ouichefs_iterate (Some (ouichefs_fblocks_action vol_sizes)) 1 vol_sizes 1
      no_victim = Ret v
    /\ first_best vol_sizes mtime_key [(1, 2); (1, 3)] v.
Proof.
  apply (mtime_selects_first_oldest vol_sizes 1 1 [(1, 2); (1, 3)] 0).
  - reflexivity.
  - exact vol_sizes_visits.
  - apply (vol_sizes_window (Some ouichefs_fblocks_strategy_mtime)).
    intros size mtime count bno Hs Hm. cbn. lia.
Defined.

Lemma size_selects_first_largest_witness :
  exists v,
    ouichefs_iterate
      (Some (ouichefs_fblocks_action
               (set_strategy vol_sizes (Some ouichefs_strategy_size))))
      1 (set_strategy vol_sizes (Some ouichefs_strategy_size)) 1 no_victim
    = Ret v
    /\ first_best (set_strategy vol_sizes (Some ouichefs_strategy_size))
         neg_size_key [(1, 2); (1, 3)] v.
Proof.
  apply (size_selects_first_largest
           (set_strategy vol_sizes (Some ouichefs_strategy_size)) 1 1
           [(1, 2); (1, 3)] 0).
  - reflexivity.
  - vm_compute. reflexivity.
  - apply (vol_sizes_window (Some ouichefs_strategy_size)).
    intros size mtime count bno Hs Hm. cbn. lia.
Defined.

Lemma by_size_selects_first_smallest_witness :
  exists v,
    ouichefs_iterate
      (Some (ouichefs_fblocks_action
               (set_strategy vol_sizes (Some strategy_by_size))))
      1 (set_strategy vol_sizes (Some strategy_by_size)) 1 no_victim
    = Ret v
    /\ first_best (set_strategy vol_sizes (Some strategy_by_size))
         size_key [(1, 2); (1, 3)] v.
Proof.
  apply (by_size_selects_first_smallest
           (set_strategy vol_sizes (Some strategy_by_size)) 1 1
           [(1, 2); (1, 3)] 0).
  - reflexivity.
  - vm_compute. reflexivity.
  - apply (vol_sizes_window (Some strategy_by_size)).
    intros size mtime count bno Hs Hm. cbn. lia.
Defined.

Lemma fblocks_evicts_first_best_witness :
  exists v,
    first_best vol_sizes mtime_key [(1, 2); (1, 3)] v
    /\ match victim_inode v, parent v with
       | None, _ => ouichefs_fblocks 1 vol_sizes 1 = Ret (vol_sizes, -1)
       | Some vi, Some p =>
           ouichefs_fblocks 1 vol_sizes 1
           = ('(st', _) ← ouichefs_remove vol_sizes p vi; Ret (st', 0))
           /\ match d_find_any_alias vol_sizes vi with
              | Some d =>
                  d_inode d = Some vi
                  /\ vfs_unlink vol_sizes p d = ouichefs_remove vol_sizes p vi
              | None => aliases vol_sizes !! vi = None
              end
       | Some _, None => False
       end.
Proof.
  apply (fblocks_evicts_first_best vol_sizes ouichefs_fblocks_strategy_mtime
           mtime_key 1 1 [(1, 2); (1, 3)]).
  - reflexivity.
  - exact vol_sizes_visits.
  - apply mtime_ranks with (lo := 0).
    apply (vol_sizes_window (Some ouichefs_fblocks_strategy_mtime)).
    intros size mtime count bno Hs Hm. cbn. lia.
Defined.

Lemma ioctl_codes_witness :
  exists st' r,
    unlocked_ioctl 1 vol_sizes 1 QUICK_CLEAN 0 = Ret (st', r)
    /\ r <> 0
    /\ ((r = - EINVAL /\ _IOC_TYPE QUICK_CLEAN <> IOC_MAGIC
         /\ st' = vol_sizes)
        \/ (r = - ENOTTY /\ _IOC_TYPE QUICK_CLEAN = IOC_MAGIC
            /\ QUICK_CLEAN <> QUICK_CLEAN /\ st' = vol_sizes)
        \/ (r = - EINVAL /\ _IOC_TYPE QUICK_CLEAN = IOC_MAGIC
            /\ QUICK_CLEAN = QUICK_CLEAN
            /\ exists c, ouichefs_fblocks 1 vol_sizes 1 = Ret (st', c)
                         /\ ((c = -1 /\ st' = vol_sizes) \/ c = 0))).
Proof.
  assert (H : match unlocked_ioctl 1 vol_sizes 1 QUICK_CLEAN 0 with
              | Ret _ => true
              | _ => false
              end = true) by (vm_compute; reflexivity).
  destruct (unlocked_ioctl 1 vol_sizes 1 QUICK_CLEAN 0) as [[st' r]| |]
    eqn:Hio; [|discriminate H|discriminate H].
  exists st', r. split; [reflexivity|].
  exact (ioctl_codes 1 vol_sizes 1 QUICK_CLEAN 0 st' r Hio).
Defined.

Lemma vol_create_packed :
  left_packed [file_entry 2 name_a; zero_file; zero_file; zero_file] 1.
Proof.
  split; [cbn; lia|]. split; repeat constructor; vm_compute; discriminate.
Qed.

Lemma create_then_unlink_witness :
  exists st' st'' c,
    ouichefs_create 1 vol_create 1 dentry_e 33188 false
    = Ret (st', dentry_e3, 0)
    /\ find_first_bit (bfree_bitmap (sbi vol_create)) 0 = Some 12
    /\ inodes st' !! 3 = Some c
    /\ index_block c = 12
    /\ ouichefs_unlink st' 1 dentry_e3 = Ret (st'', 0)
    /\ sbi st'' = sbi vol_create
    /\ blocks st'' !! 10
       = Some (DirBlock [file_entry 2 name_a; zero_file; zero_file;
                         zero_file])
    /\ blocks st'' !! 12 = Some Zeroed
    /\ inodes st''
       = <[3 := {| i_mode := 0; i_uid := 0; i_gid := 0; i_size := 0;
                   i_ctime := {| tv_sec := 0;
                                 tv_nsec := tv_nsec (i_ctime c) |};
                   i_atime := {| tv_sec := 0;
                                 tv_nsec := tv_nsec (i_atime c) |};
                   i_mtime := {| tv_sec := 0;
                                 tv_nsec := tv_nsec (i_mtime c) |};
                   i_blocks := 0; i_nlink := i_nlink c;
                   i_count := i_count c; index_block := 0 |}]>
           (<[1 := {| i_mode := 16877; i_uid := 0; i_gid := 0; i_size := 64;
                      i_ctime := at_time 2000; i_atime := at_time 2000;
                      i_mtime := at_time 2000; i_blocks := 1; i_nlink := 2;
                      i_count := 1; index_block := 10 |}]>
              (inodes vol_create)).
Proof.
  assert (H : match ouichefs_create 1 vol_create 1 dentry_e 33188 false with
              | Ret (_, d', r) => (r =? 0) && bool_decide (d_inode d' = Some 3)
              | _ => false
              end = true) by (vm_compute; reflexivity).
  destruct (ouichefs_create 1 vol_create 1 dentry_e 33188 false)
    as [[[st' d'] r]| |] eqn:Hcreate; [|discriminate H|discriminate H].
  apply andb_prop in H as [Hr Hd3].
  apply Z.eqb_eq in Hr. subst r.
  apply bool_decide_eq_true_1 in Hd3.
  destruct (create_then_unlink 1 vol_create 1 dentry_e 33188 false st' d'
              (directory 2 10)
              (DirBlock [file_entry 2 name_a; zero_file; zero_file; zero_file])
              [file_entry 2 name_a; zero_file; zero_file; zero_file]
              1%nat Hcreate)
    as (p & bno & c & st'' & Hd' & Hbno & Hc & Hcb & Hun & Hsbi & Hblk & Hback
        & Hino).
  - vm_compute. reflexivity.
  - vm_compute. reflexivity.
  - reflexivity.
  - reflexivity.
  - exact vol_create_packed.
  - cbn. lia.
  - lia.
  - cbn. lia.
  - vm_compute. discriminate.
  - vm_compute. discriminate.
  - subst d'. cbn in Hd3. injection Hd3 as ->.
    assert (Hb12 : find_first_bit (bfree_bitmap (sbi vol_create)) 0 = Some 12)
      by (vm_compute; reflexivity).
    rewrite Hb12 in Hbno. injection Hbno as <-.
    exists st', st'', c.
    split; [reflexivity|]. split; [exact Hb12|]. split; [exact Hc|].
    split; [exact Hcb|]. split; [exact Hun|]. split; [exact Hsbi|].
    split; [exact (Hback eq_refl)|].
    split; [rewrite Hblk; apply lookup_insert_eq|exact Hino].
Defined.

Lemma mkdir_then_rmdir_witness :
  exists st' d' p ni pd st'' pd'',
    ouichefs_mkdir 1 vol_create 1 dentry_e 493 = Ret (st', d', 0)
    /\ d' = d_add dentry_e (Some p)
    /\ inodes st' !! p = Some ni
    /\ S_ISDIR (i_mode ni) = true /\ i_nlink ni = 2
    /\ inodes st' !! 1 = Some pd
    /\ i_nlink pd = 3
    /\ ouichefs_rmdir st' 1 d' = Ret (st'', 0)
    /\ inodes st'' !! 1 = Some pd''
    /\ i_nlink pd'' = 2
    /\ blocks st'' !! 10
       = Some (DirBlock [file_entry 2 name_a; zero_file; zero_file;
                         zero_file])
    /\ sbi st'' = sbi vol_create.
Proof.
  assert (H : match ouichefs_mkdir 1 vol_create 1 dentry_e 493 with
              | Ret (_, _, r) => r =? 0
              | _ => false
              end = true) by (vm_compute; reflexivity).
  destruct (ouichefs_mkdir 1 vol_create 1 dentry_e 493)
    as [[[st' d'] r]| |] eqn:Hmk; [|discriminate H|discriminate H].
  apply Z.eqb_eq in H. subst r.
  destruct (mkdir_then_rmdir 1 vol_create 1 dentry_e 493 st' d'
              (directory 2 10)
              (DirBlock [file_entry 2 name_a; zero_file; zero_file; zero_file])
              [file_entry 2 name_a; zero_file; zero_file; zero_file]
              1%nat Hmk)
    as (p & ni & pd & st'' & pd'' & Hd' & Hni & Hsd & Hnl & _ & _ & Hpd & Hpl
        & Hrm & Hpd'' & Hback & Hblk & Hsbi).
  - reflexivity.
  - vm_compute. reflexivity.
  - vm_compute. reflexivity.
  - reflexivity.
  - reflexivity.
  - exact vol_create_packed.
  - cbn. lia.
  - lia.
  - cbn. lia.
  - vm_compute. discriminate.
  - vm_compute. discriminate.
  - exists st', d', p, ni, pd, st'', pd''.
    split; [reflexivity|]. split; [exact Hd'|]. split; [exact Hni|].
    split; [exact Hsd|]. split; [exact Hnl|]. split; [exact Hpd|].
    split; [exact Hpl|]. split; [exact Hrm|]. split; [exact Hpd''|].
    split; [apply Hback; cbn; lia|]. split; [exact Hblk|exact Hsbi].
Defined.

Lemma rename_then_lookup_witness :
  exists st',
    ouichefs_rename vol_three 1 dentry_3b 1 (probe name_e) 0 = Ret (st', 0)
    /\ (exists s1, ouichefs_lookup st' 1 (probe name_e) 0
                   = Ret (s1, d_add (probe name_e) (Some 3), 0))
    /\ (exists s2, ouichefs_lookup st' 1 dentry_3b 0
                   = Ret (s2, d_add dentry_3b None, 0)).
Proof.
  apply (rename_then_lookup vol_three 1 dentry_3b (probe name_e) 0 0
           (directory 2 10) (DirBlock three_files) three_files 1%nat
           (file_entry 3 name_b)).
  - reflexivity.
  - vm_compute. discriminate.
  - vm_compute. discriminate.
  - vm_compute. discriminate.
  - vm_compute. reflexivity.
  - vm_compute. reflexivity.
  - reflexivity.
  - reflexivity.
  - reflexivity.
  - vm_compute. reflexivity.
  - intros [|[|[|[|q']]]] g Hg Hc; try reflexivity;
      try (injection Hg as <-; vm_compute in Hc; discriminate Hc).
    discriminate Hg.
  - repeat constructor; vm_compute; discriminate.
  - vm_compute. discriminate.
  - cbn. lia.
  - vm_compute. eauto.
Defined.

Lemma eviction_spares_files_in_use_witness :
  aliases vol_no_alias !! 2 = None
  /\ exists st' r,
       ouichefs_fblocks 2 vol_no_alias 1 = Ret (st', r)
       /\ ((r = -1 /\ st' = vol_no_alias)
           \/ (r = 0 /\
               exists p vi ind c,
                 vi <> 0 /\ inodes vol_no_alias !! vi = Some ind
                 /\ S_ISREG (i_mode ind) = true
                 /\ S_ISDIR (i_mode ind) = false
                 /\ i_count ind <= 1
                 /\ ouichefs_remove vol_no_alias p vi = Ret (st', c))).
Proof.
  split; [vm_compute; reflexivity|].
  assert (H : match ouichefs_fblocks 2 vol_no_alias 1 with
              | Ret _ => true
              | _ => false
              end = true) by (vm_compute; reflexivity).
  destruct (ouichefs_fblocks 2 vol_no_alias 1) as [[st' r]| |] eqn:Hfb;
    [|discriminate H|discriminate H].
  exists st', r. split; [reflexivity|].
  exact (eviction_spares_files_in_use 2 vol_no_alias 1 st' r Hfb).
Defined.
